(** * SmartHomeLLM: validation, fallback and dispatch pipeline

    A shallow embedding of the Python sources

    - [services/openai/schema.py]      (the command schema),
    - [services/openai/validation.py]  ([OpenAIValidator]),
    - [utils/validation.py]            ([is_valid_command_structure], ...),
    - [utils/response_parser.py]       ([ResponseParser.process]),
    - [services/mqtt/mqtt_handler.py]  ([MQTTHandler.dispatch]),
    - [services/openai/realtime.py]    ([validate_payload], [_handle_responses],
                                        [is_valid_json], [_feed_json_delta]),

    followed by the properties of the specification that concern them.

    Python values that [json.loads] can return are the type [json]; the
    value [JNull] is Python's [None].  A function of the sources is a
    computation in [M]: the effects it performs (lines printed, requests
    to the secondary model, messages to the MQTT broker), in order, and
    the value it returns or the exception it raises.  The libraries the
    sources import ([json], [openai], [paho.mqtt], the built-ins [repr]
    and [str.strip]) are interfaces (type classes), so a statement
    holds whatever they answer, or raise: [json.loads] raises
    [JSONDecodeError] or what else the implementation gives up with,
    and [client.connect] raises when the broker cannot be reached.
    The part of [jsonschema] that the schema uses is interpreted by
    [JsonSchema.validate].  [print] and the other calls of the broker's
    client are recorded and do not fail.  When an exception leaves
    [_handle_responses], the client object keeps the assignments made
    before it ([left_by]).  The audio uplink, the session set-up and
    the scheduling of the two tasks are not part of the model:
    [_handle_responses] is run over the list of frames that the socket
    delivers. *)

From Stdlib Require Import String Ascii List ZArith Bool Lia.
Import ListNotations.

Local Open Scope string_scope.
Local Open Scope list_scope.

Set Warnings "-register-all".

(* ================================================================== *)
(** ** Python values *)
(* ================================================================== *)

Module Py.

(** What [json.loads] builds: [None], [bool], [int], [str], [list] and
    [dict].  A [dict] keeps its items in insertion order, which
    [json.dumps] exposes, so [JObj] holds the items as a list of pairs.
    Numbers are integers: no function of the pipeline inspects one. *)
Inductive json : Type :=
| JNull
| JBool (b : bool)
| JInt (n : Z)
| JStr (s : string)
| JArr (elems : list json)
| JObj (items : list (string * json)).

(** Induction over [json] that reaches the values nested in arrays and dicts. *)
Section JsonInduction.

Variable P : json -> Prop.
Hypothesis P_null : P JNull.
Hypothesis P_bool : forall b, P (JBool b).
Hypothesis P_int : forall n, P (JInt n).
Hypothesis P_str : forall s, P (JStr s).
Hypothesis P_arr : forall elems, Forall P elems -> P (JArr elems).
Hypothesis P_obj : forall items, Forall (fun kv => P (snd kv)) items -> P (JObj items).

Fixpoint json_nested_ind (x : json) : P x :=
  match x with
  | JNull => P_null
  | JBool b => P_bool b
  | JInt n => P_int n
  | JStr s => P_str s
  | JArr elems =>
      P_arr elems
        ((fix all (l : list json) : Forall P l :=
            match l with
            | [] => Forall_nil P
            | y :: l' => Forall_cons y (json_nested_ind y) (all l')
            end) elems)
  | JObj items =>
      P_obj items
        ((fix all (l : list (string * json)) : Forall (fun kv => P (snd kv)) l :=
            match l with
            | [] => Forall_nil _
            | kv :: l' => Forall_cons kv (json_nested_ind (snd kv)) (all l')
            end) items)
  end.

End JsonInduction.

(** The exceptions that the modelled code can raise.  [JSONDecodeError]
    is a subclass of [ValueError]; no clause of the sources names
    [ValueError], so the two are kept apart. *)
Inductive exn : Type :=
| AttributeError
| TypeError
| JSONDecodeError
| ValidationError
| OpenAIError
| RecursionError
| ValueError
| OSError.

Definition exn_eqb (a b : exn) : bool :=
  match a, b with
  | AttributeError, AttributeError
  | TypeError, TypeError
  | JSONDecodeError, JSONDecodeError
  | ValidationError, ValidationError
  | OpenAIError, OpenAIError
  | RecursionError, RecursionError
  | ValueError, ValueError
  | OSError, OSError => true
  | _, _ => false
  end.

(** [key in d] / [d[key]] on the items of a dict. *)
Fixpoint dict_get (key : string) (items : list (string * json)) : option json :=
  match items with
  | [] => None
  | (k, v) :: rest => if String.eqb k key then Some v else dict_get key rest
  end.

Definition dict_has (key : string) (items : list (string * json)) : bool :=
  match dict_get key items with Some _ => true | None => false end.

(** [d.get(key)]: the value, or [None] when the key is absent. *)
Definition get (items : list (string * json)) (key : string) : json :=
  match dict_get key items with Some v => v | None => JNull end.

(** [d.get(key, default)]. *)
Definition get_default (items : list (string * json)) (key : string) (default : json) : json :=
  match dict_get key items with Some v => v | None => default end.

(** [d.keys()]. *)
Definition keys (items : list (string * json)) : list string := map fst items.

(** Truth value of an object, as [if x:] and [not x] test it. *)
Definition truthy (x : json) : bool :=
  match x with
  | JNull => false
  | JBool b => b
  | JInt n => negb (Z.eqb n 0)
  | JStr s => negb (String.eqb s "")
  | JArr l => match l with [] => false | _ => true end
  | JObj l => match l with [] => false | _ => true end
  end.

(** Structural equality of values, as a boolean. *)
Fixpoint json_eqb (x y : json) {struct x} : bool :=
  match x, y with
  | JNull, JNull => true
  | JBool a, JBool b => Bool.eqb a b
  | JInt a, JInt b => Z.eqb a b
  | JStr a, JStr b => String.eqb a b
  | JArr xs, JArr ys =>
      (fix elems_eqb (xs ys : list json) {struct xs} : bool :=
         match xs, ys with
         | [], [] => true
         | x' :: xs', y' :: ys' => json_eqb x' y' && elems_eqb xs' ys'
         | _, _ => false
         end) xs ys
  | JObj xs, JObj ys =>
      (fix items_eqb (xs ys : list (string * json)) {struct xs} : bool :=
         match xs, ys with
         | [], [] => true
         | (k, x') :: xs', (k', y') :: ys' =>
             String.eqb k k' && json_eqb x' y' && items_eqb xs' ys'
         | _, _ => false
         end) xs ys
  | _, _ => false
  end.

(** [x == s] for a string literal [s]. *)
Definition eq_str (x : json) (s : string) : bool :=
  match x with JStr t => String.eqb t s | _ => false end.

(** [x in xs] with [json_eqb]. *)
Definition mem (x : json) (xs : list json) : bool := existsb (json_eqb x) xs.

(** No two elements of [xs] are equal. *)
Fixpoint unique (xs : list json) : bool :=
  match xs with
  | [] => true
  | x :: rest => negb (mem x rest) && unique rest
  end.

(** A dict holds a key once: no list of items below repeats a key. *)
Fixpoint distinct (ks : list string) : bool :=
  match ks with
  | [] => true
  | k :: rest => negb (existsb (String.eqb k) rest) && distinct rest
  end.

Fixpoint well_formed (v : json) : bool :=
  match v with
  | JArr elems => forallb well_formed elems
  | JObj items => distinct (keys items) && forallb (fun kv => well_formed (snd kv)) items
  | _ => true
  end.

End Py.
Import Py.

(* ================================================================== *)
(** ** The part of [jsonschema] that the command schema uses *)
(* ================================================================== *)

Module JsonSchema.

(** [isinstance] tests behind the keyword "type". *)
Definition is_type (name : string) (instance : json) : bool :=
  match instance with
  | JNull => String.eqb name "null"
  | JBool _ => String.eqb name "boolean"
  | JInt _ => String.eqb name "integer" || String.eqb name "number"
  | JStr _ => String.eqb name "string"
  | JArr _ => String.eqb name "array"
  | JObj _ => String.eqb name "object"
  end.

Definition kw_type (v instance : json) : bool :=
  match v with
  | JStr name => is_type name instance
  | JArr names =>
      existsb (fun n => match n with JStr name => is_type name instance | _ => false end) names
  | _ => true
  end.

Definition kw_enum (v instance : json) : bool :=
  match v with
  | JArr allowed => mem instance allowed
  | _ => true
  end.

Definition kw_required (v instance : json) : bool :=
  match v, instance with
  | JArr names, JObj items =>
      forallb (fun n => match n with JStr k => dict_has k items | _ => true end) names
  | _, _ => true
  end.

Definition kw_minItems (v instance : json) : bool :=
  match v, instance with
  | JInt n, JArr xs => Z.leb n (Z.of_nat (length xs))
  | _, _ => true
  end.

Definition kw_maxItems (v instance : json) : bool :=
  match v, instance with
  | JInt n, JArr xs => Z.leb (Z.of_nat (length xs)) n
  | _, _ => true
  end.

(** Elements are compared with [json_eqb], dicts item by item; on the
    arrays of strings that the command schema admits this is the
    library's comparison. *)
Definition kw_uniqueItems (v instance : json) : bool :=
  match v, instance with
  | JBool true, JArr xs => unique xs
  | _, _ => true
  end.

(** The keywords that apply subschemas do so through [descend], the
    validator itself (the library's [validator.descend]). *)
Section Keywords.

Variable descend : json -> json -> bool.

Definition kw_properties (v instance : json) : bool :=
  match v, instance with
  | JObj props, JObj items =>
      forallb
        (fun p =>
           match dict_get (fst p) items with
           | Some x => descend (snd p) x
           | None => true
           end) props
  | _, _ => true
  end.

Definition kw_items (v instance : json) : bool :=
  match instance with
  | JArr xs => forallb (descend v) xs
  | _ => true
  end.

Definition kw_anyOf (v instance : json) : bool :=
  match v with
  | JArr subs => existsb (fun s => descend s instance) subs
  | _ => true
  end.

(** The table of keyword validators; an unknown keyword accepts. *)
Definition keyword (k : string) (v instance : json) : bool :=
  if String.eqb k "type" then kw_type v instance
  else if String.eqb k "enum" then kw_enum v instance
  else if String.eqb k "required" then kw_required v instance
  else if String.eqb k "minItems" then kw_minItems v instance
  else if String.eqb k "maxItems" then kw_maxItems v instance
  else if String.eqb k "uniqueItems" then kw_uniqueItems v instance
  else if String.eqb k "properties" then kw_properties v instance
  else if String.eqb k "items" then kw_items v instance
  else if String.eqb k "anyOf" then kw_anyOf v instance
  else true.

End Keywords.

(** [validate schema instance] is [true] when [jsonschema.validate]
    returns and [false] when it raises [ValidationError].  As in the
    library, an instance is valid when every keyword of the schema
    accepts it; a keyword that does not apply to the instance's type
    accepts it. *)
Fixpoint validate (schema instance : json) {struct schema} : bool :=
  match schema with
  | JBool b => b
  | JObj keywords =>
      forallb (fun kw => keyword validate (fst kw) (snd kw) instance) keywords
  | _ => true
  end.

End JsonSchema.

(* ================================================================== *)
(** ** services/openai/schema.py *)
(* ================================================================== *)

Definition color_enum : json := JArr [JStr "red"; JStr "blue"; JStr "green"].

Definition smart_home_command_schema : json :=
  JObj [
    ("type", JStr "object");
    ("required", JArr [JStr "speak"; JStr "command"]);
    ("properties", JObj [
      ("speak", JObj [("type", JStr "string")]);
      ("command", JObj [
        ("anyOf", JArr [
          JObj [
            ("type", JStr "object");
            ("required", JArr [JStr "action"; JStr "device"; JStr "target"]);
            ("properties", JObj [
              ("action", JObj [
                ("type", JStr "string");
                ("enum", JArr [JStr "turn_on"; JStr "turn_off"; JStr "set_brightness";
                               JStr "set_temperature"; JStr "lock"; JStr "unlock"])
              ]);
              ("device", JObj [
                ("type", JStr "string");
                ("enum", JArr [JStr "lights"; JStr "thermostat"; JStr "door"; JStr "fan"])
              ]);
              ("target", JObj [
                ("anyOf", JArr [
                  JObj [("type", JStr "string"); ("enum", color_enum)];
                  JObj [
                    ("type", JStr "array");
                    ("items", JObj [("type", JStr "string"); ("enum", color_enum)]);
                    ("minItems", JInt 1);
                    ("maxItems", JInt 3);
                    ("uniqueItems", JBool true)
                  ]
                ])
              ])
            ])
          ];
          JObj [("type", JStr "null")]
        ])
      ])
    ])
  ].

Definition fallback_repair_schema : json :=
  JObj [
    ("type", JStr "object");
    ("required", JArr [JStr "transcript"; JStr "raw_response"]);
    ("properties", JObj [
      ("transcript", JObj [("type", JStr "string")]);
      ("raw_response", JObj [("type", JStr "string")])
    ])
  ].

(* ================================================================== *)
(** ** Effects: console, MQTT broker, chat completion; exceptions *)
(* ================================================================== *)

Module Eff.

(** The body of [openai.ChatCompletion.create(...)] as [fallback] fills it. *)
Record chat_request : Type := {
  req_model : string;
  req_gpt : option string;
  req_temperature : Z;
  req_messages : list (string * string)   (* role, content *)
}.

(** What [get_validation_error_details] returns besides [None]: the
    two message prefixes; the library's own message text is left out. *)
Inductive error_details : Type :=
| JSON_Decode_Error
| Schema_Validation_Error.

(** One constructor for each [print] of the sources, with the values it shows. *)
Inductive console : Type :=
(* services/mqtt/mqtt_handler.py *)
| MqttSent (topic payload : string)
(* services/openai/validation.py *)
| OpenAIFallbackError (e : exn)
(* utils/validation.py *)
| InvalidResponseReason (error : option error_details)
| AttemptingFallbackRepair
| RecoveredStructuredOutput
| Shown (value : json)
| FallbackAlsoFailed
(* utils/response_parser.py *)
| ResponseFailedValidation
| CouldNotRecover
| SpeakLine (speak : json)
| CommandLine (command : json)
(* services/openai/realtime.py *)
| GotMessageType (msg_type : json)
| JsonDelta (frag : json)
| JsonFinalFragment (frag : json)
| JsonBufferIsEmpty
| JsonParseFailed (e : exn)
| BufferWas (buffer : string)
| ParsedPayload (payload : json).

Inductive effect : Type :=
| Stdout (line : console)
| ChatCompletionCreate (req : chat_request)
| MqttConnect (host : string) (port : Z)
| MqttLoopStart
| MqttPublish (topic payload : string)
| MqttDisconnect.

Inductive outcome (A : Type) : Type :=
| Return (a : A)
| Raise (e : exn).
Arguments Return {A} a.
Arguments Raise {A} e.

(** A computation: the effects it performs, in order, and how it ends. *)
Definition M (A : Type) : Type := (list effect * outcome A)%type.

Definition ret {A} (a : A) : M A := ([], Return a).

Definition raise {A} (e : exn) : M A := ([], Raise e).

Definition emit (e : effect) : M unit := ([e], Return tt).

Definition print (line : console) : M unit := emit (Stdout line).

Definition bind {A B} (m : M A) (f : A -> M B) : M B :=
  match m with
  | (log, Return a) => let '(log', r) := f a in ((log ++ log')%list, r)
  | (log, Raise e) => (log, Raise e)
  end.

(** [try: body  except <classes> as e: handler e]. *)
Definition try_except {A} (body : M A) (catches : exn -> bool) (handler : exn -> M A) : M A :=
  match body with
  | (log, Return a) => (log, Return a)
  | (log, Raise e) =>
      if catches e then let '(log', r) := handler e in ((log ++ log')%list, r)
      else (log, Raise e)
  end.

(** [except Exception]. *)
Definition Exception (e : exn) : bool := true.

Definition effects {A} (m : M A) : list effect := fst m.
Definition result {A} (m : M A) : outcome A := snd m.

End Eff.
Import Eff.

Declare Scope eff_scope.
Delimit Scope eff_scope with eff.
Notation "x <- m ;; k" := (bind m (fun x => k))
  (at level 100, m at next level, right associativity) : eff_scope.
Notation "m ;; k" := (bind m (fun _ => k))
  (at level 100, right associativity) : eff_scope.
Local Open Scope eff_scope.

(* ================================================================== *)
(** ** The imported libraries, as interfaces *)
(* ================================================================== *)

(** The [json] module.  [json_loads text] is the value that
    [json.loads] returns on a [str], and [None] when it raises; it
    then raises [json_loads_error text]: [JSONDecodeError] on a text
    that is not JSON, and whatever else the implementation gives up
    with ([RecursionError] on a text nested beyond the recursion limit,
    [ValueError] on an integer literal beyond the digit limit).
    [json_dumps] is [json.dumps(_, separators=(",", ":"))]. *)
Class JSONLib : Type := {
  json_loads : string -> option json;
  json_loads_error : string -> exn;
  json_dumps : json -> string
}.

(** The client of [paho.mqtt]: [connect_error host port] is the
    exception that [client.connect(host, port)] raises when the broker
    cannot be reached, and [None] when it connects. *)
Class Paho : Type := {
  connect_error : string -> Z -> option exn
}.

(** [openai.ChatCompletion.create(..)] followed by
    [.choices[0].message.content]: the text of the reply, or [None]
    when any of the two raises; and the module's [openai.api_key]. *)
Class OpenAI : Type := {
  chat_completion_content : chat_request -> option string;
  openai_api_key : option string
}.

(** The built-in [repr], which an f-string applies to a value that is
    not a [str]. *)
Class Builtins : Type := {
  repr : json -> string
}.

(** [f"{x}"]. *)
Definition str {B : Builtins} (x : json) : string :=
  match x with
  | JStr s => s
  | _ => repr x
  end.

(** [json.loads(text)] as a computation. *)
Definition loads {J : JSONLib} (text : string) : M json :=
  match json_loads text with
  | Some v => ret v
  | None => raise (json_loads_error text)
  end.

(** [json.loads(x)] on an arbitrary object: only a [str] is accepted. *)
Definition loads_object {J : JSONLib} (x : json) : M json :=
  match x with
  | JStr text => loads text
  | _ => raise TypeError
  end.

(** [x.get(key)]; only a [dict] has the method. *)
Definition dot_get (x : json) (key : string) : M json :=
  match x with
  | JObj items => ret (Py.get items key)
  | _ => raise AttributeError
  end.

(** [x.get(key, default)]. *)
Definition dot_get_default (x : json) (key : string) (default : json) : M json :=
  match x with
  | JObj items => ret (Py.get_default items key default)
  | _ => raise AttributeError
  end.

(** [buffer += frag] on a [str] buffer. *)
Definition str_iadd (buffer : string) (frag : json) : M string :=
  match frag with
  | JStr s => ret (buffer ++ s)%string
  | _ => raise TypeError
  end.

(** [for x in xs]: the elements a loop visits, when [xs] is iterable. *)
Definition iterate (xs : json) : M (list json) :=
  match xs with
  | JArr elems => ret elems
  | JObj items => ret (map JStr (Py.keys items))
  | JStr s => ret (map (fun c => JStr (String c EmptyString)) (list_ascii_of_string s))
  | _ => raise TypeError
  end.

(** [client.connect(host, port)]: the call is recorded; it raises
    when the broker cannot be reached. *)
Definition connect {K : Paho} (host : string) (port : Z) : M unit :=
  emit (MqttConnect host port) ;;
  match connect_error host port with
  | Some e => raise e
  | None => ret tt
  end.

(** [validate(instance=.., schema=..)] of [jsonschema]. *)
Definition jsonschema_validate (instance schema : json) : M unit :=
  if JsonSchema.validate schema instance then ret tt else raise ValidationError.

(** The dispatcher that [ResponseParser] is given: "an object with an
    async dispatch(command: dict) method". *)
Class Dispatcher (D : Type) : Type := {
  dispatch : D -> json -> M unit
}.

(* ================================================================== *)
(** ** services/mqtt/mqtt_handler.py *)
(* ================================================================== *)

Module MQTTHandler.

Record t : Type := { host : string; port : Z }.

(** [__init__]: connect to the broker and start the network loop. *)
Definition init {K : Paho} (host : string) (port : Z) : M t :=
  connect host port ;;
  emit MqttLoopStart ;;
  ret {| host := host; port := port |}.

(** The body of [for color in targets]. *)
Fixpoint publish_each {B : Builtins} (action device : json) (targets : list json) : M unit :=
  match targets with
  | [] => ret tt
  | color :: rest =>
      let topic := (str device ++ "/" ++ str color)%string in
      let payload := if eq_str action "turn_on" then "ON" else "OFF" in
      emit (MqttPublish topic payload) ;;
      print (MqttSent topic payload) ;;
      publish_each action device rest
  end.

Definition dispatch {B : Builtins} (self : t) (command : json) : M unit :=
  action <- dot_get command "action" ;;
  device <- dot_get command "device" ;;
  targets <- dot_get command "target" ;;
  targets <- match targets with
             | JStr _ => ret [targets]
             | _ => iterate targets
             end ;;
  publish_each action device targets.

End MQTTHandler.

#[export] Instance MQTTHandler_Dispatcher {B : Builtins} : Dispatcher MQTTHandler.t :=
  {| dispatch := MQTTHandler.dispatch |}.

(* ================================================================== *)
(** ** services/openai/validation.py *)
(* ================================================================== *)

Module OpenAIValidator.

Record t : Type := {
  api_key : option string;
  gpt_id : option string;
  model : string
}.

Definition init {O : OpenAI} (api_key gpt_id : option string) : t :=
  {| api_key := match api_key with
                | Some k => if String.eqb k "" then openai_api_key else Some k
                | None => openai_api_key
                end;
     gpt_id := gpt_id;
     model := "gpt-4-1106-preview" |}.

Definition get_schema (self : t) : json := smart_home_command_schema.

Definition validate {J : JSONLib} (self : t) (response_text : string) : M (bool * json) :=
  try_except
    (parsed <- loads response_text ;;
     jsonschema_validate parsed (get_schema self) ;;
     ret (true, parsed))
    (fun e => exn_eqb e JSONDecodeError || exn_eqb e ValidationError)
    (fun _ => ret (false, JNull)).

(** A line feed, as the f-string of [fallback] has it. *)
Definition LF : string := String "010"%char EmptyString.

Definition fallback_prompt (transcript raw_response : string) : string :=
  ("Transcript: " ++ transcript ++ LF ++ "Invalid output: " ++ raw_response)%string.

Definition fallback_request (self : t) (transcript raw_response : string) : chat_request :=
  {| req_model := model self;
     req_gpt := gpt_id self;
     req_temperature := 0;
     req_messages := [("user", fallback_prompt transcript raw_response)] |}.

(** The call of the secondary model and the read of its reply. *)
Definition create_and_read {O : OpenAI} (req : chat_request) : M string :=
  emit (ChatCompletionCreate req) ;;
  match chat_completion_content req with
  | Some content => ret content
  | None => raise OpenAIError
  end.

Definition fallback {J : JSONLib} {O : OpenAI} (self : t) (transcript raw_response : string)
  : M (bool * json) :=
  try_except
    (fixed <- create_and_read (fallback_request self transcript raw_response) ;;
     fixed_parsed <- loads fixed ;;
     ret (true, fixed_parsed))
    Exception
    (fun e => print (OpenAIFallbackError e) ;; ret (false, JNull)).

Definition validate_or_fallback {J : JSONLib} {O : OpenAI} (self : t)
  (response_text transcript : string) : M (bool * json) :=
  r <- validate self response_text ;;
  let '(valid, parsed) := r in
  if valid then ret (true, parsed)
  else fallback self transcript response_text.

End OpenAIValidator.

(* ================================================================== *)
(** ** utils/validation.py *)
(* ================================================================== *)

Module Validation.

(** The module-level [validator = OpenAIValidator()]. *)
Definition validator {O : OpenAI} : OpenAIValidator.t := OpenAIValidator.init None None.

Definition is_valid_command_structure {J : JSONLib} (response_text : string) : M (bool * json) :=
  try_except
    (parsed <- loads response_text ;;
     jsonschema_validate parsed smart_home_command_schema ;;
     ret (true, parsed))
    (fun e => exn_eqb e JSONDecodeError || exn_eqb e ValidationError)
    (fun _ => ret (false, JNull)).

Definition get_validation_error_details {J : JSONLib} (response_text : string)
  : M (option error_details) :=
  try_except
    (parsed <- loads response_text ;;
     jsonschema_validate parsed smart_home_command_schema ;;
     ret None)
    (fun e => exn_eqb e JSONDecodeError || exn_eqb e ValidationError)
    (fun e => match e with
              | JSONDecodeError => ret (Some JSON_Decode_Error)
              | _ => ret (Some Schema_Validation_Error)
              end).

(** [if transcript:] on the optional transcript. *)
Definition available (transcript : option string) : option string :=
  match transcript with
  | Some text => if String.eqb text "" then None else Some text
  | None => None
  end.

Definition handle_invalid_response {J : JSONLib} {O : OpenAI}
  (response_text : string) (transcript : option string) : M json :=
  error <- get_validation_error_details response_text ;;
  print (InvalidResponseReason error) ;;
  match available transcript with
  | Some transcript =>
      print AttemptingFallbackRepair ;;
      r <- OpenAIValidator.fallback validator transcript response_text ;;
      let '(success, fixed_json) := r in
      if success then
        print RecoveredStructuredOutput ;;
        print (Shown fixed_json) ;;
        ret fixed_json
      else
        print FallbackAlsoFailed ;;
        ret JNull
  | None => ret JNull
  end.

End Validation.

(* ================================================================== *)
(** ** utils/response_parser.py *)
(* ================================================================== *)

Module ResponseParser.

Record t (D : Type) : Type := { dispatcher : option D }.
Arguments dispatcher {D} _.

Definition init {D : Type} (dispatcher : option D) : t D :=
  {| dispatcher := dispatcher |}.

(** The lines of [process] after validation and repair.  A dispatcher
    object is true in [if self.dispatcher:]; [None] is not. *)
Definition speak_and_dispatch {D : Type} {handler : Dispatcher D} (self : t D) (parsed : json) : M unit :=
  speak <- dot_get parsed "speak" ;;
  command <- dot_get parsed "command" ;;
  print (SpeakLine speak) ;;
  print (CommandLine command) ;;
  match dispatcher self with
  | Some d => dispatch d command
  | None => ret tt
  end.

Definition process {J : JSONLib} {O : OpenAI} {D : Type} {handler : Dispatcher D} (self : t D)
  (raw_content : string) (transcript : option string) : M unit :=
  r <- Validation.is_valid_command_structure raw_content ;;
  let '(valid, parsed) := r in
  if negb valid then
    print ResponseFailedValidation ;;
    fixed <- Validation.handle_invalid_response raw_content transcript ;;
    if negb (truthy fixed) then
      print CouldNotRecover ;;
      ret tt
    else
      parsed <- loads_object fixed ;;
      speak_and_dispatch self parsed
  else
    speak_and_dispatch self parsed.

End ResponseParser.

(* ================================================================== *)
(** ** services/openai/realtime.py *)
(* ================================================================== *)

Module OpenAIRealtimeClient.

(** The fields that the response handler and [publish_payload] use. *)
Record t (D : Type) : Type := {
  last_transcript : option string;
  _json_buffer : string;
  parser : ResponseParser.t D;
  MQTT_BROKER : string;
  MQTT_PORT : Z;
  MQTT_TOPIC : string
}.
Arguments last_transcript {D} _.
Arguments _json_buffer {D} _.
Arguments parser {D} _.
Arguments MQTT_BROKER {D} _.
Arguments MQTT_PORT {D} _.
Arguments MQTT_TOPIC {D} _.

Definition init {D : Type} (dispatcher : option D) : t D :=
  {| last_transcript := None;
     _json_buffer := "";
     parser := ResponseParser.init dispatcher;
     MQTT_BROKER := "test.mosquitto.org";
     MQTT_PORT := 1883;
     MQTT_TOPIC := "voice/commands" |}.

(** [self._json_buffer = buffer]. *)
Definition set_json_buffer {D : Type} (self : t D) (buffer : string) : t D :=
  {| last_transcript := last_transcript self;
     _json_buffer := buffer;
     parser := parser self;
     MQTT_BROKER := MQTT_BROKER self;
     MQTT_PORT := MQTT_PORT self;
     MQTT_TOPIC := MQTT_TOPIC self |}.

Definition publish_payload {J : JSONLib} {K : Paho} {D : Type}
  (self : t D) (payload : json) : M unit :=
  connect (MQTT_BROKER self) (MQTT_PORT self) ;;
  emit (MqttPublish (MQTT_TOPIC self) (json_dumps payload)) ;;
  emit MqttDisconnect.

Definition validate_payload (payload : json) : bool :=
  match payload with
  | JObj items =>
      if negb (dict_has "speak" items) || negb (dict_has "command" items) then false
      else
        match Py.get items "speak" with
        | JStr _ =>
            match Py.get items "command" with
            | JNull => true
            | JObj cmd =>
                let required := ["action"; "device"; "target"] in
                if negb (forallb (fun k => dict_has k cmd) required) then false
                else true
            | _ => false
            end
        | _ => false
        end
  | _ => false
  end.

(** The body of [async for raw in ws] in [_handle_responses]. *)
Definition on_message {J : JSONLib} {K : Paho} {D : Type}
  (self : t D) (raw : string) : M (t D) :=
  msg <- loads raw ;;
  msg_type <- dot_get msg "type" ;;
  print (GotMessageType msg_type) ;;
  if eq_str msg_type "response.content_part.delta" then
    frag <- dot_get_default msg "content" (JStr "") ;;
    print (JsonDelta frag) ;;
    buffer <- str_iadd (_json_buffer self) frag ;;
    ret (set_json_buffer self buffer)
  else if eq_str msg_type "response.content_part.done" then
    frag <- dot_get_default msg "content" (JStr "") ;;
    print (JsonFinalFragment frag) ;;
    buffer <- str_iadd (_json_buffer self) frag ;;
    ret (set_json_buffer self buffer)
  else if eq_str msg_type "response.done" then
    (if String.eqb (_json_buffer self) "" then
       print JsonBufferIsEmpty
     else
       parsed <- try_except
                   (payload <- loads (_json_buffer self) ;; ret (Some payload))
                   Exception
                   (fun e =>
                      print (JsonParseFailed e) ;;
                      print (BufferWas (_json_buffer self)) ;;
                      ret None) ;;
       match parsed with
       | Some payload =>
           print (ParsedPayload payload) ;;
           publish_payload self payload
       | None => ret tt
       end) ;;
    ret (set_json_buffer self "")
  else
    ret self.

(** [_handle_responses] over the frames that the socket delivers. *)
Fixpoint _handle_responses {J : JSONLib} {K : Paho} {D : Type}
  (self : t D) (ws : list string) : M (t D) :=
  match ws with
  | [] => ret self
  | raw :: rest =>
      self' <- on_message self raw ;;
      _handle_responses self' rest
  end.

End OpenAIRealtimeClient.

(* ================================================================== *)
(** ** services/openai/realtime.py: [is_valid_json] and [_feed_json_delta]

    Two more methods of [OpenAIRealtimeClient]; nothing calls them.
    They print lines of their own, so their log is a list of [event]s:
    a printed line or an effect of [publish_payload].  Both catch
    [json.JSONDecodeError] only, and neither catches what
    [publish_payload] raises. *)
(* ================================================================== *)

(** [str.strip()]. *)
Class StrLib : Type := { str_strip : string -> string }.

Module RealtimeDebug.

Import OpenAIRealtimeClient.

(** The lines that the two methods print. *)
Inductive line : Type :=
| MalformedJsonBuffer
| Cleaned (cleaned : string)
| DidntMatchExpectedSchema
| StillMalformed (buffer : string)
| CompleteJson (obj : json).

Inductive event : Type :=
| Line (l : line)
| Broker (e : effect).

(** [s.count(c)] for a one-character [c]. *)
Fixpoint count (c : ascii) (s : string) : nat :=
  match s with
  | EmptyString => 0
  | String c' rest => (if Ascii.eqb c' c then 1 else 0) + count c rest
  end.

(** [self.publish_payload(obj)] in the log of events. *)
Definition publish {J : JSONLib} {K : Paho} {D : Type} (self : t D) (obj : json)
  : list event * outcome unit :=
  (map Broker (effects (publish_payload self obj)), result (publish_payload self obj)).

Definition is_valid_json {J : JSONLib} {K : Paho} {S : StrLib} {D : Type}
  (self : t D) (raw : string) : list event * outcome bool :=
  let cleaned := str_strip raw in
  match json_loads cleaned with
  | None =>
      match json_loads_error cleaned with
      | JSONDecodeError =>
          ([Line MalformedJsonBuffer; Line (Cleaned cleaned)], Return false)
      | e => ([], Raise e)
      end
  | Some obj =>
      if match obj with
         | JObj items =>
             dict_has "speak" items
             && match Py.get items "speak" with JStr _ => true | _ => false end
             && dict_has "command" items
             && match Py.get items "command" with
                | JNull => true
                | JObj _ => true
                | _ => false
                end
         | _ => false
         end
      then
        match publish self obj with
        | (log, Return _) => (log, Return true)
        | (log, Raise e) => (log, Raise e)
        end
      else ([Line DidntMatchExpectedSchema; Line (Cleaned cleaned)], Return false)
  end.

(** The call returns the object as it leaves it, also when it raises:
    the buffer is reset in [finally]. *)
Definition _feed_json_delta {J : JSONLib} {K : Paho} {D : Type}
  (self : t D) (delta : string) : list event * (t D * outcome unit) :=
  let self := set_json_buffer self (_json_buffer self ++ delta)%string in
  if Nat.eqb (count "{" (_json_buffer self)) (count "}" (_json_buffer self)) then
    match json_loads (_json_buffer self) with
    | None =>
        match json_loads_error (_json_buffer self) with
        | JSONDecodeError =>
            ([Line (StillMalformed (_json_buffer self))],
             (set_json_buffer self "", Return tt))
        | e => ([], (set_json_buffer self "", Raise e))
        end
    | Some obj =>
        let '(log, r) := publish self obj in
        (Line (CompleteJson obj) :: log, (set_json_buffer self "", r))
    end
  else ([], (self, Return tt)).

End RealtimeDebug.

(* ================================================================== *)
(** ** A reference implementation of the interfaces

    A reader and a printer for the JSON that the type [json] can
    hold, with a string taken as its characters, of codes below 256.
    The reader is not all of [json.loads]: it rejects a number with a
    fraction or an exponent and an escape [\uXXXX] of code 256 or
    more, which have no value in [json].  The printer writes what
    [json.dumps(_, separators=(",", ":"))] writes for these values;
    [repr] is for values whose strings need no escape.  They make the
    generic statements below executable on concrete frames and
    payloads; no generic statement depends on them. *)
(* ================================================================== *)

Module RefJSON.

Local Open Scope char_scope.

Definition dquote : ascii := "034".
Definition backslash : ascii := "092".

Definition is_ws (c : ascii) : bool :=
  (c =? " ") || (c =? "009") || (c =? "010") || (c =? "013").

Fixpoint skip_ws (cs : list ascii) : list ascii :=
  match cs with
  | c :: rest => if is_ws c then skip_ws rest else cs
  | [] => []
  end.

Definition digit_of (c : ascii) : option Z :=
  let n := nat_of_ascii c in
  if (48 <=? n)%nat && (n <=? 57)%nat then Some (Z.of_nat (n - 48)) else None.

Fixpoint read_digits (acc : Z) (cs : list ascii) : Z * list ascii :=
  match cs with
  | c :: rest =>
      match digit_of c with
      | Some d => read_digits (10 * acc + d) rest
      | None => (acc, cs)
      end
  | [] => (acc, [])
  end.

(** A fraction or an exponent follows: outside the fragment. *)
Definition float_tail (cs : list ascii) : bool :=
  match cs with
  | c :: _ => (c =? ".") || (c =? "e") || (c =? "E")
  | [] => false
  end.

(** ["0"] or a digit from 1 to 9 followed by digits. *)
Definition read_nat (cs : list ascii) : option (Z * list ascii) :=
  match cs with
  | c :: rest =>
      match digit_of c with
      | Some d =>
          let '(n, rest') := if Z.eqb d 0 then (0%Z, rest) else read_digits d rest in
          if float_tail rest' then None else Some (n, rest')
      | None => None
      end
  | [] => None
  end.

Definition read_int (cs : list ascii) : option (Z * list ascii) :=
  match cs with
  | c :: rest =>
      if c =? "-" then
        match read_nat rest with
        | Some (n, rest') => Some (Z.opp n, rest')
        | None => None
        end
      else read_nat cs
  | [] => None
  end.

Definition unescape (c : ascii) : option ascii :=
  if c =? dquote then Some dquote
  else if c =? backslash then Some backslash
  else if c =? "/" then Some "/"
  else if c =? "b" then Some "008"
  else if c =? "f" then Some "012"
  else if c =? "n" then Some "010"
  else if c =? "r" then Some "013"
  else if c =? "t" then Some "009"
  else None.

Definition hex_value (c : ascii) : option nat :=
  let n := nat_of_ascii c in
  if (48 <=? n)%nat && (n <=? 57)%nat then Some (n - 48)
  else if (97 <=? n)%nat && (n <=? 102)%nat then Some (n - 87)
  else if (65 <=? n)%nat && (n <=? 70)%nat then Some (n - 55)
  else None.

(** The character that [\uXXXX] denotes, for a code below 256. *)
Definition unicode_escape (h1 h2 h3 h4 : ascii) : option ascii :=
  match hex_value h1, hex_value h2, hex_value h3, hex_value h4 with
  | Some a, Some b, Some c, Some d =>
      let code := ((a * 16 + b) * 16 + c) * 16 + d in
      if (code <? 256)%nat then Some (ascii_of_nat code) else None
  | _, _, _, _ => None
  end.

(** The characters of a string literal after its opening quote. *)
Fixpoint read_string (cs : list ascii) : option (string * list ascii) :=
  match cs with
  | [] => None
  | c :: rest =>
      if c =? dquote then Some (EmptyString, rest)
      else if c =? backslash then
        match rest with
        | e :: rest' =>
            if e =? "u" then
              match rest' with
              | h1 :: h2 :: h3 :: h4 :: rest'' =>
                  match unicode_escape h1 h2 h3 h4, read_string rest'' with
                  | Some d, Some (s, r) => Some (String d s, r)
                  | _, _ => None
                  end
              | _ => None
              end
            else
              match unescape e, read_string rest' with
              | Some d, Some (s, r) => Some (String d s, r)
              | _, _ => None
              end
        | [] => None
        end
      else if (nat_of_ascii c <? 32)%nat then None
      else
        match read_string rest with
        | Some (s, r) => Some (String c s, r)
        | None => None
        end
  end.

Fixpoint strip_prefix (prefix cs : list ascii) : option (list ascii) :=
  match prefix, cs with
  | [], _ => Some cs
  | p :: prefix', c :: cs' => if c =? p then strip_prefix prefix' cs' else None
  | _ :: _, [] => None
  end.

(** [d[k] = v]: replace in place, or append. *)
Fixpoint dict_set (k : string) (v : json) (items : list (string * json))
  : list (string * json) :=
  match items with
  | [] => [(k, v)]
  | (k', v') :: rest =>
      if String.eqb k' k then (k', v) :: rest else (k', v') :: dict_set k v rest
  end.

Definition dict_of_pairs (pairs : list (string * json)) : list (string * json) :=
  fold_left (fun d kv => dict_set (fst kv) (snd kv) d) pairs [].

Section Containers.

Variable read : list ascii -> option (json * list ascii).

(** Elements after ["["], up to and including ["]"]. *)
Fixpoint read_elems (fuel : nat) (cs : list ascii) : option (list json * list ascii) :=
  match fuel with
  | O => None
  | S fuel' =>
      match read cs with
      | Some (v, rest) =>
          match skip_ws rest with
          | c :: rest' =>
              if c =? "," then
                match read_elems fuel' rest' with
                | Some (vs, r) => Some (v :: vs, r)
                | None => None
                end
              else if c =? "]" then Some ([v], rest')
              else None
          | [] => None
          end
      | None => None
      end
  end.

(** Members after ["{"], up to and including ["}"]. *)
Fixpoint read_members (fuel : nat) (cs : list ascii)
  : option (list (string * json) * list ascii) :=
  match fuel with
  | O => None
  | S fuel' =>
      match skip_ws cs with
      | q :: rest =>
          if q =? dquote then
            match read_string rest with
            | Some (k, rest1) =>
                match skip_ws rest1 with
                | colon :: rest2 =>
                    if colon =? ":" then
                      match read rest2 with
                      | Some (v, rest3) =>
                          match skip_ws rest3 with
                          | c :: rest4 =>
                              if c =? "," then
                                match read_members fuel' rest4 with
                                | Some (ms, r) => Some ((k, v) :: ms, r)
                                | None => None
                                end
                              else if c =? "}" then Some ([(k, v)], rest4)
                              else None
                          | [] => None
                          end
                      | None => None
                      end
                    else None
                | [] => None
                end
            | None => None
            end
          else None
      | [] => None
      end
  end.

End Containers.

Fixpoint read_value (fuel : nat) (cs : list ascii) : option (json * list ascii) :=
  match fuel with
  | O => None
  | S fuel' =>
      match skip_ws cs with
      | [] => None
      | c :: rest =>
          if c =? dquote then
            match read_string rest with
            | Some (s, r) => Some (JStr s, r)
            | None => None
            end
          else if c =? "[" then
            match skip_ws rest with
            | c' :: rest' =>
                if c' =? "]" then Some (JArr [], rest')
                else
                  match read_elems (read_value fuel') fuel' rest with
                  | Some (vs, r) => Some (JArr vs, r)
                  | None => None
                  end
            | [] => None
            end
          else if c =? "{" then
            match skip_ws rest with
            | c' :: rest' =>
                if c' =? "}" then Some (JObj [], rest')
                else
                  match read_members (read_value fuel') fuel' rest with
                  | Some (ms, r) => Some (JObj (dict_of_pairs ms), r)
                  | None => None
                  end
            | [] => None
            end
          else if c =? "n" then
            match strip_prefix ["u"; "l"; "l"] rest with
            | Some r => Some (JNull, r)
            | None => None
            end
          else if c =? "t" then
            match strip_prefix ["r"; "u"; "e"] rest with
            | Some r => Some (JBool true, r)
            | None => None
            end
          else if c =? "f" then
            match strip_prefix ["a"; "l"; "s"; "e"] rest with
            | Some r => Some (JBool false, r)
            | None => None
            end
          else
            match read_int (c :: rest) with
            | Some (n, r) => Some (JInt n, r)
            | None => None
            end
      end
  end.

Definition loads (text : string) : option json :=
  let cs := list_ascii_of_string text in
  match read_value (S (length cs)) cs with
  | Some (v, rest) =>
      match skip_ws rest with
      | [] => Some v
      | _ :: _ => None
      end
  | None => None
  end.

Local Open Scope string_scope.

Definition hex_digit (n : nat) : ascii :=
  if (n <? 10)%nat then ascii_of_nat (48 + n) else ascii_of_nat (87 + n).

(** As [json.dumps] does with [ensure_ascii]: control characters
    without a short escape and characters from 127 on are written
    [\u00XX]. *)
Definition escape_char (c : ascii) : string :=
  if (c =? dquote)%char then String backslash (String dquote "")
  else if (c =? backslash)%char then String backslash (String backslash "")
  else if (c =? "008")%char then String backslash "b"
  else if (c =? "012")%char then String backslash "f"
  else if (c =? "010")%char then String backslash "n"
  else if (c =? "013")%char then String backslash "r"
  else if (c =? "009")%char then String backslash "t"
  else if (nat_of_ascii c <? 32)%nat || (127 <=? nat_of_ascii c)%nat then
    String backslash
      (String "u" (String "0" (String "0"
         (String (hex_digit (nat_of_ascii c / 16))
            (String (hex_digit (nat_of_ascii c mod 16)) "")))))
  else String c "".

Fixpoint escape (s : string) : string :=
  match s with
  | EmptyString => ""
  | String c rest => escape_char c ++ escape rest
  end.

Definition quote (s : string) : string :=
  String dquote (escape s ++ String dquote "").

Fixpoint digits (fuel : nat) (n : Z) (acc : string) : string :=
  match fuel with
  | O => acc
  | S fuel' =>
      let acc' := String (ascii_of_nat (48 + Z.to_nat (n mod 10))) acc in
      if (n <? 10)%Z then acc' else digits fuel' (n / 10) acc'
  end.

Definition decimal (n : Z) : string :=
  if (n <? 0)%Z then "-" ++ digits (S (Z.to_nat (Z.log2 (- n)))) (- n) ""
  else digits (S (Z.to_nat (Z.log2 n))) n "".

Fixpoint dumps (v : json) : string :=
  match v with
  | JNull => "null"
  | JBool true => "true"
  | JBool false => "false"
  | JInt n => decimal n
  | JStr s => quote s
  | JArr vs =>
      "[" ++
      (fix elems (vs : list json) : string :=
         match vs with
         | [] => ""
         | v' :: rest =>
             match rest with
             | [] => dumps v'
             | _ :: _ => dumps v' ++ "," ++ elems rest
             end
         end) vs
      ++ "]"
  | JObj ms =>
      "{" ++
      (fix members (ms : list (string * json)) : string :=
         match ms with
         | [] => ""
         | (k, v') :: rest =>
             match rest with
             | [] => quote k ++ ":" ++ dumps v'
             | _ :: _ => quote k ++ ":" ++ dumps v' ++ "," ++ members rest
             end
         end) ms
      ++ "}"
  end.

(** The reference library has no limit of its own: what it does not
    read is not JSON. *)
Definition lib : JSONLib :=
  {| json_loads := loads;
     json_loads_error := fun _ => JSONDecodeError;
     json_dumps := dumps |}.

(** The number of opening brackets that a text starts with. *)
Fixpoint leading_brackets (s : string) : nat :=
  match s with
  | String c rest => if Ascii.eqb c "[" then S (leading_brackets rest) else 0
  | EmptyString => 0
  end.

(** The reference library under a recursion limit, as CPython's
    [json] has one: the scanner recurses once for each opening bracket
    before it reads anything else, so a text that starts with [limit]
    opening brackets or more makes [json.loads] raise [RecursionError],
    whatever follows them.  Other texts are read as [lib] reads them. *)
Definition bounded (limit : nat) : JSONLib :=
  {| json_loads := fun text =>
       if Nat.leb limit (leading_brackets text) then None else loads text;
     json_loads_error := fun text =>
       if Nat.leb limit (leading_brackets text) then RecursionError else JSONDecodeError;
     json_dumps := dumps |}.

(** A broker that accepts every connection, and one that cannot be
    reached. *)
Definition reachable : Paho := {| connect_error := fun _ _ => None |}.
Definition unreachable : Paho := {| connect_error := fun _ _ => Some OSError |}.

(** [repr]: strings in single quotes, [", "] and [": "] as separators. *)
Fixpoint py_repr (v : json) : string :=
  match v with
  | JNull => "None"
  | JBool true => "True"
  | JBool false => "False"
  | JInt n => decimal n
  | JStr s => "'" ++ s ++ "'"
  | JArr vs =>
      "[" ++
      (fix elems (vs : list json) : string :=
         match vs with
         | [] => ""
         | v' :: rest =>
             match rest with
             | [] => py_repr v'
             | _ :: _ => py_repr v' ++ ", " ++ elems rest
             end
         end) vs
      ++ "]"
  | JObj ms =>
      "{" ++
      (fix members (ms : list (string * json)) : string :=
         match ms with
         | [] => ""
         | (k, v') :: rest =>
             match rest with
             | [] => "'" ++ k ++ "': " ++ py_repr v'
             | _ :: _ => "'" ++ k ++ "': " ++ py_repr v' ++ ", " ++ members rest
             end
         end) ms
      ++ "}"
  end.

Definition builtins : Builtins := {| repr := py_repr |}.

(** A secondary model that answers every request with [reply]. *)
Definition scripted (reply : option string) : OpenAI :=
  {| chat_completion_content := fun _ => reply; openai_api_key := None |}.

(** [q "a"] is the text of the JSON string literal for [a]. *)
Definition q (s : string) : string := quote s.

(** The one-character string holding a double quote. *)
Definition dquote_string : string := String dquote "".

(** *** Vocabulary for reading back what [dumps] wrote *)

Definition digit_char (d : Z) : ascii := ascii_of_nat (48 + Z.to_nat d).

(** A text at which a number ends. *)
Definition number_ends (rest : list ascii) : Prop :=
  match rest with
  | [] => True
  | c :: _ => digit_of c = None /\ float_tail rest = false
  end.

(** The fuel that reading a value back takes. *)
Fixpoint weight (v : json) : nat :=
  match v with
  | JArr elems => S (Nat.max (length elems) (list_max (map weight elems)))
  | JObj items =>
      S (Nat.max (length items) (list_max (map (fun kv => weight (snd kv)) items)))
  | _ => 1
  end.

(** The text between the brackets of a printed list. *)
Definition elems_text (vs : list json) : string :=
  (fix elems (vs : list json) : string :=
     match vs with
     | [] => ""
     | v' :: rest =>
         match rest with
         | [] => dumps v'
         | _ :: _ => dumps v' ++ "," ++ elems rest
         end
     end) vs.

(** The text between the braces of a printed dict. *)
Definition members_text (ms : list (string * json)) : string :=
  (fix members (ms : list (string * json)) : string :=
     match ms with
     | [] => ""
     | (k, v') :: rest =>
         match rest with
         | [] => quote k ++ ":" ++ dumps v'
         | _ :: _ => quote k ++ ":" ++ dumps v' ++ "," ++ members rest
         end
     end) ms.

(** The first character of a printed value decides how it is read. *)
Inductive head_kind : Type := HString | HArray | HObject | HNull | HTrue | HFalse | HNumber.

Definition kind_of (c : ascii) : head_kind :=
  if (c =? dquote)%char then HString
  else if (c =? "[")%char then HArray
  else if (c =? "{")%char then HObject
  else if (c =? "n")%char then HNull
  else if (c =? "t")%char then HTrue
  else if (c =? "f")%char then HFalse
  else HNumber.

Definition starts_value (c : ascii) : Prop :=
  is_ws c = false /\ (c =? "]")%char = false /\ (c =? "}")%char = false.

End RefJSON.

(* ================================================================== *)
(** ** The specification's data model and vocabulary *)
(* ================================================================== *)

(** The Command and Turn Payload of the specification, read on [json]
    values: [speak] is a string; [command] is null or an object with
    [action], [device] and [target] taken from the enumerations, the
    target being one colour or one to three distinct colours. *)
Definition actions : list string :=
  ["turn_on"; "turn_off"; "set_brightness"; "set_temperature"; "lock"; "unlock"].

Definition devices : list string := ["lights"; "thermostat"; "door"; "fan"].

Definition colors : list string := ["red"; "blue"; "green"].

Definition color_values : list json := map JStr colors.

Definition enum_string (allowed : list string) (x : json) : bool :=
  match x with
  | JStr s => existsb (String.eqb s) allowed
  | _ => false
  end.

Definition target_conforms (target : json) : bool :=
  match target with
  | JStr _ => enum_string colors target
  | JArr elems =>
      forallb (enum_string colors) elems
      && (1 <=? length elems)%nat && (length elems <=? 3)%nat
      && unique elems
  | _ => false
  end.

Definition command_conforms (command : json) : bool :=
  match command with
  | JNull => true
  | JObj cmd =>
      match dict_get "action" cmd, dict_get "device" cmd, dict_get "target" cmd with
      | Some action, Some device, Some target =>
          enum_string actions action && enum_string devices device && target_conforms target
      | _, _, _ => false
      end
  | _ => false
  end.

Definition conforms (payload : json) : bool :=
  match payload with
  | JObj items =>
      match dict_get "speak" items, dict_get "command" items with
      | Some (JStr _), Some command => command_conforms command
      | _, _ => false
      end
  | _ => false
  end.

(** The parts of [smart_home_command_schema], named. *)
Definition string_enum_schema (allowed : list string) : json :=
  JObj [("type", JStr "string"); ("enum", JArr (map JStr allowed))].

Definition target_schema : json :=
  JObj [("anyOf", JArr [
    string_enum_schema colors;
    JObj [("type", JStr "array");
          ("items", string_enum_schema colors);
          ("minItems", JInt 1);
          ("maxItems", JInt 3);
          ("uniqueItems", JBool true)]])].

Definition command_schema : json :=
  JObj [("anyOf", JArr [
    JObj [("type", JStr "object");
          ("required", JArr [JStr "action"; JStr "device"; JStr "target"]);
          ("properties", JObj [
             ("action", string_enum_schema actions);
             ("device", string_enum_schema devices);
             ("target", target_schema)])];
    JObj [("type", JStr "null")]])].

(** The elements that the loop of [dispatch] visits: a string target
    counts as a list of one element, a list gives its elements and a
    dict its keys; nothing else can be iterated. *)
Definition target_elements (target : json) : option (list json) :=
  match target with
  | JStr _ => Some [target]
  | JArr elems => Some elems
  | JObj items => Some (map JStr (Py.keys items))
  | _ => None
  end.

(** The messages sent to the broker, in order. *)
Definition published (log : list effect) : list (string * string) :=
  flat_map (fun e => match e with
                     | MqttPublish topic payload => [(topic, payload)]
                     | _ => []
                     end) log.

(** The requests made to the secondary model, in order. *)
Definition repairs (log : list effect) : list chat_request :=
  flat_map (fun e => match e with
                     | ChatCompletionCreate req => [req]
                     | _ => []
                     end) log.

(** A computation is [quiet] when it asks nothing of the secondary model. *)
Definition quiet {A : Type} (m : M A) : Prop := repairs (effects m) = [].

(** The states of the assembler between two messages: no buffered
    text, or some. *)
Inductive phase : Type := Idle | Accumulating.

Definition phase_of {D : Type} (self : OpenAIRealtimeClient.t D) : phase :=
  if String.eqb (OpenAIRealtimeClient._json_buffer self) "" then Idle else Accumulating.

(** A frame that [json.loads] reads as a dict whose "type" is [name]. *)
Definition frame_of_type {J : JSONLib} (name raw : string) : Prop :=
  exists msg, json_loads raw = Some (JObj msg) /\ dict_get "type" msg = Some (JStr name).

(** Concrete frames and payloads. *)
Module Sample.

Import RefJSON.

(** [{"speak":"hi","command":null}] *)
Definition null_command_text : string :=
  "{" ++ q "speak" ++ ":" ++ q "hi" ++ "," ++ q "command" ++ ":null}".

Definition null_command : json := JObj [("speak", JStr "hi"); ("command", JNull)].

(** [{"foo":1}]: well-formed JSON that the schema rejects. *)
Definition foo_text : string := "{" ++ q "foo" ++ ":1}".

Definition foo : json := JObj [("foo", JInt 1)].

(** [{"type":"response.content_part.delta","content":<fragment>}] *)
Definition delta_frame (fragment : string) : string :=
  "{" ++ q "type" ++ ":" ++ q "response.content_part.delta" ++ ","
      ++ q "content" ++ ":" ++ q fragment ++ "}".

(** [{"type":"response.done"}] *)
Definition done_frame : string := "{" ++ q "type" ++ ":" ++ q "response.done" ++ "}".

Definition lights_command : list (string * json) :=
  [("action", JStr "turn_on"); ("device", JStr "lights");
   ("target", JArr [JStr "red"; JStr "blue"])].

Definition lights_payload : json :=
  JObj [("speak", JStr "ok"); ("command", JObj lights_command)].

Definition red_red_command : list (string * json) :=
  [("action", JStr "turn_on"); ("device", JStr "lights");
   ("target", JArr [JStr "red"; JStr "red"])].

Definition red_red_items : list (string * json) :=
  [("speak", JStr "ok"); ("command", JObj red_red_command)].

(** An action outside the enumeration. *)
Definition explode_items : list (string * json) :=
  [("speak", JStr "ok");
   ("command", JObj [("action", JStr "explode"); ("device", JStr "lights");
                     ("target", JStr "red")])].

Definition mqtt : MQTTHandler.t :=
  {| MQTTHandler.host := "192.168.1.251"; MQTTHandler.port := 1885 |}.

End Sample.

(* ================================================================== *)
(** ** More vocabulary *)
(* ================================================================== *)

(** The targets of the schema: one colour, or one to three distinct
    colours. *)
Definition target_of_schema (target : json) : Prop :=
  (exists c, target = JStr c /\ In c colors)
  \/ (exists cs, target = JArr (map JStr cs)
                 /\ Forall (fun c => In c colors) cs
                 /\ NoDup cs
                 /\ (1 <= length cs <= 3)%nat).

(** The commands of the schema: [None], or a dict with an action, a
    device and a target of the enumerations. *)
Definition command_of_schema (command : json) : Prop :=
  command = JNull
  \/ (exists cmd action device target,
         command = JObj cmd
         /\ dict_get "action" cmd = Some (JStr action) /\ In action actions
         /\ dict_get "device" cmd = Some (JStr device) /\ In device devices
         /\ dict_get "target" cmd = Some target /\ target_of_schema target).

(** [is_valid_command_structure] answers [(False, None)]. *)
Definition fails_validation {J : JSONLib} (text : string) : Prop :=
  Validation.is_valid_command_structure text = ret (false, JNull).

(** The payload that [dispatch] sends for an action. *)
Definition on_off (action : string) : string :=
  if String.eqb action "turn_on" then "ON" else "OFF".

(** What [dispatch] does for one colour of a device. *)
Definition switch (action device color : string) : list effect :=
  [MqttPublish (device ++ "/" ++ color)%string (on_off action);
   Stdout (MqttSent (device ++ "/" ++ color)%string (on_off action))].

(** Effects that do not reach the broker. *)
Definition off_broker (e : effect) : bool :=
  match e with
  | Stdout _ => true
  | ChatCompletionCreate _ => true
  | _ => false
  end.

(** A computation is [offline] when none of its effects reaches the broker. *)
Definition offline {A : Type} (m : M A) : Prop := forallb off_broker (effects m) = true.

(** A frame that [json.loads] reads as a dict of type
    response.content_part.delta or response.content_part.done whose
    "content" is [content]; a frame without the key carries the empty
    string. *)
Definition content_frame {J : JSONLib} (raw : string) (content : json) : Prop :=
  exists (msg : list (string * json)) (name : string),
    json_loads raw = Some (JObj msg)
    /\ dict_get "type" msg = Some (JStr name)
    /\ (name = "response.content_part.delta" \/ name = "response.content_part.done")
    /\ Py.get_default msg "content" (JStr "") = content.

(** The text that the fragments of a turn add to the buffer. *)
Definition joined (frags : list string) : string := fold_right String.append "" frags.

(** The message types that [_handle_responses] acts on. *)
Definition handled_types : list string :=
  ["response.content_part.delta"; "response.content_part.done"; "response.done"].

(** An object with a string under "speak" and [None] or a dict under
    "command". *)
Definition speak_and_command (obj : json) : Prop :=
  exists (items : list (string * json)) (speak : string),
    obj = JObj items
    /\ dict_get "speak" items = Some (JStr speak)
    /\ (dict_get "command" items = Some JNull
        \/ exists cmd, dict_get "command" items = Some (JObj cmd)).

(** The broker's part of a log of [RealtimeDebug]. *)
Definition broker (log : list RealtimeDebug.event) : list effect :=
  flat_map (fun ev => match ev with
                      | RealtimeDebug.Broker e => [e]
                      | RealtimeDebug.Line _ => []
                      end) log.

(** Successive calls of [_feed_json_delta], one per fragment, up to
    the first that raises. *)
Fixpoint feed_each {J : JSONLib} {K : Paho} {D : Type}
  (self : OpenAIRealtimeClient.t D) (deltas : list string)
  : list RealtimeDebug.event * (OpenAIRealtimeClient.t D * outcome unit) :=
  match deltas with
  | [] => ([], (self, Return tt))
  | delta :: rest =>
      match RealtimeDebug._feed_json_delta self delta with
      | (log, (self', Return _)) =>
          let '(log', end_) := feed_each self' rest in
          ((log ++ log')%list, end_)
      | (log, (self', Raise e)) => (log, (self', Raise e))
      end
  end.

(** The client object as a run of [_handle_responses] leaves it,
    whether the run returns or raises.  Every branch of the loop body
    assigns [self._json_buffer] in its last statement, so a frame whose
    processing raises leaves the object as it found it. *)
Fixpoint left_by {J : JSONLib} {K : Paho} {D : Type}
  (self : OpenAIRealtimeClient.t D) (ws : list string) : OpenAIRealtimeClient.t D :=
  match ws with
  | [] => self
  | raw :: rest =>
      match result (OpenAIRealtimeClient.on_message self raw) with
      | Return self' => left_by self' rest
      | Raise _ => self
      end
  end.

(** The broker of the client accepts the connection. *)
Definition connects {K : Paho} {D : Type} (self : OpenAIRealtimeClient.t D) : bool :=
  match connect_error (OpenAIRealtimeClient.MQTT_BROKER self)
          (OpenAIRealtimeClient.MQTT_PORT self) with
  | None => true
  | Some _ => false
  end.

(** The exceptions that [except (json.JSONDecodeError, ValidationError)]
    catches. *)
Definition caught (e : exn) : bool :=
  exn_eqb e JSONDecodeError || exn_eqb e ValidationError.

(** The exception of [json.loads] on a text that such a clause lets
    out, if there is one. *)
Definition escapes {J : JSONLib} (text : string) : option exn :=
  match json_loads text with
  | Some _ => None
  | None => if caught (json_loads_error text) then None else Some (json_loads_error text)
  end.

(** As many opening as closing braces. *)
Definition balanced (text : string) : bool :=
  Nat.eqb (RealtimeDebug.count "{" text) (RealtimeDebug.count "}" text).

(** [str.strip()] on ASCII text: tab to carriage return, the four
    separators 28..31 and the space are white. *)
Definition py_space (c : ascii) : bool :=
  let n := nat_of_ascii c in
  (Nat.leb 9 n && Nat.leb n 13) || (Nat.leb 28 n && Nat.leb n 32).

Fixpoint lstrip (s : string) : string :=
  match s with
  | String c rest => if py_space c then lstrip rest else s
  | EmptyString => EmptyString
  end.

Fixpoint rstrip (s : string) : string :=
  match s with
  | EmptyString => EmptyString
  | String c rest =>
      match rstrip rest with
      | EmptyString => if py_space c then EmptyString else String c EmptyString
      | kept => String c kept
      end
  end.

Definition ascii_strip : StrLib := {| str_strip := fun s => rstrip (lstrip s) |}.

(** More concrete texts and frames. *)
Module Frames.

Import RefJSON.

(** The text of [Sample.lights_payload]. *)
Definition lights_text : string := dumps Sample.lights_payload.

(** That text once more encoded, as a JSON string. *)
Definition quoted_lights_text : string := dumps (JStr lights_text).

(** [{"type":"ping"}] *)
Definition ping_frame : string := "{" ++ q "type" ++ ":" ++ q "ping" ++ "}".

(** [{"type":"response.content_part.delta","content":7}] *)
Definition number_frame : string :=
  "{" ++ q "type" ++ ":" ++ q "response.content_part.delta" ++ ","
      ++ q "content" ++ ":7}".

(** The two halves of [Sample.null_command_text]. *)
Definition head : string := "{" ++ q "speak" ++ ":" ++ q "hi" ++ ",".
Definition tail : string := q "command" ++ ":null}".

(** [n] opening brackets, and a thousand of them. *)
Fixpoint brackets (n : nat) : string :=
  match n with
  | O => ""
  | S n' => String "["%char (brackets n')
  end.

Definition deep : string := brackets 1000.

(** [{"speak":"ok","command":{}}] *)
Definition bare_command : list (string * json) := [("speak", JStr "ok"); ("command", JObj [])].
Definition bare_command_text : string := dumps (JObj bare_command).

End Frames.

(* ================================================================== *)
(** * Properties *)
(* ================================================================== *)

(** ** Values *)

Lemma json_eqb_eq (x y : json) : json_eqb x y = true <-> x = y.
Proof.
  revert y. induction x as [ | b | n | s | elems IH | items IH ] using json_nested_ind;
    intros [ | b' | n' | s' | elems' | items' ]; simpl;
    try (split; [discriminate | intros H; discriminate H]);
    try (split; reflexivity).
  - rewrite Bool.eqb_true_iff. split; [intros ->; reflexivity | intros [= ->]; reflexivity].
  - rewrite Z.eqb_eq. split; [intros ->; reflexivity | intros [= ->]; reflexivity].
  - rewrite String.eqb_eq. split; [intros ->; reflexivity | intros [= ->]; reflexivity].
  - revert elems'. induction IH as [ | x xs Hx _ IHxs ]; intros [ | y ys ];
      try (split; [discriminate | intros H; discriminate H]); try (split; reflexivity).
    rewrite andb_true_iff, Hx, IHxs.
    split; [intros [-> [= ->]]; reflexivity | intros [= -> ->]; split; reflexivity].
  - revert items'. induction IH as [ | [k x] xs Hx _ IHxs ]; intros [ | [k' y] ys ];
      try (split; [discriminate | intros H; discriminate H]); try (split; reflexivity).
    simpl in Hx. rewrite !andb_true_iff, String.eqb_eq, Hx, IHxs.
    split; [intros [[-> ->] [= ->]]; reflexivity | intros [= -> -> ->]; repeat split; reflexivity].
Qed.

Lemma mem_In (x : json) (xs : list json) : mem x xs = true <-> In x xs.
Proof.
  unfold mem. rewrite existsb_exists. split.
  - intros [y [Hy Heq]]. apply json_eqb_eq in Heq. subst. exact Hy.
  - intros Hx. exists x. split; [exact Hx | apply json_eqb_eq; reflexivity].
Qed.

Lemma unique_NoDup (xs : list json) : unique xs = true <-> NoDup xs.
Proof.
  induction xs as [ | x xs IH ]; simpl.
  - split; [constructor | reflexivity].
  - rewrite andb_true_iff, negb_true_iff, IH. split.
    + intros [Hm Hn]. constructor; [ | exact Hn].
      intros Hin. apply mem_In in Hin. congruence.
    + intros H. inversion H as [ | ? ? Hnot Hn ]; subst. split; [ | exact Hn].
      destruct (mem x xs) eqn:E; [ | reflexivity]. apply mem_In in E. contradiction.
Qed.

Lemma eq_str_true (x : json) (s : string) : eq_str x s = true <-> x = JStr s.
Proof.
  destruct x; simpl; try (split; [discriminate | intros H; discriminate H]).
  rewrite String.eqb_eq. split; [intros ->; reflexivity | intros [= ->]; reflexivity].
Qed.

Lemma forallb_pointwise {A : Type} (f g : A -> bool) (l : list A) :
  (forall x, f x = g x) -> forallb f l = forallb g l.
Proof.
  intros Hfg. induction l as [ | x l IH ]; simpl; [reflexivity | rewrite Hfg, IH; reflexivity].
Qed.

Lemma leb_Z_nat (a b : nat) : (Z.of_nat a <=? Z.of_nat b)%Z = (a <=? b)%nat.
Proof.
  destruct (Z.leb_spec (Z.of_nat a) (Z.of_nat b)), (Nat.leb_spec a b); try reflexivity; lia.
Qed.

(** ** Computations *)

Lemma bind_ret {A B : Type} (a : A) (f : A -> M B) : bind (ret a) f = f a.
Proof. unfold bind, ret. destruct (f a) as [log r]. reflexivity. Qed.

Lemma bind_emit {B : Type} (e : effect) (f : unit -> M B) :
  bind (emit e) f = (e :: effects (f tt), result (f tt)).
Proof. unfold bind, emit, effects, result. destruct (f tt) as [log r]. reflexivity. Qed.

Lemma bind_assoc {A B C : Type} (m : M A) (f : A -> M B) (g : B -> M C) :
  bind (bind m f) g = bind m (fun a => bind (f a) g).
Proof.
  destruct m as [log [a | e]]; [ | reflexivity].
  unfold bind at 2 3. destruct (f a) as [log1 [b | e1]] eqn:Ef.
  - unfold bind. destruct (g b) as [log2 r2]. rewrite app_assoc. reflexivity.
  - reflexivity.
Qed.

Lemma bind_ext {A B : Type} (m : M A) (f g : A -> M B) :
  (forall a, f a = g a) -> bind m f = bind m g.
Proof.
  intros Hfg. destruct m as [log [a | e]]; [ | reflexivity].
  unfold bind. rewrite Hfg. reflexivity.
Qed.

Lemma result_bind {A B : Type} (m : M A) (f : A -> M B) (a : A) :
  result m = Return a -> result (bind m f) = result (f a).
Proof.
  destruct m as [log r]. cbn [result snd]. intros ->.
  unfold bind. destruct (f a) as [log' r']. reflexivity.
Qed.

Lemma repairs_app (log log' : list effect) :
  repairs (log ++ log') = (repairs log ++ repairs log')%list.
Proof. unfold repairs. apply flat_map_app. Qed.

Lemma quiet_ret {A : Type} (a : A) : quiet (ret a).
Proof. reflexivity. Qed.

Lemma quiet_raise {A : Type} (e : exn) : quiet (@raise A e).
Proof. reflexivity. Qed.

Lemma quiet_print (line : console) : quiet (print line).
Proof. reflexivity. Qed.

Lemma quiet_bind {A B : Type} (m : M A) (f : A -> M B) :
  quiet m -> (forall a, quiet (f a)) -> quiet (bind m f).
Proof.
  unfold quiet. destruct m as [log [a | e]]; cbn [effects fst]; intros Hm Hf.
  - specialize (Hf a). unfold bind. destruct (f a) as [log' r].
    cbn [effects fst] in *. rewrite repairs_app, Hm, Hf. reflexivity.
  - exact Hm.
Qed.

Lemma quiet_try_except {A : Type} (body : M A) (catches : exn -> bool) (handler : exn -> M A) :
  quiet body -> (forall e, quiet (handler e)) -> quiet (try_except body catches handler).
Proof.
  unfold quiet. destruct body as [log [a | e]]; cbn [effects fst]; intros Hm Hh.
  - exact Hm.
  - unfold try_except. destruct (catches e); [ | exact Hm].
    specialize (Hh e). destruct (handler e) as [log' r].
    cbn [effects fst] in *. rewrite repairs_app, Hm, Hh. reflexivity.
Qed.

Create HintDb quiet.
#[export] Hint Resolve quiet_ret quiet_raise quiet_print quiet_bind quiet_try_except : quiet.

(** ** The schema and the data model *)

Import JsonSchema.

Lemma validate_obj (keywords : list (string * json)) (instance : json) :
  validate (JObj keywords) instance
  = forallb (fun kw => keyword validate (fst kw) (snd kw) instance) keywords.
Proof. reflexivity. Qed.

Lemma schema_parts :
  smart_home_command_schema
  = JObj [("type", JStr "object");
          ("required", JArr [JStr "speak"; JStr "command"]);
          ("properties", JObj [("speak", JObj [("type", JStr "string")]);
                               ("command", command_schema)])].
Proof. reflexivity. Qed.

(** Run the keyword table over the literal keywords of a schema. *)
Ltac run_keywords :=
  rewrite validate_obj;
  cbn [forallb fst snd keyword String.eqb Ascii.eqb Bool.eqb];
  rewrite ?andb_true_r.

Ltac run_type := cbn [is_type String.eqb Ascii.eqb Bool.eqb andb orb forallb fst snd].

Lemma validate_string_enum (allowed : list string) (x : json) :
  validate (string_enum_schema allowed) x = enum_string allowed x.
Proof.
  unfold string_enum_schema. run_keywords. unfold kw_type, kw_enum.
  destruct x as [ | b | n | s | elems | items ]; try reflexivity.
  unfold is_type, mem, enum_string. rewrite String.eqb_refl, andb_true_l.
  induction allowed as [ | a allowed IH ]; [reflexivity | ].
  cbn [existsb map]. rewrite IH. reflexivity.
Qed.

Lemma validate_target (target : json) :
  validate target_schema target = target_conforms target.
Proof.
  unfold target_schema. run_keywords.
  unfold kw_anyOf. cbn [existsb]. rewrite validate_string_enum, orb_false_r.
  run_keywords. unfold kw_type, kw_items, kw_minItems, kw_maxItems, kw_uniqueItems.
  destruct target as [ | b | n | s | elems | items ]; try reflexivity.
  - run_type. apply orb_false_r.
  - unfold target_conforms. cbn [enum_string orb].
    rewrite (forallb_pointwise _ _ elems (validate_string_enum colors)).
    change 1%Z with (Z.of_nat 1). change 3%Z with (Z.of_nat 3).
    rewrite !leb_Z_nat. run_type. rewrite !andb_assoc. reflexivity.
Qed.

Lemma validate_command (command : json) :
  validate command_schema command = command_conforms command.
Proof.
  unfold command_schema. run_keywords.
  unfold kw_anyOf. cbn [existsb]. rewrite orb_false_r. do 2 run_keywords.
  unfold kw_type, kw_required, kw_properties.
  destruct command as [ | b | n | s | elems | cmd ]; try reflexivity.
  run_type. unfold dict_has, command_conforms.
  destruct (dict_get "action" cmd) as [action | ]; [ | reflexivity].
  destruct (dict_get "device" cmd) as [device | ]; [ | reflexivity].
  destruct (dict_get "target" cmd) as [target | ]; [ | reflexivity].
  rewrite !validate_string_enum, validate_target, ?andb_true_r, orb_false_r.
  cbn [andb]. rewrite andb_assoc. reflexivity.
Qed.

(** The schema of the source accepts exactly the Turn Payloads of the
    specification's data model. *)
Lemma validate_conforms (payload : json) :
  validate smart_home_command_schema payload = conforms payload.
Proof.
  rewrite schema_parts. run_keywords. unfold kw_type, kw_required, kw_properties.
  destruct payload as [ | b | n | s | elems | items ]; try reflexivity.
  run_type. unfold dict_has, conforms.
  destruct (dict_get "speak" items) as [speak | ]; [ | reflexivity].
  destruct (dict_get "command" items) as [command | ];
    [ | destruct speak; reflexivity].
  rewrite validate_command, ?andb_true_r. run_keywords. unfold kw_type.
  destruct speak; reflexivity.
Qed.

Lemma enum_string_In (allowed : list string) (x : json) :
  enum_string allowed x = true <-> In x (map JStr allowed).
Proof.
  destruct x as [ | b | n | s | elems | items ]; simpl;
    try (split; [discriminate | ]; rewrite in_map_iff; intros [a [Ha _]]; discriminate Ha).
  rewrite existsb_exists, in_map_iff. split.
  - intros [a [Hin Heq]]. apply String.eqb_eq in Heq. subst.
    exists a. split; [reflexivity | exact Hin].
  - intros [a [[= ->] Hin]]. exists s. split; [exact Hin | apply String.eqb_refl].
Qed.

Lemma target_array_conforms (elems : list json) :
  target_conforms (JArr elems) = true <->
  Forall (fun e => In e color_values) elems
  /\ (1 <= length elems <= 3)%nat
  /\ NoDup elems.
Proof.
  unfold target_conforms.
  rewrite !andb_true_iff, forallb_forall, Forall_forall, !Nat.leb_le, unique_NoDup.
  split.
  - intros [[[Hall Hmin] Hmax] Hnd]. repeat split; try assumption.
    intros e He. apply (enum_string_In colors). apply Hall. exact He.
  - intros [Hall [[Hmin Hmax] Hnd]]. repeat split; try assumption.
    intros e He. apply (enum_string_In colors). apply Hall. exact He.
Qed.

(** ** The reference JSON library reads back what it writes *)

Section ReferenceLibrary.

Import RefJSON.
Local Open Scope string_scope.

Local Abbreviation chars := list_ascii_of_string.

Lemma chars_app (a b : string) : chars (a ++ b) = (chars a ++ chars b)%list.
Proof. induction a as [ | c a IH ]; simpl; [reflexivity | rewrite IH; reflexivity]. Qed.

Lemma read_string_escape_char (c : ascii) (tail : list ascii) :
  read_string (chars (escape_char c) ++ tail)%list
  = match read_string tail with
    | Some (s, r) => Some (String c s, r)
    | None => None
    end.
Proof.
  destruct c as [[] [] [] [] [] [] [] []]; reflexivity.
Qed.

Lemma read_string_escape (s : string) (rest : list ascii) :
  read_string (chars (escape s) ++ dquote :: rest)%list = Some (s, rest).
Proof.
  induction s as [ | c s IH ].
  - reflexivity.
  - cbn [escape]. rewrite chars_app, <- app_assoc, read_string_escape_char, IH. reflexivity.
Qed.

(** *** Integers *)

Lemma digit_cases (d : Z) :
  (0 <= d <= 9)%Z ->
  d = 0%Z \/ d = 1%Z \/ d = 2%Z \/ d = 3%Z \/ d = 4%Z
  \/ d = 5%Z \/ d = 6%Z \/ d = 7%Z \/ d = 8%Z \/ d = 9%Z.
Proof. lia. Qed.

Ltac each_digit d H :=
  destruct (digit_cases d H) as [-> | [-> | [-> | [-> | [-> | [-> | [-> | [-> | [-> | ->]]]]]]]]].

Lemma digit_of_digit_char (d : Z) : (0 <= d <= 9)%Z -> digit_of (digit_char d) = Some d.
Proof. intros H. each_digit d H; reflexivity. Qed.

Lemma read_digits_end (n : Z) (rest : list ascii) :
  number_ends rest -> read_digits n rest = (n, rest).
Proof.
  destruct rest as [ | c rest ]; [reflexivity | ].
  intros [Hc _]. cbn [read_digits]. rewrite Hc. reflexivity.
Qed.

Lemma digits_cons (fuel : nat) (n : Z) (acc : string) :
  (1 <= n < 10 ^ Z.of_nat fuel)%Z ->
  exists (d : Z) (tl : list ascii),
    (1 <= d <= 9)%Z
    /\ chars (digits fuel n acc) = digit_char d :: tl
    /\ forall rest, read_digits d (tl ++ rest) = read_digits n (chars acc ++ rest).
Proof.
  revert n acc. induction fuel as [ | fuel IH ]; intros n acc Hn.
  - simpl in Hn. lia.
  - cbn [digits]. destruct (Z.ltb_spec n 10) as [Hsmall | Hbig].
    + exists n, (chars acc). rewrite Z.mod_small by lia.
      repeat split; try lia. 
    + assert (Hq : (1 <= n / 10 < 10 ^ Z.of_nat fuel)%Z).
      { split.
        - apply Z.div_le_lower_bound; lia.
        - apply Z.div_lt_upper_bound; [lia | ].
          rewrite Nat2Z.inj_succ, Z.pow_succ_r in Hn by lia. lia. }
      destruct (IH (n / 10)%Z
                  (String (ascii_of_nat (48 + Z.to_nat (n mod 10))) acc) Hq)
        as [d [tl [Hd [Hchars Hread]]]].
      exists d, tl. repeat split; try lia; [exact Hchars | ].
      intros rest. rewrite Hread. cbn [list_ascii_of_string app read_digits].
      fold (digit_char (n mod 10)).
      rewrite digit_of_digit_char by (pose proof (Z.mod_pos_bound n 10); lia).
      f_equal. pose proof (Z.div_mod n 10). lia.
Qed.

Lemma log2_fuel (n : Z) : (0 < n)%Z -> (n < 10 ^ Z.of_nat (S (Z.to_nat (Z.log2 n))))%Z.
Proof.
  intros Hn. pose proof (Z.log2_nonneg n) as Hlog.
  rewrite Nat2Z.inj_succ, Z2Nat.id by exact Hlog.
  apply Z.lt_le_trans with (2 ^ Z.succ (Z.log2 n))%Z.
  - apply Z.log2_spec. exact Hn.
  - apply Z.pow_le_mono_l. lia.
Qed.

Lemma read_nat_digits (n : Z) (rest : list ascii) :
  (0 <= n)%Z -> number_ends rest ->
  read_nat (chars (digits (S (Z.to_nat (Z.log2 n))) n "") ++ rest) = Some (n, rest).
Proof.
  intros Hn Hrest.
  assert (Hfloat : float_tail rest = false)
    by (destruct rest as [ | c rest ]; [reflexivity | apply Hrest]).
  destruct (Z.eq_dec n 0) as [-> | Hpos].
  - change (chars (digits (S (Z.to_nat (Z.log2 0))) 0 "")) with ["0"%char].
    cbn [app read_nat]. change (digit_of "0") with (Some 0%Z).
    cbn -[float_tail]. rewrite Hfloat. reflexivity.
  - destruct (digits_cons (S (Z.to_nat (Z.log2 n))) n "") as [d [tl [Hd [Hchars Hread]]]].
    { split; [lia | apply log2_fuel; lia]. }
    rewrite Hchars. cbn [app read_nat].
    rewrite digit_of_digit_char by lia.
    destruct (Z.eqb_spec d 0) as [Hz | _]; [lia | ].
    rewrite Hread. cbn [list_ascii_of_string app].
    rewrite (read_digits_end n rest Hrest), Hfloat. reflexivity.
Qed.

Lemma decimal_head (n : Z) :
  exists (c : ascii) (tl : list ascii),
    chars (decimal n) = c :: tl
    /\ (c = "-"%char \/ exists d, (0 <= d <= 9)%Z /\ c = digit_char d).
Proof.
  unfold decimal. destruct (Z.ltb_spec n 0) as [Hneg | Hpos].
  - eexists _, _. split; [reflexivity | left; reflexivity].
  - destruct (Z.eq_dec n 0) as [-> | Hnz].
    + exists "0"%char, []. split; [reflexivity | right; exists 0%Z; split; [lia | reflexivity]].
    + destruct (digits_cons (S (Z.to_nat (Z.log2 n))) n "") as [d [tl [Hd [Hchars _]]]].
      { split; [lia | apply log2_fuel; lia]. }
      exists (digit_char d), tl. split; [exact Hchars | right; exists d; split; [lia | reflexivity]].
Qed.

Lemma read_int_decimal (n : Z) (rest : list ascii) :
  number_ends rest ->
  read_int (chars (decimal n) ++ rest) = Some (n, rest).
Proof.
  intros Hrest. unfold decimal. destruct (Z.ltb_spec n 0) as [Hneg | Hpos].
  - cbn [list_ascii_of_string append app read_int].
    change (("-" =? "-")%char) with true. cbn iota.
    rewrite read_nat_digits by (lia || exact Hrest).
    f_equal. f_equal. lia.
  - pose proof (read_nat_digits n rest Hpos Hrest) as Hread.
    destruct (Z.eq_dec n 0) as [-> | Hnz]; [exact Hread | ].
    destruct (digits_cons (S (Z.to_nat (Z.log2 n))) n "") as [d [tl [Hd [Hchars _]]]].
    { split; [lia | apply log2_fuel; lia]. }
    rewrite Hchars in *. cbn [app read_int].
    assert (Hd' : (0 <= d <= 9)%Z) by lia.
    assert (Hminus : (digit_char d =? "-")%char = false) by (each_digit d Hd'; reflexivity).
    rewrite Hminus. exact Hread.
Qed.

(** *** Values *)

Lemma dumps_arr (vs : list json) : dumps (JArr vs) = "[" ++ elems_text vs ++ "]".
Proof. reflexivity. Qed.

Lemma dumps_obj (ms : list (string * json)) : dumps (JObj ms) = "{" ++ members_text ms ++ "}".
Proof. reflexivity. Qed.

Lemma elems_text_cons (v w : json) (vs : list json) :
  elems_text (v :: w :: vs) = dumps v ++ "," ++ elems_text (w :: vs).
Proof. reflexivity. Qed.

Lemma members_text_cons (k : string) (v : json) (m : string * json) (ms : list (string * json)) :
  members_text ((k, v) :: m :: ms) = quote k ++ ":" ++ dumps v ++ "," ++ members_text (m :: ms).
Proof. reflexivity. Qed.

Lemma digit_starts_value (d : Z) :
  (0 <= d <= 9)%Z -> starts_value (digit_char d) /\ kind_of (digit_char d) = HNumber.
Proof. intros H. each_digit d H; repeat split. Qed.

Lemma dumps_head (v : json) :
  exists (c : ascii) (tl : list ascii),
    chars (dumps v) = c :: tl /\ starts_value c.
Proof.
  destruct v as [ | [ | ] | n | s | elems | items ];
    try (eexists _, _; split; [reflexivity | repeat split]).
  destruct (decimal_head n) as [c [tl [Hchars [-> | [d [Hd ->]]]]]];
    eexists _, tl; (split; [exact Hchars | ]).
  - repeat split.
  - apply digit_starts_value. exact Hd.
Qed.

Lemma skip_ws_head (c : ascii) (tl : list ascii) :
  is_ws c = false -> skip_ws (c :: tl) = c :: tl.
Proof. intros H. cbn [skip_ws]. rewrite H. reflexivity. Qed.

Section ReadContainers.

Variable read : list ascii -> option (json * list ascii).

Lemma read_elems_text (vs : list json) :
  vs <> [] ->
  (forall v, In v vs ->
     forall rest, number_ends rest -> read (chars (dumps v) ++ rest) = Some (v, rest)) ->
  forall (fuel : nat) (rest : list ascii),
    length vs <= fuel ->
    read_elems read fuel (chars (elems_text vs) ++ "]"%char :: rest) = Some (vs, rest).
Proof.
  induction vs as [ | v vs IH ]; [congruence | ].
  intros _ Hread fuel rest Hfuel.
  destruct fuel as [ | fuel ]; [simpl in Hfuel; lia | ].
  destruct vs as [ | w vs ].
  - change (elems_text [v]) with (dumps v). cbn [read_elems].
    rewrite (Hread v (or_introl eq_refl)) by (split; reflexivity).
    reflexivity.
  - rewrite elems_text_cons, !chars_app, <- !app_assoc. cbn [read_elems].
    rewrite (Hread v (or_introl eq_refl)) by (split; reflexivity).
    cbn [list_ascii_of_string app skip_ws is_ws Ascii.eqb Bool.eqb orb].
    cbn [Ascii.eqb Bool.eqb andb].
    rewrite IH; [reflexivity | discriminate | | simpl in *; lia].
    intros v' Hin. apply Hread. right. exact Hin.
Qed.

Lemma read_members_text (ms : list (string * json)) :
  ms <> [] ->
  (forall k v, In (k, v) ms ->
     forall rest, number_ends rest -> read (chars (dumps v) ++ rest) = Some (v, rest)) ->
  forall (fuel : nat) (rest : list ascii),
    length ms <= fuel ->
    read_members read fuel (chars (members_text ms) ++ "}"%char :: rest) = Some (ms, rest).
Proof.
  induction ms as [ | [k v] ms IH ]; [congruence | ].
  intros _ Hread fuel rest Hfuel.
  destruct fuel as [ | fuel ]; [simpl in Hfuel; lia | ].
  destruct ms as [ | m ms ].
  - change (members_text [(k, v)]) with (quote k ++ ":" ++ dumps v).
    unfold quote. cbn [append list_ascii_of_string app].
    rewrite !chars_app, <- !app_assoc. cbn [list_ascii_of_string app].
    cbn [read_members]. rewrite skip_ws_head by reflexivity.
    rewrite Ascii.eqb_refl, read_string_escape.
    rewrite skip_ws_head by reflexivity. rewrite Ascii.eqb_refl.
    rewrite (Hread k v (or_introl eq_refl)) by (split; reflexivity).
    reflexivity.
  - rewrite members_text_cons.
    unfold quote. cbn [append list_ascii_of_string app].
    rewrite !chars_app, <- !app_assoc. cbn [list_ascii_of_string app].
    rewrite !chars_app, <- !app_assoc. cbn [list_ascii_of_string app].
    cbn [read_members]. rewrite skip_ws_head by reflexivity.
    rewrite Ascii.eqb_refl, read_string_escape.
    rewrite skip_ws_head by reflexivity. rewrite Ascii.eqb_refl.
    rewrite (Hread k v (or_introl eq_refl)) by (split; reflexivity).
    rewrite skip_ws_head by reflexivity. rewrite Ascii.eqb_refl.
    rewrite IH; [reflexivity | discriminate | | simpl in *; lia].
    intros k' v' Hin. apply (Hread k' v'). right. exact Hin.
Qed.

End ReadContainers.

Lemma dict_set_fresh (k : string) (v : json) (items : list (string * json)) :
  existsb (String.eqb k) (Py.keys items) = false ->
  dict_set k v items = (items ++ [(k, v)])%list.
Proof.
  induction items as [ | [k' v'] items IH ]; [reflexivity | ].
  cbn [Py.keys map fst existsb dict_set app]. intros Hfresh.
  apply orb_false_iff in Hfresh. destruct Hfresh as [Hk Hrest].
  rewrite String.eqb_sym, Hk. rewrite (IH Hrest). reflexivity.
Qed.

Lemma existsb_app_false {A : Type} (f : A -> bool) (l l' : list A) :
  existsb f (l ++ l') = false <-> existsb f l = false /\ existsb f l' = false.
Proof. rewrite existsb_app. apply orb_false_iff. Qed.

Lemma dict_of_pairs_distinct (pairs : list (string * json)) :
  distinct (Py.keys pairs) = true -> dict_of_pairs pairs = pairs.
Proof.
  unfold dict_of_pairs.
  assert (Hgen : forall acc,
             distinct (Py.keys (acc ++ pairs)) = true ->
             fold_left (fun d kv => dict_set (fst kv) (snd kv) d) pairs acc
             = (acc ++ pairs)%list).
  { induction pairs as [ | [k v] pairs IH ]; intros acc Hacc.
    - rewrite app_nil_r. reflexivity.
    - cbn [fold_left fst snd].
      assert (Hfresh : existsb (String.eqb k) (Py.keys acc) = false).
      { clear IH. induction acc as [ | [k' v'] acc IHacc ]; [reflexivity | ].
        cbn [app Py.keys map fst distinct existsb] in *.
        apply andb_true_iff in Hacc. destruct Hacc as [Hk' Hacc].
        apply negb_true_iff in Hk'. unfold Py.keys in Hk'.
        rewrite map_app in Hk'. apply existsb_app_false in Hk'.
        destruct Hk' as [_ Hk']. cbn [map fst existsb] in Hk'.
        apply orb_false_iff in Hk'. destruct Hk' as [Hk' _].
        rewrite String.eqb_sym, Hk'. cbn [orb]. apply IHacc. exact Hacc. }
      rewrite (dict_set_fresh k v acc Hfresh).
      rewrite IH; rewrite <- app_assoc; [reflexivity | exact Hacc]. }
  intros H. apply (Hgen []). exact H.
Qed.

Lemma list_max_bound (l : list nat) (n : nat) :
  list_max l <= n -> forall x, In x l -> x <= n.
Proof.
  intros H x Hx. rewrite list_max_le in H. rewrite Forall_forall in H. apply H. exact Hx.
Qed.

Lemma read_value_dumps (v : json) :
  well_formed v = true ->
  forall (fuel : nat) (rest : list ascii),
    weight v <= fuel -> number_ends rest ->
    read_value fuel (chars (dumps v) ++ rest) = Some (v, rest).
Proof.
  induction v as [ | b | n | s | elems IH | items IH ] using json_nested_ind;
    intros Hwf fuel rest Hfuel Hrest;
    (destruct fuel as [ | fuel ]; [cbn in Hfuel; lia | ]).
  - reflexivity.
  - destruct b; reflexivity.
  - cbn [dumps read_value].
    destruct (decimal_head n) as [c [tl [Hchars Hc]]].
    pose proof (read_int_decimal n rest Hrest) as Hread.
    rewrite Hchars in *. cbn [app] in *.
    assert (Hkind : starts_value c /\ kind_of c = HNumber).
    { destruct Hc as [-> | [d [Hd ->]]]; [repeat split | apply digit_starts_value; exact Hd]. }
    destruct Hkind as [[Hws _] Hkind]. rewrite (skip_ws_head c _ Hws).
    unfold kind_of in Hkind.
    destruct (c =? dquote)%char; [discriminate | ].
    destruct (c =? "[")%char; [discriminate | ].
    destruct (c =? "{")%char; [discriminate | ].
    destruct (c =? "n")%char; [discriminate | ].
    destruct (c =? "t")%char; [discriminate | ].
    destruct (c =? "f")%char; [discriminate | ].
    rewrite Hread. reflexivity.
  - cbn [dumps]. unfold quote. cbn [list_ascii_of_string app].
    rewrite chars_app, <- app_assoc. cbn [list_ascii_of_string app read_value].
    rewrite skip_ws_head by reflexivity. rewrite Ascii.eqb_refl, read_string_escape.
    reflexivity.
  - rewrite dumps_arr. cbn [append list_ascii_of_string app].
    rewrite chars_app, <- app_assoc. cbn [list_ascii_of_string app].
    destruct elems as [ | v elems ]; [reflexivity | ].
    cbn [read_value]. rewrite skip_ws_head by reflexivity.
    cbn [Ascii.eqb Bool.eqb andb dquote].
    destruct (dumps_head v) as [c [tl [Hchars [Hws [Hclose _]]]]].
    assert (Hhead : exists tl', (chars (elems_text (v :: elems)) ++ "]"%char :: rest)%list = c :: tl').
    { destruct elems as [ | w elems ].
      - change (elems_text [v]) with (dumps v). rewrite Hchars. eexists. reflexivity.
      - rewrite elems_text_cons, chars_app, Hchars. eexists. reflexivity. }
    destruct Hhead as [tl' Hhead]. rewrite Hhead, (skip_ws_head c tl' Hws), Hclose, <- Hhead.
    cbn [weight] in Hfuel.
    rewrite read_elems_text; [reflexivity | discriminate | | lia].
    intros v' Hin rest' Hrest'.
    rewrite Forall_forall in IH. apply IH; [exact Hin | | | exact Hrest'].
    + cbn [well_formed] in Hwf. rewrite forallb_forall in Hwf. apply Hwf. exact Hin.
    + apply (list_max_bound (map weight (v :: elems)) fuel); [lia | ].
      apply in_map. exact Hin.
  - rewrite dumps_obj. cbn [append list_ascii_of_string app].
    rewrite chars_app, <- app_assoc. cbn [list_ascii_of_string app].
    destruct items as [ | [k v] items ]; [reflexivity | ].
    cbn [read_value]. rewrite skip_ws_head by reflexivity.
    cbn [Ascii.eqb Bool.eqb andb dquote].
    assert (Hhead : exists tl', (chars (members_text ((k, v) :: items)) ++ "}"%char :: rest)%list
                                = dquote :: tl').
    { destruct items as [ | m items ].
      - change (members_text [(k, v)]) with (quote k ++ ":" ++ dumps v).
        unfold quote. eexists. reflexivity.
      - rewrite members_text_cons. unfold quote. eexists. reflexivity. }
    destruct Hhead as [tl' Hhead]. rewrite Hhead, (skip_ws_head dquote tl' eq_refl).
    change ((dquote =? "}")%char) with false. cbn iota. rewrite <- Hhead.
    cbn [weight] in Hfuel. cbn [well_formed] in Hwf.
    apply andb_true_iff in Hwf. destruct Hwf as [Hkeys Hwf].
    rewrite read_members_text; [ | discriminate | | lia].
    + rewrite (dict_of_pairs_distinct _ Hkeys). reflexivity.
    + intros k' v' Hin rest' Hrest'.
      rewrite Forall_forall in IH. apply (IH (k', v') Hin); [ | | exact Hrest'].
      * rewrite forallb_forall in Hwf. apply (Hwf (k', v')). exact Hin.
      * apply (list_max_bound (map (fun kv => weight (snd kv)) ((k, v) :: items)) fuel);
          [lia | ].
        apply (in_map (fun kv => weight (snd kv)) _ (k', v')). exact Hin.
Qed.

Lemma elems_text_length (vs : list json) :
  length vs <= S (length (chars (elems_text vs)))
  /\ forall v, In v vs -> length (chars (dumps v)) <= length (chars (elems_text vs)).
Proof.
  induction vs as [ | v vs [IHlen IHin] ]; [split; [cbn; lia | intros v []] | ].
  destruct vs as [ | w vs ].
  - change (elems_text [v]) with (dumps v).
    split; [destruct (dumps_head v) as [c [tl [-> _]]]; cbn; lia | ].
    intros v' [<- | []]. lia.
  - rewrite elems_text_cons, !chars_app, !length_app. split.
    + cbn [list_ascii_of_string length] in *. lia.
    + intros v' [<- | Hin]; [lia | ]. specialize (IHin v' Hin).
      cbn [list_ascii_of_string length] in *. lia.
Qed.

Lemma members_text_length (ms : list (string * json)) :
  length ms <= S (length (chars (members_text ms)))
  /\ forall k v, In (k, v) ms -> length (chars (dumps v)) <= length (chars (members_text ms)).
Proof.
  induction ms as [ | [k v] ms [IHlen IHin] ]; [split; [cbn; lia | intros k v []] | ].
  destruct ms as [ | m ms ].
  - change (members_text [(k, v)]) with (quote k ++ ":" ++ dumps v).
    rewrite !chars_app, !length_app. split; [cbn; lia | ].
    intros k' v' [[= <- <-] | []]. lia.
  - rewrite members_text_cons, !chars_app, !length_app. split.
    + cbn [list_ascii_of_string length] in *. lia.
    + intros k' v' [[= <- <-] | Hin]; [lia | ]. specialize (IHin k' v' Hin).
      cbn [list_ascii_of_string length] in *. lia.
Qed.

Lemma list_max_le_all (l : list nat) (n : nat) :
  (forall x, In x l -> x <= n) -> list_max l <= n.
Proof. intros H. apply list_max_le. apply Forall_forall. exact H. Qed.

Lemma weight_le_length (v : json) : weight v <= length (chars (dumps v)).
Proof.
  induction v as [ | b | n | s | elems IH | items IH ] using json_nested_ind.
  - cbn. lia.
  - destruct b; cbn; lia.
  - destruct (decimal_head n) as [c [tl [Hchars _]]]. cbn [dumps weight].
    rewrite Hchars. cbn. lia.
  - cbn [dumps weight]. unfold quote. cbn. lia.
  - rewrite dumps_arr, !chars_app, !length_app. cbn [weight].
    destruct (elems_text_length elems) as [Hlen Hin].
    assert (Hmax : list_max (map weight elems) <= length (chars (elems_text elems))).
    { apply list_max_le_all. intros x Hx. apply in_map_iff in Hx.
      destruct Hx as [v [<- Hv]]. rewrite Forall_forall in IH.
      specialize (IH v Hv). specialize (Hin v Hv). lia. }
    cbn [list_ascii_of_string length]. lia.
  - rewrite dumps_obj, !chars_app, !length_app. cbn [weight].
    destruct (members_text_length items) as [Hlen Hin].
    assert (Hmax : list_max (map (fun kv => weight (snd kv)) items)
                   <= length (chars (members_text items))).
    { apply list_max_le_all. intros x Hx. apply in_map_iff in Hx.
      destruct Hx as [[k v] [<- Hv]]. rewrite Forall_forall in IH.
      specialize (IH (k, v) Hv). specialize (Hin k v Hv). cbn [snd] in *. lia. }
    cbn [list_ascii_of_string length]. lia.
Qed.

(** The reference reader reads back what the reference printer wrote. *)
Theorem loads_dumps (v : json) : well_formed v = true -> loads (dumps v) = Some v.
Proof.
  intros Hwf. unfold loads.
  pose proof (read_value_dumps v Hwf (S (length (chars (dumps v)))) []) as Hread.
  rewrite app_nil_r in Hread. rewrite Hread; [reflexivity | | exact I].
  pose proof (weight_le_length v). lia.
Qed.

End ReferenceLibrary.

(** ** utils/validation.py: the schema validator *)

Lemma is_valid_command_structure_accepts {J : JSONLib} (text : string) (payload : json) :
  json_loads text = Some payload ->
  conforms payload = true ->
  Validation.is_valid_command_structure text = ret (true, payload).
Proof.
  intros Hread Hok.
  unfold Validation.is_valid_command_structure, loads.
  rewrite Hread, bind_ret. unfold jsonschema_validate.
  rewrite validate_conforms, Hok. reflexivity.
Qed.

Lemma is_valid_command_structure_rejects {J : JSONLib} (text : string) (payload : json) :
  json_loads text = Some payload ->
  conforms payload = false ->
  Validation.is_valid_command_structure text = ret (false, JNull).
Proof.
  intros Hread Hbad.
  unfold Validation.is_valid_command_structure, loads.
  rewrite Hread, bind_ret. unfold jsonschema_validate.
  rewrite validate_conforms, Hbad. reflexivity.
Qed.

(** How the two validators end, by what [json.loads] does with the
    text: they perform no effect, and they let out every exception of
    [json.loads] that their [except] clauses do not name. *)
Lemma validators_table {J : JSONLib} (text : string) :
  match json_loads text with
  | Some parsed =>
      if validate smart_home_command_schema parsed then
        Validation.get_validation_error_details text = ret None
        /\ Validation.is_valid_command_structure text = ret (true, parsed)
      else
        Validation.get_validation_error_details text = ret (Some Schema_Validation_Error)
        /\ Validation.is_valid_command_structure text = ret (false, JNull)
  | None =>
      match json_loads_error text with
      | JSONDecodeError =>
          Validation.get_validation_error_details text = ret (Some JSON_Decode_Error)
          /\ Validation.is_valid_command_structure text = ret (false, JNull)
      | ValidationError =>
          Validation.get_validation_error_details text = ret (Some Schema_Validation_Error)
          /\ Validation.is_valid_command_structure text = ret (false, JNull)
      | e =>
          Validation.get_validation_error_details text = raise e
          /\ Validation.is_valid_command_structure text = raise e
      end
  end.
Proof.
  unfold Validation.get_validation_error_details, Validation.is_valid_command_structure, loads.
  destruct (json_loads text) as [parsed | ].
  - rewrite !bind_ret. unfold jsonschema_validate.
    destruct (validate smart_home_command_schema parsed); split; reflexivity.
  - destruct (json_loads_error text); split; reflexivity.
Qed.

(** A text that fails validation comes with details of the failure. *)
Lemma failed_validation_has_details {J : JSONLib} (text : string) :
  Validation.is_valid_command_structure text = ret (false, JNull) ->
  exists details, Validation.get_validation_error_details text = ret (Some details).
Proof.
  intros Hfails. pose proof (validators_table text) as Htable.
  destruct (json_loads text) as [parsed | ].
  - destruct (validate smart_home_command_schema parsed); destruct Htable as [Hd Hv].
    + rewrite Hv in Hfails. discriminate Hfails.
    + eexists. exact Hd.
  - destruct (json_loads_error text); destruct Htable as [Hd Hv];
      try (rewrite Hv in Hfails; discriminate Hfails); eexists; exact Hd.
Qed.

(** C5: for every Turn Payload [payload] of the data model, validating
    its serialization succeeds and returns [payload] itself: with any
    [json] library that reads back what it wrote for [payload], and
    with the reference library for every payload (whose dicts hold
    each key once). *)
Theorem validate_serialized_payload :
  (forall (J : JSONLib) (payload : json),
      json_loads (json_dumps payload) = Some payload ->
      conforms payload = true ->
      Validation.is_valid_command_structure (json_dumps payload)
      = ([], Return (true, payload)))
  /\ (forall payload : json,
        well_formed payload = true ->
        conforms payload = true ->
        Validation.is_valid_command_structure (J := RefJSON.lib) (RefJSON.dumps payload)
        = ([], Return (true, payload))).
Proof.
  split.
  - intros J payload Hread Hok.
    exact (is_valid_command_structure_accepts (json_dumps payload) payload Hread Hok).
  - intros payload Hwf Hok.
    exact (is_valid_command_structure_accepts (J := RefJSON.lib) (RefJSON.dumps payload)
             payload (loads_dumps payload Hwf) Hok).
Qed.

Lemma validate_serialized_payload_witness :
  Validation.is_valid_command_structure (J := RefJSON.lib)
    (RefJSON.dumps Sample.lights_payload)
  = ([], Return (true, Sample.lights_payload)).
Proof.
  apply (proj2 validate_serialized_payload Sample.lights_payload).
  - vm_compute. reflexivity.
  - vm_compute. reflexivity.
Defined.




(** C7: when [command.target] is an array, a payload that the schema
    accepts has one to three targets, all distinct and all colours of
    the enumeration; so an array with a duplicate, such as
    ["red","red"], fails validation. *)
Theorem duplicate_target_fails (items cmd : list (string * json)) (elems : list json) :
  dict_get "command" items = Some (JObj cmd) ->
  dict_get "target" cmd = Some (JArr elems) ->
  (validate smart_home_command_schema (JObj items) = true ->
     (1 <= length elems <= 3)%nat
     /\ NoDup elems
     /\ Forall (fun e => In e color_values) elems)
  /\ (~ NoDup elems -> validate smart_home_command_schema (JObj items) = false).
Proof.
  intros Hcmd Htarget.
  assert (Hvalid : validate smart_home_command_schema (JObj items) = true ->
                   target_conforms (JArr elems) = true).
  { rewrite validate_conforms. unfold conforms. rewrite Hcmd.
    destruct (dict_get "speak" items) as [[ | | | | | ] | ]; try discriminate.
    unfold command_conforms. rewrite Htarget.
    destruct (dict_get "action" cmd); [ | discriminate].
    destruct (dict_get "device" cmd); [ | discriminate].
    intros Hok. apply andb_true_iff in Hok. apply Hok. }
  split.
  - intros Hok. apply Hvalid, target_array_conforms in Hok.
    destruct Hok as [Hall [Hlen Hnd]]. auto.
  - intros Hdup. apply not_true_is_false. intros Hok.
    apply Hdup. apply Hvalid, target_array_conforms in Hok. apply Hok.
Qed.

Lemma duplicate_target_fails_witness :
  validate smart_home_command_schema (JObj Sample.red_red_items) = false.
Proof.
  apply (proj2 (duplicate_target_fails Sample.red_red_items Sample.red_red_command
                  [JStr "red"; JStr "red"] eq_refl eq_refl)).
  intros Hnd. inversion Hnd as [ | x l Hnot _ ]; subst. apply Hnot. left. reflexivity.
Defined.

(** ** services/openai/realtime.py: [validate_payload] *)

(** C10: [validate_payload] accepts every dict whose "speak" is a
    string and whose "command" is null or a dict with the keys action,
    device and target, whatever their values; some payload that it
    accepts fails the command schema. *)
Theorem validate_payload_checks_keys_only :
  (forall (items : list (string * json)) (speak : string),
      dict_get "speak" items = Some (JStr speak) ->
      (dict_get "command" items = Some JNull
       \/ exists cmd, dict_get "command" items = Some (JObj cmd)
                      /\ dict_has "action" cmd = true
                      /\ dict_has "device" cmd = true
                      /\ dict_has "target" cmd = true) ->
      OpenAIRealtimeClient.validate_payload (JObj items) = true)
  /\ (exists payload,
        OpenAIRealtimeClient.validate_payload payload = true
        /\ validate smart_home_command_schema payload = false).
Proof.
  split.
  - intros items speak Hspeak Hcommand.
    assert (Hs : dict_has "speak" items = true)
      by (unfold dict_has; rewrite Hspeak; reflexivity).
    assert (Hc : dict_has "command" items = true)
      by (unfold dict_has; destruct Hcommand as [-> | [cmd [-> _]]]; reflexivity).
    unfold OpenAIRealtimeClient.validate_payload, Py.get.
    rewrite Hs, Hc, Hspeak. cbn [negb orb].
    destruct Hcommand as [Hnull | [cmd [Hcmd [Ha [Hd Ht]]]]].
    + rewrite Hnull. reflexivity.
    + rewrite Hcmd. cbn [forallb]. rewrite Ha, Hd, Ht. reflexivity.
  - exists (JObj Sample.explode_items). split; reflexivity.
Qed.

Lemma validate_payload_checks_keys_only_witness :
  OpenAIRealtimeClient.validate_payload (JObj Sample.explode_items) = true.
Proof.
  apply (proj1 validate_payload_checks_keys_only Sample.explode_items "ok" eq_refl).
  right. eexists. repeat split.
Defined.

(** ** services/mqtt/mqtt_handler.py *)

Lemma publish_each_log {B : Builtins} (action device : json) (targets : list json) :
  MQTTHandler.publish_each action device targets
  = (flat_map (fun color =>
                 let topic := (str device ++ "/" ++ str color)%string in
                 let payload := if eq_str action "turn_on" then "ON" else "OFF" in
                 [MqttPublish topic payload; Stdout (MqttSent topic payload)]) targets,
     Return tt).
Proof.
  induction targets as [ | color rest IH ]; [reflexivity | ].
  cbn [MQTTHandler.publish_each flat_map]. unfold print.
  rewrite !bind_emit, IH. reflexivity.
Qed.

Lemma published_loop (topic : json -> string) (payload : string) (elems : list json) :
  published (flat_map (fun color => [MqttPublish (topic color) payload;
                                     Stdout (MqttSent (topic color) payload)]) elems)
  = map (fun color => (topic color, payload)) elems.
Proof.
  induction elems as [ | color rest IH ]; [reflexivity | ].
  simpl. f_equal. exact IH.
Qed.

(** C9: [dispatch] on a command dict publishes one message per target
    element, in order, to the topic device/color and returns; a string
    target counts as a one-element list.  The payload is "ON" when the
    action is "turn_on" and "OFF" for any other action.  A target that
    cannot be iterated raises [TypeError] before anything is sent. *)
Theorem dispatch_publishes_one_message_per_target {B : Builtins}
  (self : MQTTHandler.t) (items : list (string * json)) :
  exists payload : string,
    ((Py.get items "action" = JStr "turn_on" /\ payload = "ON")
     \/ (Py.get items "action" <> JStr "turn_on" /\ payload = "OFF"))
    /\ match target_elements (Py.get items "target") with
       | Some elems =>
           result (MQTTHandler.dispatch self (JObj items)) = Return tt
           /\ published (effects (MQTTHandler.dispatch self (JObj items)))
              = map (fun color =>
                       ((str (Py.get items "device") ++ "/" ++ str color)%string, payload))
                    elems
       | None =>
           MQTTHandler.dispatch self (JObj items) = ([], Raise TypeError)
       end.
Proof.
  exists (if eq_str (Py.get items "action") "turn_on" then "ON" else "OFF").
  split.
  - destruct (eq_str (Py.get items "action") "turn_on") eqn:E.
    + left. split; [apply eq_str_true; exact E | reflexivity].
    + right. split; [ | reflexivity].
      intros Heq. apply eq_str_true in Heq. congruence.
  - unfold MQTTHandler.dispatch, dot_get. rewrite !bind_ret.
    destruct (target_elements (Py.get items "target")) as [elems | ] eqn:Htargets.
    + assert (Hloop : match Py.get items "target" with
                      | JStr _ => ret [Py.get items "target"]
                      | _ => iterate (Py.get items "target")
                      end = ret elems).
      { destruct (Py.get items "target"); try discriminate Htargets;
          injection Htargets as <-; reflexivity. }
      rewrite Hloop, bind_ret, publish_each_log. split; [reflexivity | ].
      cbn [effects fst].
      apply (published_loop
               (fun color => (str (Py.get items "device") ++ "/" ++ str color)%string)).
    + destruct (Py.get items "target"); try discriminate Htargets; reflexivity.
Qed.

(** On [{"action":"turn_on","device":"lights","target":["red","blue"]}]. *)
Lemma dispatch_publishes_one_message_per_target_witness :
  published (effects (MQTTHandler.dispatch (B := RefJSON.builtins) Sample.mqtt
                        (JObj Sample.lights_command)))
  = [("lights/red", "ON"); ("lights/blue", "ON")].
Proof.
  destruct (dispatch_publishes_one_message_per_target (B := RefJSON.builtins) Sample.mqtt
              Sample.lights_command) as [payload [[[_ ->] | [Hother _]] [_ Hpublished]]].
  - exact Hpublished.
  - exfalso. apply Hother. reflexivity.
Defined.

(** ** services/openai/realtime.py: the assembler *)

Import OpenAIRealtimeClient.

(** What [on_message] does on a turn-complete frame. *)
Lemma on_message_response_done {J : JSONLib} {K : Paho} {D : Type} (self : t D) (raw : string) :
  frame_of_type "response.done" raw ->
  on_message self raw =
  (print (GotMessageType (JStr "response.done")) ;;
   (if String.eqb (_json_buffer self) "" then
      print JsonBufferIsEmpty
    else
      parsed <- try_except
                  (payload <- loads (_json_buffer self) ;; ret (Some payload))
                  Exception
                  (fun e =>
                     print (JsonParseFailed e) ;;
                     print (BufferWas (_json_buffer self)) ;;
                     ret None) ;;
      match parsed with
      | Some payload =>
          print (ParsedPayload payload) ;;
          publish_payload self payload
      | None => ret tt
      end) ;;
   ret (set_json_buffer self "")).
Proof.
  intros [msg [Hread Htype]].
  unfold on_message, loads. rewrite Hread, bind_ret.
  unfold dot_get, Py.get. rewrite Htype, bind_ret. reflexivity.
Qed.

(** How a turn-complete frame ends: the reset is the last statement
    of its branch, after [publish_payload]. *)
Lemma turn_complete_table {J : JSONLib} {K : Paho} {D : Type} (self : t D) (raw : string) :
  frame_of_type "response.done" raw ->
  exists log,
    on_message self raw
    = (log,
       if String.eqb (_json_buffer self) "" then Return (set_json_buffer self "")
       else match json_loads (_json_buffer self),
                  connect_error (MQTT_BROKER self) (MQTT_PORT self) with
            | Some _, Some e => Raise e
            | _, _ => Return (set_json_buffer self "")
            end)
    /\ published log
       = if String.eqb (_json_buffer self) "" then []
         else match json_loads (_json_buffer self),
                    connect_error (MQTT_BROKER self) (MQTT_PORT self) with
              | Some payload, None => [(MQTT_TOPIC self, json_dumps payload)]
              | _, _ => []
              end.
Proof.
  intros Hdone. rewrite (on_message_response_done self raw Hdone).
  unfold print. rewrite bind_emit.
  destruct (String.eqb (_json_buffer self) "").
  - eexists. split; reflexivity.
  - unfold loads, publish_payload, connect.
    destruct (json_loads (_json_buffer self)) as [payload | ].
    + destruct (connect_error (MQTT_BROKER self) (MQTT_PORT self)) as [e | ];
        eexists; split; reflexivity.
    + eexists; split; reflexivity.
Qed.

Lemma handle_responses_app {J : JSONLib} {K : Paho} {D : Type} (self : t D) (ws1 ws2 : list string) :
  _handle_responses self (ws1 ++ ws2)
  = (self' <- _handle_responses self ws1 ;; _handle_responses self' ws2).
Proof.
  revert self. induction ws1 as [ | raw ws1 IH ]; intros self.
  - cbn [app _handle_responses]. rewrite bind_ret. reflexivity.
  - cbn [app _handle_responses]. rewrite bind_assoc.
    apply bind_ext. intros self'. apply IH.
Qed.

(** C8: a turn-complete frame that finds the buffer empty prints the
    empty-buffer report and nothing else after the message type: no
    message goes to the broker.  The buffer stays empty (Idle). *)
Theorem turn_complete_on_empty_buffer {J : JSONLib} {K : Paho} {D : Type} (self : t D) (raw : string) :
  frame_of_type "response.done" raw ->
  _json_buffer self = "" ->
  exists self' : t D,
    on_message self raw
    = ([Stdout (GotMessageType (JStr "response.done")); Stdout JsonBufferIsEmpty],
       Return self')
    /\ _json_buffer self' = ""
    /\ phase_of self' = Idle.
Proof.
  intros Hdone Hempty. exists (set_json_buffer self "").
  rewrite (on_message_response_done self raw Hdone), Hempty.
  repeat split.
Qed.

Lemma done_frame_is_turn_complete :
  frame_of_type (J := RefJSON.lib) "response.done" Sample.done_frame.
Proof.
  exists [("type", JStr "response.done")]. split; vm_compute; reflexivity.
Qed.

Lemma turn_complete_on_empty_buffer_witness :
  exists self' : t MQTTHandler.t,
    on_message (J := RefJSON.lib) (K := RefJSON.unreachable)
      (init (Some Sample.mqtt)) Sample.done_frame
    = ([Stdout (GotMessageType (JStr "response.done")); Stdout JsonBufferIsEmpty],
       Return self')
    /\ _json_buffer self' = ""
    /\ phase_of self' = Idle.
Proof.
  apply (turn_complete_on_empty_buffer (J := RefJSON.lib) (K := RefJSON.unreachable)
           (init (Some Sample.mqtt))
           Sample.done_frame).
  - exact done_frame_is_turn_complete.
  - reflexivity.
Defined.

(** A frame whose processing raises leaves the object as it found it. *)
Lemma left_by_raise {J : JSONLib} {K : Paho} {D : Type}
  (self : t D) (raw : string) (rest : list string) (e : exn) :
  result (on_message self raw) = Raise e -> left_by self (raw :: rest) = self.
Proof. intros Hraise. cbn [left_by]. rewrite Hraise. reflexivity. Qed.

Lemma left_by_return {J : JSONLib} {K : Paho} {D : Type}
  (self self' : t D) (raw : string) (rest : list string) :
  result (on_message self raw) = Return self' -> left_by self (raw :: rest) = left_by self' rest.
Proof. intros Hreturn. cbn [left_by]. rewrite Hreturn. reflexivity. Qed.

(** C4: the reset [self._json_buffer = ""] is the last statement of
    the turn-complete branch.  When that branch returns, the buffer is
    empty.  When the broker cannot be reached, [publish_payload]
    raises before the reset: the loop ends and the object keeps the
    text of the turn, so that a client that is run again appends the
    next turn to it.  The frames are those of the payload
    [{"speak":"hi","command":null}]. *)
Theorem broker_failure_skips_buffer_reset :
  (forall (J : JSONLib) (K : Paho) (D : Type) (self self' : t D) (raw : string),
      frame_of_type "response.done" raw ->
      result (on_message self raw) = Return self' ->
      _json_buffer self' = "")
  /\ (forall (J : JSONLib) (K : Paho) (D : Type) (self : t D) (raw : string)
             (payload : json) (e : exn),
        frame_of_type "response.done" raw ->
        _json_buffer self <> "" ->
        json_loads (_json_buffer self) = Some payload ->
        connect_error (MQTT_BROKER self) (MQTT_PORT self) = Some e ->
        result (on_message self raw) = Raise e
        /\ published (effects (on_message self raw)) = []
        /\ left_by self [raw] = self)
  /\ _handle_responses (J := RefJSON.lib) (K := RefJSON.unreachable) (init (Some Sample.mqtt))
       [Sample.delta_frame Sample.null_command_text; Sample.done_frame]
     = ([Stdout (GotMessageType (JStr "response.content_part.delta"));
         Stdout (JsonDelta (JStr Sample.null_command_text));
         Stdout (GotMessageType (JStr "response.done"));
         Stdout (ParsedPayload Sample.null_command);
         MqttConnect "test.mosquitto.org" 1883],
        Raise OSError)
  /\ _json_buffer
       (left_by (J := RefJSON.lib) (K := RefJSON.unreachable) (init (Some Sample.mqtt))
          [Sample.delta_frame Sample.null_command_text; Sample.done_frame])
     = Sample.null_command_text
  /\ _json_buffer
       (left_by (J := RefJSON.lib) (K := RefJSON.reachable)
          (left_by (J := RefJSON.lib) (K := RefJSON.unreachable) (init (Some Sample.mqtt))
             [Sample.delta_frame Sample.null_command_text; Sample.done_frame])
          [Sample.delta_frame Sample.foo_text])
     = (Sample.null_command_text ++ Sample.foo_text)%string.
Proof.
  split; [ | split; [ | split; [ | split]]].
  - intros J K D self self' raw Hdone Hreturn.
    destruct (turn_complete_table self raw Hdone) as [log [Hstep _]].
    rewrite Hstep in Hreturn. cbn [result snd] in Hreturn.
    destruct (String.eqb (_json_buffer self) "").
    + injection Hreturn as <-. reflexivity.
    + destruct (json_loads (_json_buffer self)) as [payload | ];
        [destruct (connect_error (MQTT_BROKER self) (MQTT_PORT self)) as [e | ] | ];
        try discriminate Hreturn; injection Hreturn as <-; reflexivity.
  - intros J K D self raw payload e Hdone Hsome Hread Hdown.
    destruct (turn_complete_table self raw Hdone) as [log [Hstep Hpublished]].
    apply String.eqb_neq in Hsome. rewrite Hsome, Hread, Hdown in Hstep, Hpublished.
    assert (Hraise : result (on_message self raw) = Raise e) by (rewrite Hstep; reflexivity).
    split; [exact Hraise | ]. split.
    + rewrite Hstep. exact Hpublished.
    + exact (left_by_raise self raw [] e Hraise).
  - vm_compute. reflexivity.
  - vm_compute. reflexivity.
  - vm_compute. reflexivity.
Qed.

(** Case analysis along the branches of a computation. *)
Ltac quiet_branches :=
  repeat match goal with
         | |- quiet (if ?c then _ else _) => destruct c
         | |- quiet (match ?x with Some _ => _ | None => _ end) => destruct x
         | |- quiet (match ?x with JNull => _ | _ => _ end) => destruct x
         | |- quiet (bind _ _) => apply quiet_bind; [ | intros ? ]
         | |- quiet (try_except _ _ _) => apply quiet_try_except; [ | intros ? ]
         | |- quiet _ => solve [auto with quiet | reflexivity]
         end.

Lemma on_message_quiet {J : JSONLib} {K : Paho} {D : Type} (self : t D) (raw : string) :
  quiet (on_message self raw).
Proof.
  unfold on_message, loads, dot_get, dot_get_default, str_iadd, publish_payload, connect.
  quiet_branches.
Qed.

Lemma handle_responses_quiet {J : JSONLib} {K : Paho} {D : Type} (self : t D) (ws : list string) :
  quiet (_handle_responses self ws).
Proof.
  revert self. induction ws as [ | raw ws IH ]; intros self; cbn [_handle_responses].
  - apply quiet_ret.
  - apply quiet_bind; [apply on_message_quiet | exact IH].
Qed.

(** C2: [_handle_responses] never asks the secondary model for a
    repair, whatever frames arrive.  On the buffer [{invalid] it
    prints the parse failure and resets; a buffer that is well-formed
    JSON but fails the schema, [{"foo":1}], is published as it is. *)
Theorem assembler_never_requests_repair :
  (forall (J : JSONLib) (K : Paho) (D : Type) (self : t D) (ws : list string),
      repairs (effects (_handle_responses self ws)) = [])
  /\ (forall (K : Paho) (D : Type) (dispatcher : option D),
        _handle_responses (J := RefJSON.lib) (init dispatcher)
          [Sample.delta_frame "{invalid"; Sample.done_frame]
        = ([Stdout (GotMessageType (JStr "response.content_part.delta"));
            Stdout (JsonDelta (JStr "{invalid"));
            Stdout (GotMessageType (JStr "response.done"));
            Stdout (JsonParseFailed JSONDecodeError);
            Stdout (BufferWas "{invalid")],
           Return (init dispatcher)))
  /\ validate smart_home_command_schema Sample.foo = false
  /\ (forall (D : Type) (dispatcher : option D),
        _handle_responses (J := RefJSON.lib) (K := RefJSON.reachable) (init dispatcher)
          [Sample.delta_frame Sample.foo_text; Sample.done_frame]
        = ([Stdout (GotMessageType (JStr "response.content_part.delta"));
            Stdout (JsonDelta (JStr Sample.foo_text));
            Stdout (GotMessageType (JStr "response.done"));
            Stdout (ParsedPayload Sample.foo);
            MqttConnect "test.mosquitto.org" 1883;
            MqttPublish "voice/commands" Sample.foo_text;
            MqttDisconnect],
           Return (init dispatcher))).
Proof.
  split; [ | split; [ | split]].
  - intros J K D self ws. apply handle_responses_quiet.
  - intros K D dispatcher. vm_compute. reflexivity.
  - vm_compute. reflexivity.
  - intros D dispatcher. vm_compute. reflexivity.
Qed.

(** ** utils/response_parser.py and the fallback *)

(** A response that validates is spoken and handed to the dispatcher,
    whatever its command is. *)
Lemma process_valid {J : JSONLib} {O : OpenAI} {D : Type} {handler : Dispatcher D}
  (self : ResponseParser.t D) (raw : string) (transcript : option string)
  (items : list (string * json)) :
  json_loads raw = Some (JObj items) ->
  conforms (JObj items) = true ->
  ResponseParser.process self raw transcript
  = (print (SpeakLine (Py.get items "speak")) ;;
     print (CommandLine (Py.get items "command")) ;;
     match ResponseParser.dispatcher self with
     | Some d => dispatch d (Py.get items "command")
     | None => ret tt
     end).
Proof.
  intros Hread Hok.
  unfold ResponseParser.process.
  rewrite (is_valid_command_structure_accepts raw (JObj items) Hread Hok), bind_ret.
  cbn [negb]. unfold ResponseParser.speak_and_dispatch, dot_get.
  rewrite !bind_ret. reflexivity.
Qed.

(** [MQTTHandler.dispatch] has no [get] to call on [None]. *)
Lemma dispatch_none {B : Builtins} (self : MQTTHandler.t) :
  MQTTHandler.dispatch self JNull = raise AttributeError.
Proof. reflexivity. Qed.

(** C1: on the valid payload [{"speak":"hi","command":null}] the
    parser asks for no repair, and it does call [dispatch], with
    [None]; the MQTT handler then raises [AttributeError]. *)
Theorem null_command_is_dispatched :
  (forall (D : Type) (handler : Dispatcher D) (d : D) (transcript : option string),
      ResponseParser.process (J := RefJSON.lib) (O := RefJSON.scripted None)
        (ResponseParser.init (Some d)) Sample.null_command_text transcript
      = (print (SpeakLine (JStr "hi")) ;;
         print (CommandLine JNull) ;;
         dispatch d JNull))
  /\ ResponseParser.process (J := RefJSON.lib) (O := RefJSON.scripted None)
       (handler := MQTTHandler_Dispatcher (B := RefJSON.builtins))
       (ResponseParser.init (Some Sample.mqtt)) Sample.null_command_text None
     = ([Stdout (SpeakLine (JStr "hi")); Stdout (CommandLine JNull)], Raise AttributeError).
Proof.
  split.
  - intros D handler d transcript.
    apply (process_valid (J := RefJSON.lib) (ResponseParser.init (Some d))
             Sample.null_command_text transcript [("speak", JStr "hi"); ("command", JNull)]);
      vm_compute; reflexivity.
  - vm_compute. reflexivity.
Qed.

(** The fallback reports success for any reply that is JSON. *)
Lemma fallback_reports_parsed_reply {J : JSONLib} {O : OpenAI}
  (self : OpenAIValidator.t) (transcript raw_response reply : string) (fixed : json) :
  chat_completion_content (OpenAIValidator.fallback_request self transcript raw_response)
  = Some reply ->
  json_loads reply = Some fixed ->
  OpenAIValidator.fallback self transcript raw_response
  = ([ChatCompletionCreate (OpenAIValidator.fallback_request self transcript raw_response)],
     Return (true, fixed)).
Proof.
  intros Hreply Hread.
  unfold OpenAIValidator.fallback, OpenAIValidator.create_and_read, loads.
  rewrite Hreply, bind_assoc, bind_emit, bind_ret, Hread. reflexivity.
Qed.

(** A response that fails validation leads to a request for repair
    when a transcript is available, carrying both texts. *)
Lemma handle_invalid_response_requests_repair {J : JSONLib} {O : OpenAI}
  (response_text transcript : string) :
  Validation.is_valid_command_structure response_text = ret (false, JNull) ->
  transcript <> "" ->
  repairs (effects (Validation.handle_invalid_response response_text (Some transcript)))
  = [OpenAIValidator.fallback_request Validation.validator transcript response_text].
Proof.
  intros Hfails Hsome.
  unfold Validation.handle_invalid_response, Validation.available.
  destruct (String.eqb_spec transcript "") as [Heq | _]; [contradiction | ].
  destruct (failed_validation_has_details response_text Hfails) as [d ->].
  rewrite bind_ret. unfold print. rewrite !bind_emit.
  unfold OpenAIValidator.fallback, OpenAIValidator.create_and_read, loads.
  destruct (chat_completion_content _) as [reply | ]; [ | reflexivity].
  rewrite bind_assoc, bind_emit, bind_ret.
  destruct (json_loads reply) as [fixed | ]; reflexivity.
Qed.

(** C3: a reply of the secondary model that is JSON but fails the
    command schema, [{"foo":1}], is reported by [fallback] as a success
    and returned by [handle_invalid_response] as the repaired value. *)
Theorem fallback_accepts_unvalidated_repair :
  validate smart_home_command_schema Sample.foo = false
  /\ OpenAIValidator.fallback (J := RefJSON.lib) (O := RefJSON.scripted (Some Sample.foo_text))
       (Validation.validator (O := RefJSON.scripted (Some Sample.foo_text)))
       "turn on the red light" "{invalid"
     = ([ChatCompletionCreate
           {| req_model := "gpt-4-1106-preview";
              req_gpt := None;
              req_temperature := 0;
              req_messages :=
                [("user", OpenAIValidator.fallback_prompt "turn on the red light" "{invalid")] |}],
        Return (true, Sample.foo))
  /\ result (Validation.handle_invalid_response (J := RefJSON.lib)
               (O := RefJSON.scripted (Some Sample.foo_text))
               "{invalid" (Some "turn on the red light"))
     = Return Sample.foo.
Proof.
  split; [ | split]; vm_compute; reflexivity.
Qed.

(** After such a repair [process] goes on to [json.loads(fixed)] with
    the value that [fallback] has already parsed, which raises
    [TypeError] before anything is spoken or dispatched. *)
Example process_after_repair_raises :
  ResponseParser.process (J := RefJSON.lib) (O := RefJSON.scripted (Some Sample.foo_text))
    (handler := MQTTHandler_Dispatcher (B := RefJSON.builtins))
    (ResponseParser.init (Some Sample.mqtt)) "{invalid" (Some "turn on the red light")
  = ([Stdout ResponseFailedValidation;
      Stdout (InvalidResponseReason (Some JSON_Decode_Error));
      Stdout AttemptingFallbackRepair;
      ChatCompletionCreate
        (OpenAIValidator.fallback_request
           (Validation.validator (O := RefJSON.scripted (Some Sample.foo_text)))
           "turn on the red light" "{invalid");
      Stdout RecoveredStructuredOutput;
      Stdout (Shown Sample.foo)],
     Raise TypeError).
Proof. vm_compute. reflexivity. Qed.

(** Without a transcript no repair is requested and the response is dropped. *)
Example process_without_transcript_drops :
  ResponseParser.process (J := RefJSON.lib) (O := RefJSON.scripted (Some Sample.null_command_text))
    (handler := MQTTHandler_Dispatcher (B := RefJSON.builtins))
    (ResponseParser.init (Some Sample.mqtt)) "{invalid" None
  = ([Stdout ResponseFailedValidation;
      Stdout (InvalidResponseReason (Some JSON_Decode_Error));
      Stdout CouldNotRecover],
     Return tt).
Proof. vm_compute. reflexivity. Qed.

(** The fragments of the specification's example, then turn-complete:
    the assembler rebuilds the payload and publishes all of it. *)
Example fragments_are_reassembled :
  _handle_responses (J := RefJSON.lib) (K := RefJSON.reachable) (init (Some Sample.mqtt))
    [Sample.delta_frame ("{" ++ RefJSON.dquote_string ++ "spe");
     Sample.delta_frame ("ak" ++ RefJSON.q ":" ++ "hi" ++ RefJSON.q "," ++ "comman");
     Sample.delta_frame ("d" ++ RefJSON.dquote_string ++ ":null}");
     Sample.done_frame]
  = ([Stdout (GotMessageType (JStr "response.content_part.delta"));
      Stdout (JsonDelta (JStr ("{" ++ RefJSON.dquote_string ++ "spe")));
      Stdout (GotMessageType (JStr "response.content_part.delta"));
      Stdout (JsonDelta (JStr ("ak" ++ RefJSON.q ":" ++ "hi" ++ RefJSON.q "," ++ "comman")));
      Stdout (GotMessageType (JStr "response.content_part.delta"));
      Stdout (JsonDelta (JStr ("d" ++ RefJSON.dquote_string ++ ":null}")));
      Stdout (GotMessageType (JStr "response.done"));
      Stdout (ParsedPayload Sample.null_command);
      MqttConnect "test.mosquitto.org" 1883;
      MqttPublish "voice/commands" Sample.null_command_text;
      MqttDisconnect],
     Return (init (Some Sample.mqtt))).
Proof. vm_compute. reflexivity. Qed.

(* ================================================================== *)
(** * Further properties *)
(* ================================================================== *)

(** ** services/openai/schema.py: what the command schema accepts *)

Lemma enum_string_true (allowed : list string) (x : json) :
  enum_string allowed x = true <-> exists s, x = JStr s /\ In s allowed.
Proof.
  destruct x as [ | b | n | s | elems | items ]; simpl;
    try (split; [discriminate | intros [s' [Hs _]]; discriminate Hs]).
  rewrite existsb_exists. split.
  - intros [a [Hin Heq]]. apply String.eqb_eq in Heq. subst.
    exists a. split; [reflexivity | exact Hin].
  - intros [a [[= ->] Hin]]. exists a. split; [exact Hin | apply String.eqb_refl].
Qed.

Lemma strings_of_values (allowed : list string) (elems : list json) :
  Forall (fun e => In e (map JStr allowed)) elems ->
  exists names, elems = map JStr names /\ Forall (fun c => In c allowed) names.
Proof.
  induction 1 as [ | e elems He _ [names [-> Hnames]] ].
  - exists []. split; [reflexivity | constructor].
  - apply in_map_iff in He. destruct He as [c [<- Hc]].
    exists (c :: names). split; [reflexivity | constructor; assumption].
Qed.

Lemma NoDup_map_JStr (names : list string) : NoDup (map JStr names) <-> NoDup names.
Proof.
  split.
  - apply NoDup_map_inv.
  - induction 1 as [ | c names Hc _ IH ]; cbn [map]; constructor; [ | exact IH].
    intros Hin. apply in_map_iff in Hin. destruct Hin as [c' [[= ->] Hin]]. contradiction.
Qed.


Lemma target_conforms_spec (target : json) :
  target_conforms target = true <-> target_of_schema target.
Proof.
  unfold target_of_schema. destruct target as [ | b | n | s | elems | items ].
  1-3, 6: split; [discriminate | intros [[c [H _]] | [cs [H _]]]; discriminate H].
  - cbn [target_conforms]. rewrite enum_string_true. split.
    + intros [c [[= ->] Hc]]. left. exists c. split; [reflexivity | exact Hc].
    + intros [[c [[= ->] Hc]] | [cs [H _]]]; [ | discriminate H].
      exists c. split; [reflexivity | exact Hc].
  - rewrite target_array_conforms. split.
    + intros [Hall [Hlen Hnd]]. right.
      destruct (strings_of_values colors elems Hall) as [cs [-> Hcs]].
      exists cs. rewrite length_map in Hlen. rewrite NoDup_map_JStr in Hnd.
      repeat split; try assumption; lia.
    + intros [[c [H _]] | [cs [[= ->] [Hcs [Hnd Hlen]]]]]; [discriminate H | ].
      rewrite length_map, NoDup_map_JStr. repeat split; try assumption; try lia.
      rewrite Forall_forall in *. intros e He. apply in_map_iff in He.
      destruct He as [c [<- Hc]]. apply in_map. apply Hcs. exact Hc.
Qed.

Lemma command_conforms_spec (command : json) :
  command_conforms command = true <-> command_of_schema command.
Proof.
  unfold command_of_schema. destruct command as [ | b | n | s | elems | cmd ].
  - split; [left; reflexivity | reflexivity].
  - split; [discriminate | intros [H | [? [? [? [? [H _]]]]]]; discriminate H].
  - split; [discriminate | intros [H | [? [? [? [? [H _]]]]]]; discriminate H].
  - split; [discriminate | intros [H | [? [? [? [? [H _]]]]]]; discriminate H].
  - split; [discriminate | intros [H | [? [? [? [? [H _]]]]]]; discriminate H].
  - cbn [command_conforms]. split.
    + destruct (dict_get "action" cmd) as [action | ] eqn:Ea; [ | discriminate].
      destruct (dict_get "device" cmd) as [device | ] eqn:Ed; [ | discriminate].
      destruct (dict_get "target" cmd) as [target | ] eqn:Et; [ | discriminate].
      rewrite !andb_true_iff, !enum_string_true, target_conforms_spec.
      intros [[[a [-> Ha]] [d [-> Hd]]] Ht]. right.
      exists cmd, a, d, target. repeat split; assumption.
    + intros [H | [cmd' [a [d [t [[= <-] [Ha [Hina [Hd [Hind [Ht Hadm]]]]]]]]]]];
        [discriminate H | ].
      rewrite Ha, Hd, Ht, !andb_true_iff, !enum_string_true, target_conforms_spec.
      repeat split; try assumption; eexists; split; try reflexivity; assumption.
Qed.

(** X1: [smart_home_command_schema] accepts exactly the dicts that hold
    a string under "speak" and, under "command", [None] or a dict whose
    action, device and target are of the enumerations, a target being
    one colour or one to three distinct colours. *)
Theorem schema_accepts_exactly_turn_payloads (payload : json) :
  validate smart_home_command_schema payload = true <->
  exists items speak command,
    payload = JObj items
    /\ dict_get "speak" items = Some (JStr speak)
    /\ dict_get "command" items = Some command
    /\ command_of_schema command.
Proof.
  rewrite validate_conforms. destruct payload as [ | b | n | s | elems | items ].
  1-5: split; [discriminate | intros [? [? [? [H _]]]]; discriminate H].
  cbn [conforms]. split.
  - destruct (dict_get "speak" items) as [[ | | | speak | | ] | ] eqn:Es; try discriminate.
    destruct (dict_get "command" items) as [command | ] eqn:Ec; [ | discriminate].
    intros Hok. exists items, speak, command.
    split; [reflexivity | ]. split; [exact Es | ]. split; [exact Ec | ].
    apply command_conforms_spec. exact Hok.
  - intros [items' [speak [command [[= <-] [-> [-> Hadm]]]]]].
    apply command_conforms_spec. exact Hadm.
Qed.

Lemma dict_get_app (key : string) (a b : list (string * json)) :
  dict_get key (a ++ b)
  = match dict_get key a with Some v => Some v | None => dict_get key b end.
Proof.
  induction a as [ | [k v] a IH ]; [reflexivity | ].
  cbn [app dict_get]. destruct (String.eqb k key); [reflexivity | exact IH].
Qed.

(** X2: the schema closes no object: a payload that it accepts is
    still accepted when a key that the payload does not have is added. *)
Theorem schema_allows_additional_keys (items : list (string * json)) (key : string) (value : json) :
  validate smart_home_command_schema (JObj items) = true ->
  dict_get key items = None ->
  validate smart_home_command_schema (JObj (items ++ [(key, value)])) = true.
Proof.
  rewrite !validate_conforms. cbn [conforms]. rewrite !dict_get_app.
  destruct (dict_get "speak" items) as [speak | ]; [ | discriminate].
  destruct (dict_get "command" items) as [command | ]; [ | destruct speak; discriminate].
  intros Hok _. exact Hok.
Qed.

Lemma schema_allows_additional_keys_witness :
  validate smart_home_command_schema
    (JObj ([("speak", JStr "ok"); ("command", JObj Sample.lights_command)]
           ++ [("note", JInt 7)])) = true.
Proof.
  apply schema_allows_additional_keys; reflexivity.
Defined.

(** X3: [validate_payload] accepts exactly the dicts with a string
    under "speak" and, under "command", [None] or a dict that has the
    keys action, device and target, whatever their values. *)
Theorem validate_payload_true_iff (payload : json) :
  validate_payload payload = true <->
  exists items speak,
    payload = JObj items
    /\ dict_get "speak" items = Some (JStr speak)
    /\ (dict_get "command" items = Some JNull
        \/ exists cmd, dict_get "command" items = Some (JObj cmd)
                       /\ dict_has "action" cmd = true
                       /\ dict_has "device" cmd = true
                       /\ dict_has "target" cmd = true).
Proof.
  destruct payload as [ | b | n | s | elems | items ].
  1-5: split; [discriminate | intros [? [? [H _]]]; discriminate H].
  unfold validate_payload, dict_has, Py.get. split.
  - destruct (dict_get "speak" items) as [[ | | | speak | | ] | ] eqn:Es; try discriminate;
      destruct (dict_get "command" items) as [[ | | | | | cmd] | ] eqn:Ec; try discriminate.
    + intros _. exists items, speak. repeat split; try assumption. left. exact Ec.
    + cbn [negb orb forallb]. rewrite andb_true_r.
      destruct (dict_get "action" cmd) eqn:Ea; [ | discriminate].
      destruct (dict_get "device" cmd) eqn:Ed; [ | discriminate].
      destruct (dict_get "target" cmd) eqn:Et; [ | discriminate].
      intros _. exists items, speak. repeat split; try assumption.
      right. exists cmd. rewrite Ea, Ed, Et. repeat split. exact Ec.
  - intros [items' [speak [[= <-] [-> [-> | [cmd [-> [Ha [Hd Ht]]]]]]]]]; [reflexivity | ].
    cbn [negb orb forallb].
    destruct (dict_get "action" cmd); [ | discriminate].
    destruct (dict_get "device" cmd); [ | discriminate].
    destruct (dict_get "target" cmd); [ | discriminate].
    reflexivity.
Qed.

(** X4: every payload that the schema accepts passes
    [validate_payload]. *)
Theorem schema_valid_payload_passes_validate_payload (payload : json) :
  validate smart_home_command_schema payload = true ->
  validate_payload payload = true.
Proof.
  rewrite validate_conforms.
  destruct payload as [ | b | n | s | elems | items ]; try discriminate.
  unfold conforms, validate_payload, dict_has, Py.get.
  destruct (dict_get "speak" items) as [[ | | | speak | | ] | ]; try discriminate.
  destruct (dict_get "command" items) as [[ | | | | | cmd] | ]; try discriminate.
  - reflexivity.
  - cbn [command_conforms negb orb forallb].
    destruct (dict_get "action" cmd); [ | discriminate].
    destruct (dict_get "device" cmd); [ | discriminate].
    destruct (dict_get "target" cmd); [ | discriminate].
    reflexivity.
Qed.

Lemma schema_valid_payload_passes_validate_payload_witness :
  validate_payload Sample.lights_payload = true.
Proof.
  apply schema_valid_payload_passes_validate_payload. reflexivity.
Defined.

(** X5: [fallback_repair_schema] accepts exactly the dicts that hold a
    string under "transcript" and a string under "raw_response". *)
Theorem fallback_repair_schema_accepts (instance : json) :
  validate fallback_repair_schema instance = true <->
  exists (items : list (string * json)) (transcript raw_response : string),
    instance = JObj items
    /\ dict_get "transcript" items = Some (JStr transcript)
    /\ dict_get "raw_response" items = Some (JStr raw_response).
Proof.
  unfold fallback_repair_schema. run_keywords.
  unfold kw_type, kw_required, kw_properties.
  destruct instance as [ | b | n | s | elems | items ].
  1-5: split; [discriminate | intros [? [? [? [H _]]]]; discriminate H].
  run_type. unfold dict_has.
  destruct (dict_get "transcript" items) as [transcript | ] eqn:Et.
  2: { split; [discriminate | intros [? [? [? [[= <-] [H _]]]]]; congruence]. }
  destruct (dict_get "raw_response" items) as [raw_response | ] eqn:Er.
  2: { split; [discriminate | intros [? [? [? [[= <-] [_ H]]]]]; congruence]. }
  cbn [andb]. rewrite ?andb_true_r. run_keywords. run_keywords. unfold kw_type.
  split.
  - destruct transcript; try discriminate. destruct raw_response; try discriminate.
    intros _. eexists. eexists. eexists. repeat split; eassumption.
  - intros [items' [t [r [[= <-] [Ht Hr]]]]]. rewrite Et in Ht. rewrite Er in Hr.
    injection Ht as ->. injection Hr as ->. reflexivity.
Qed.

(** ** utils/validation.py and services/openai/validation.py *)

Lemma validators_escape {J : JSONLib} (text : string) (e : exn) :
  escapes text = Some e ->
  Validation.get_validation_error_details text = raise e
  /\ Validation.is_valid_command_structure text = raise e.
Proof.
  unfold escapes, caught. pose proof (validators_table text) as Htable.
  destruct (json_loads text) as [parsed | ]; [discriminate | ].
  destruct (json_loads_error text); cbn [exn_eqb orb]; intros [= <-]; exact Htable.
Qed.

Lemma validators_return {J : JSONLib} (text : string) :
  escapes text = None ->
  exists (details : option error_details) (valid : bool) (parsed : json),
    Validation.get_validation_error_details text = ret details
    /\ Validation.is_valid_command_structure text = ret (valid, parsed)
    /\ (details = None <-> valid = true)
    /\ (details = Some JSON_Decode_Error
        <-> json_loads text = None /\ json_loads_error text = JSONDecodeError)
    /\ (valid = true -> json_loads text = Some parsed)
    /\ (valid = false -> parsed = JNull).
Proof.
  unfold escapes, caught. pose proof (validators_table text) as Htable.
  destruct (json_loads text) as [parsed | ].
  - intros _. destruct (validate smart_home_command_schema parsed);
      destruct Htable as [-> ->].
    + exists None, true, parsed. repeat split; try congruence. intros [H _]. discriminate H.
    + exists (Some Schema_Validation_Error), false, JNull.
      repeat split; try congruence. intros [H _]. discriminate H.
  - destruct (json_loads_error text) eqn:Hclass; cbn [exn_eqb orb]; try discriminate;
      intros _; destruct Htable as [-> ->].
    + exists (Some JSON_Decode_Error), false, JNull. repeat split; congruence.
    + exists (Some Schema_Validation_Error), false, JNull.
      repeat split; try congruence. intros [_ H]. discriminate H.
Qed.

Lemma failed_validation_does_not_escape {J : JSONLib} (text : string) :
  fails_validation text -> escapes text = None.
Proof.
  unfold fails_validation. intros Hfails.
  destruct (escapes text) as [e | ] eqn:Hescapes; [ | reflexivity].
  destruct (validators_escape text e Hescapes) as [_ Hraise].
  rewrite Hraise in Hfails. discriminate Hfails.
Qed.

(** X6: [get_validation_error_details] and
    [is_valid_command_structure] perform no effect and end alike.  An
    exception of [json.loads] that their [except] clauses do not name
    ([RecursionError], [ValueError]) leaves both.  Otherwise both
    return, and agree: there are no details exactly when the text is
    valid; the details are a JSON decode error exactly when
    [json.loads] raised [JSONDecodeError]; a valid text comes with the
    value read, an invalid one with [None]. *)
Theorem error_details_agree_with_validator {J : JSONLib} (text : string) :
  match escapes text with
  | Some e =>
      Validation.get_validation_error_details text = ([], Raise e)
      /\ Validation.is_valid_command_structure text = ([], Raise e)
  | None =>
      exists (details : option error_details) (valid : bool) (parsed : json),
        Validation.get_validation_error_details text = ([], Return details)
        /\ Validation.is_valid_command_structure text = ([], Return (valid, parsed))
        /\ (details = None <-> valid = true)
        /\ (details = Some JSON_Decode_Error
            <-> json_loads text = None /\ json_loads_error text = JSONDecodeError)
        /\ (valid = true -> json_loads text = Some parsed)
        /\ (valid = false -> parsed = JNull)
  end.
Proof.
  destruct (escapes text) as [e | ] eqn:Hescapes.
  - exact (validators_escape text e Hescapes).
  - exact (validators_return text Hescapes).
Qed.

Lemma fallback_table {J : JSONLib} {O : OpenAI}
  (self : OpenAIValidator.t) (transcript raw_response : string) :
  let req := OpenAIValidator.fallback_request self transcript raw_response in
  OpenAIValidator.fallback self transcript raw_response
  = match chat_completion_content req with
    | Some reply =>
        match json_loads reply with
        | Some fixed => ([ChatCompletionCreate req], Return (true, fixed))
        | None => ([ChatCompletionCreate req;
                    Stdout (OpenAIFallbackError (json_loads_error reply))],
                   Return (false, JNull))
        end
    | None => ([ChatCompletionCreate req; Stdout (OpenAIFallbackError OpenAIError)],
               Return (false, JNull))
    end.
Proof.
  cbv zeta. unfold OpenAIValidator.fallback, OpenAIValidator.create_and_read, loads.
  destruct (chat_completion_content _) as [reply | ]; [ | reflexivity].
  rewrite bind_assoc, bind_emit, bind_ret.
  destruct (json_loads reply) as [fixed | ]; reflexivity.
Qed.

(** X7: [fallback] never raises.  It makes one request, for the
    transcript and the raw response; it reports success exactly when
    [json.loads] reads the reply, then with the value read, and [None]
    without success. *)
Theorem fallback_never_raises {J : JSONLib} {O : OpenAI}
  (self : OpenAIValidator.t) (transcript raw_response : string) :
  exists (success : bool) (fixed : json),
    result (OpenAIValidator.fallback self transcript raw_response) = Return (success, fixed)
    /\ repairs (effects (OpenAIValidator.fallback self transcript raw_response))
       = [OpenAIValidator.fallback_request self transcript raw_response]
    /\ (success = true <->
        exists reply,
          chat_completion_content
            (OpenAIValidator.fallback_request self transcript raw_response) = Some reply
          /\ json_loads reply = Some fixed)
    /\ (success = false -> fixed = JNull).
Proof.
  pose proof (fallback_table self transcript raw_response) as Htable. cbv zeta in Htable.
  rewrite Htable.
  destruct (chat_completion_content _) as [reply | ].
  - destruct (json_loads reply) as [fixed | ] eqn:Hread.
    + exists true, fixed. repeat split; try reflexivity; try discriminate.
      intros _. exists reply. split; [reflexivity | exact Hread].
    + exists false, JNull. repeat split; try reflexivity; try discriminate.
      intros [reply' [[= <-] Hread']]. congruence.
  - exists false, JNull. repeat split; try reflexivity; try discriminate.
    intros [reply' [Hnone _]]. discriminate Hnone.
Qed.

(** X8: [validate_or_fallback] answers a valid text itself, with no
    effect, and hands a text that fails validation to [fallback]; an
    exception of [json.loads] that [validate] does not catch leaves it
    before any request. *)
Theorem validate_or_fallback_repairs_only_invalid {J : JSONLib} {O : OpenAI}
  (self : OpenAIValidator.t) (response_text transcript : string) :
  OpenAIValidator.validate_or_fallback self response_text transcript
  = match json_loads response_text with
    | Some parsed =>
        if validate smart_home_command_schema parsed then ([], Return (true, parsed))
        else OpenAIValidator.fallback self transcript response_text
    | None =>
        if caught (json_loads_error response_text)
        then OpenAIValidator.fallback self transcript response_text
        else ([], Raise (json_loads_error response_text))
    end.
Proof.
  unfold OpenAIValidator.validate_or_fallback, OpenAIValidator.validate,
    OpenAIValidator.get_schema, loads, caught.
  destruct (json_loads response_text) as [parsed | ].
  - rewrite bind_ret. unfold jsonschema_validate.
    destruct (validate smart_home_command_schema parsed); [reflexivity | ].
    cbn [bind raise try_except exn_eqb orb].
    destruct (OpenAIValidator.fallback self transcript response_text) as [log r].
    reflexivity.
  - destruct (json_loads_error response_text); cbn [bind raise try_except exn_eqb orb];
      try reflexivity;
      destruct (OpenAIValidator.fallback self transcript response_text) as [log r];
      reflexivity.
Qed.

Lemma error_details_returns {J : JSONLib} (text : string) :
  escapes text = None ->
  exists details, Validation.get_validation_error_details text = ret details.
Proof.
  intros Hnone. destruct (validators_return text Hnone) as [details [_ [_ [Hd _]]]].
  exists details. exact Hd.
Qed.

(** X9: without a transcript ([None] or the empty string)
    [handle_invalid_response] prints the reason and returns [None]; the
    secondary model is not asked.  An exception of [json.loads] that
    [get_validation_error_details] does not catch leaves it before
    anything is printed. *)
Theorem handle_invalid_response_without_transcript {J : JSONLib} {O : OpenAI}
  (response_text : string) (transcript : option string) :
  transcript = None \/ transcript = Some "" ->
  match escapes response_text with
  | Some e => Validation.handle_invalid_response response_text transcript = ([], Raise e)
  | None =>
      exists details,
        Validation.handle_invalid_response response_text transcript
        = ([Stdout (InvalidResponseReason details)], Return JNull)
  end.
Proof.
  intros Hnone.
  assert (Havailable : Validation.available transcript = None)
    by (destruct Hnone as [-> | ->]; reflexivity).
  unfold Validation.handle_invalid_response. rewrite Havailable.
  destruct (escapes response_text) as [e | ] eqn:Hescapes.
  - destruct (validators_escape response_text e Hescapes) as [-> _]. reflexivity.
  - destruct (error_details_returns response_text Hescapes) as [details ->].
    exists details. rewrite bind_ret. reflexivity.
Qed.

Lemma handle_invalid_response_without_transcript_witness :
  match escapes (J := RefJSON.bounded 1000) "{invalid" with
  | Some e =>
      Validation.handle_invalid_response (J := RefJSON.bounded 1000)
        (O := RefJSON.scripted (Some Sample.null_command_text)) "{invalid" (Some "")
      = ([], Raise e)
  | None =>
      exists details,
        Validation.handle_invalid_response (J := RefJSON.bounded 1000)
          (O := RefJSON.scripted (Some Sample.null_command_text)) "{invalid" (Some "")
        = ([Stdout (InvalidResponseReason details)], Return JNull)
  end.
Proof.
  apply (handle_invalid_response_without_transcript (J := RefJSON.bounded 1000)
           (O := RefJSON.scripted (Some Sample.null_command_text)) "{invalid" (Some "")).
  right. reflexivity.
Defined.

Lemma handle_invalid_response_table {J : JSONLib} {O : OpenAI}
  (response_text transcript : string) :
  escapes response_text = None ->
  transcript <> "" ->
  exists details,
    Validation.handle_invalid_response response_text (Some transcript)
    = (print (InvalidResponseReason details) ;;
       print AttemptingFallbackRepair ;;
       r <- OpenAIValidator.fallback Validation.validator transcript response_text ;;
       if fst r then
         print RecoveredStructuredOutput ;;
         print (Shown (snd r)) ;;
         ret (snd r)
       else
         print FallbackAlsoFailed ;;
         ret JNull).
Proof.
  intros Hreturns Hsome. unfold Validation.handle_invalid_response, Validation.available.
  destruct (String.eqb_spec transcript "") as [Heq | _]; [contradiction | ].
  destruct (error_details_returns response_text Hreturns) as [details ->].
  exists details. rewrite bind_ret.
  apply bind_ext. intros _. apply bind_ext. intros _.
  apply bind_ext. intros [success fixed]. reflexivity.
Qed.

(** X10: with a transcript [handle_invalid_response] makes exactly
    one request: model gpt-4-1106-preview, temperature 0, one user
    message that holds the transcript and the invalid output; it
    returns [None] or the value that [json.loads] read from the reply.
    An exception of [json.loads] that [get_validation_error_details]
    does not catch leaves it before the request. *)
Theorem handle_invalid_response_with_transcript {J : JSONLib} {O : OpenAI}
  (response_text transcript : string) :
  transcript <> "" ->
  let req := {| req_model := "gpt-4-1106-preview";
                req_gpt := None;
                req_temperature := 0;
                req_messages :=
                  [("user", ("Transcript: " ++ transcript ++ OpenAIValidator.LF
                             ++ "Invalid output: " ++ response_text)%string)] |} in
  match escapes response_text with
  | Some e =>
      Validation.handle_invalid_response response_text (Some transcript) = ([], Raise e)
  | None =>
      repairs (effects (Validation.handle_invalid_response response_text (Some transcript)))
      = [req]
      /\ exists fixed,
           result (Validation.handle_invalid_response response_text (Some transcript))
           = Return fixed
           /\ (fixed = JNull
               \/ exists reply, chat_completion_content req = Some reply
                                /\ json_loads reply = Some fixed)
  end.
Proof.
  intros Hsome req.
  destruct (escapes response_text) as [e | ] eqn:Hescapes.
  { unfold Validation.handle_invalid_response.
    destruct (validators_escape response_text e Hescapes) as [-> _]. reflexivity. }
  destruct (handle_invalid_response_table response_text transcript Hescapes Hsome)
    as [details ->].
  pose proof (fallback_table Validation.validator transcript response_text) as Htable.
  cbv zeta in Htable. rewrite Htable.
  change (OpenAIValidator.fallback_request Validation.validator transcript response_text)
    with req.
  unfold print. rewrite !bind_emit.
  destruct (chat_completion_content req) as [reply | ].
  - destruct (json_loads reply) as [fixed | ] eqn:Hread.
    + split; [reflexivity | ]. exists fixed. split; [reflexivity | ].
      right. exists reply. split; [reflexivity | exact Hread].
    + split; [reflexivity | ]. exists JNull. split; [reflexivity | left; reflexivity].
  - split; [reflexivity | ]. exists JNull. split; [reflexivity | left; reflexivity].
Qed.

Lemma handle_invalid_response_with_transcript_witness :
  let req := {| req_model := "gpt-4-1106-preview";
                req_gpt := None;
                req_temperature := 0;
                req_messages :=
                  [("user", ("Transcript: " ++ "turn on the red light" ++ OpenAIValidator.LF
                             ++ "Invalid output: " ++ Frames.deep)%string)] |} in
  match escapes (J := RefJSON.bounded 1000) Frames.deep with
  | Some e =>
      Validation.handle_invalid_response (J := RefJSON.bounded 1000)
        (O := RefJSON.scripted (Some Sample.foo_text))
        Frames.deep (Some "turn on the red light")
      = ([], Raise e)
  | None =>
      repairs (effects (Validation.handle_invalid_response (J := RefJSON.bounded 1000)
                          (O := RefJSON.scripted (Some Sample.foo_text))
                          Frames.deep (Some "turn on the red light")))
      = [req]
      /\ exists fixed,
           result (Validation.handle_invalid_response (J := RefJSON.bounded 1000)
                     (O := RefJSON.scripted (Some Sample.foo_text))
                     Frames.deep (Some "turn on the red light"))
           = Return fixed
           /\ (fixed = JNull
               \/ exists reply,
                    chat_completion_content
                      (OpenAI := RefJSON.scripted (Some Sample.foo_text)) req
                    = Some reply
                    /\ json_loads (JSONLib := RefJSON.bounded 1000) reply = Some fixed)
  end.
Proof.
  apply (handle_invalid_response_with_transcript (J := RefJSON.bounded 1000)
           (O := RefJSON.scripted (Some Sample.foo_text)) Frames.deep "turn on the red light").
  discriminate.
Defined.

(** ** utils/response_parser.py *)


Lemma process_invalid {J : JSONLib} {O : OpenAI} {D : Type} {handler : Dispatcher D}
  (self : ResponseParser.t D) (raw : string) (transcript : option string) :
  fails_validation raw ->
  ResponseParser.process self raw transcript
  = (print ResponseFailedValidation ;;
     fixed <- Validation.handle_invalid_response raw transcript ;;
     if negb (truthy fixed) then print CouldNotRecover ;; ret tt
     else parsed <- loads_object fixed ;; ResponseParser.speak_and_dispatch self parsed).
Proof.
  intros Hfails. unfold ResponseParser.process. rewrite Hfails, bind_ret. reflexivity.
Qed.

(** X11: [process] drops a response that fails validation when there
    is no transcript: three lines are printed, nothing is dispatched
    and the call returns. *)
Theorem process_drops_without_transcript {J : JSONLib} {O : OpenAI}
  {D : Type} {handler : Dispatcher D}
  (self : ResponseParser.t D) (raw : string) (transcript : option string) :
  fails_validation raw ->
  transcript = None \/ transcript = Some "" ->
  exists details,
    ResponseParser.process self raw transcript
    = ([Stdout ResponseFailedValidation;
        Stdout (InvalidResponseReason details);
        Stdout CouldNotRecover],
       Return tt).
Proof.
  intros Hfails Hnone.
  assert (Havailable : Validation.available transcript = None)
    by (destruct Hnone as [-> | ->]; reflexivity).
  rewrite (process_invalid self raw transcript Hfails).
  unfold Validation.handle_invalid_response. rewrite Havailable.
  destruct (error_details_returns raw (failed_validation_does_not_escape raw Hfails))
    as [details ->].
  exists details. reflexivity.
Qed.

Lemma process_drops_without_transcript_witness :
  exists details,
    ResponseParser.process (J := RefJSON.lib) (O := RefJSON.scripted None)
      (handler := MQTTHandler_Dispatcher (B := RefJSON.builtins))
      (ResponseParser.init (Some Sample.mqtt)) "{invalid" None
    = ([Stdout ResponseFailedValidation;
        Stdout (InvalidResponseReason details);
        Stdout CouldNotRecover],
       Return tt).
Proof.
  apply (process_drops_without_transcript (J := RefJSON.lib) (O := RefJSON.scripted None)
           (handler := MQTTHandler_Dispatcher (B := RefJSON.builtins))
           (ResponseParser.init (Some Sample.mqtt)) "{invalid" None).
  - vm_compute. reflexivity.
  - left. reflexivity.
Defined.

(** X12: [process] drops a response that fails validation when the
    repair fails, because the request to the secondary model raises or
    because its reply is not JSON: the call returns after the printed
    lines and the one request, and nothing is dispatched. *)
Theorem process_drops_when_fallback_fails {J : JSONLib} {O : OpenAI}
  {D : Type} {handler : Dispatcher D}
  (self : ResponseParser.t D) (raw transcript : string) :
  fails_validation raw ->
  transcript <> "" ->
  (chat_completion_content
     (OpenAIValidator.fallback_request Validation.validator transcript raw) = None
   \/ exists reply,
        chat_completion_content
          (OpenAIValidator.fallback_request Validation.validator transcript raw) = Some reply
        /\ json_loads reply = None) ->
  exists details e,
    ResponseParser.process self raw (Some transcript)
    = ([Stdout ResponseFailedValidation;
        Stdout (InvalidResponseReason details);
        Stdout AttemptingFallbackRepair;
        ChatCompletionCreate
          (OpenAIValidator.fallback_request Validation.validator transcript raw);
        Stdout (OpenAIFallbackError e);
        Stdout FallbackAlsoFailed;
        Stdout CouldNotRecover],
       Return tt).
Proof.
  intros Hfails Hsome Hfailed.
  rewrite (process_invalid self raw (Some transcript) Hfails).
  destruct (handle_invalid_response_table raw transcript
              (failed_validation_does_not_escape raw Hfails) Hsome) as [details ->].
  pose proof (fallback_table Validation.validator transcript raw) as Htable.
  cbv zeta in Htable. rewrite Htable. exists details.
  destruct Hfailed as [-> | [reply [-> ->]]]; eexists; reflexivity.
Qed.

Lemma process_drops_when_fallback_fails_witness :
  exists details e,
    ResponseParser.process (J := RefJSON.lib) (O := RefJSON.scripted None)
      (handler := MQTTHandler_Dispatcher (B := RefJSON.builtins))
      (ResponseParser.init (Some Sample.mqtt)) "{invalid" (Some "turn on the red light")
    = ([Stdout ResponseFailedValidation;
        Stdout (InvalidResponseReason details);
        Stdout AttemptingFallbackRepair;
        ChatCompletionCreate
          (OpenAIValidator.fallback_request (Validation.validator (O := RefJSON.scripted None))
             "turn on the red light" "{invalid");
        Stdout (OpenAIFallbackError e);
        Stdout FallbackAlsoFailed;
        Stdout CouldNotRecover],
       Return tt).
Proof.
  apply (process_drops_when_fallback_fails (J := RefJSON.lib) (O := RefJSON.scripted None)
           (handler := MQTTHandler_Dispatcher (B := RefJSON.builtins))
           (ResponseParser.init (Some Sample.mqtt)) "{invalid" "turn on the red light").
  - vm_compute. reflexivity.
  - discriminate.
  - left. reflexivity.
Defined.

(** X13: a repair that [json.loads] reads as anything but a string
    never reaches the dispatcher.  [process] hands the repaired value
    to [json.loads] again, which raises [TypeError] for a value that is
    true and not a [str]; a value that is false ([None], [False], [0],
    an empty list or dict) is dropped. *)
Theorem process_repaired_value_is_not_dispatched {J : JSONLib} {O : OpenAI}
  {D : Type} {handler : Dispatcher D}
  (self : ResponseParser.t D) (raw transcript reply : string) (fixed : json) :
  fails_validation raw ->
  transcript <> "" ->
  chat_completion_content
    (OpenAIValidator.fallback_request Validation.validator transcript raw) = Some reply ->
  json_loads reply = Some fixed ->
  (forall s, fixed <> JStr s) ->
  exists details,
    ResponseParser.process self raw (Some transcript)
    = ([Stdout ResponseFailedValidation;
        Stdout (InvalidResponseReason details);
        Stdout AttemptingFallbackRepair;
        ChatCompletionCreate
          (OpenAIValidator.fallback_request Validation.validator transcript raw);
        Stdout RecoveredStructuredOutput;
        Stdout (Shown fixed)]
       ++ (if truthy fixed then [] else [Stdout CouldNotRecover]),
       if truthy fixed then Raise TypeError else Return tt).
Proof.
  intros Hfails Hsome Hreply Hread Hnotstr.
  rewrite (process_invalid self raw (Some transcript) Hfails).
  destruct (handle_invalid_response_table raw transcript
              (failed_validation_does_not_escape raw Hfails) Hsome) as [details ->].
  pose proof (fallback_table Validation.validator transcript raw) as Htable.
  cbv zeta in Htable. rewrite Htable, Hreply, Hread. exists details.
  destruct fixed as [ | [ | ] | n | s | [ | v elems ] | [ | kv items ] ];
    try reflexivity.
  - destruct n; reflexivity.
  - exfalso. apply (Hnotstr s). reflexivity.
Qed.

Lemma process_repaired_value_is_not_dispatched_witness :
  exists details,
    ResponseParser.process (J := RefJSON.lib) (O := RefJSON.scripted (Some Sample.foo_text))
      (handler := MQTTHandler_Dispatcher (B := RefJSON.builtins))
      (ResponseParser.init (Some Sample.mqtt)) "{invalid" (Some "turn on the red light")
    = ([Stdout ResponseFailedValidation;
        Stdout (InvalidResponseReason details);
        Stdout AttemptingFallbackRepair;
        ChatCompletionCreate
          (OpenAIValidator.fallback_request
             (Validation.validator (O := RefJSON.scripted (Some Sample.foo_text)))
             "turn on the red light" "{invalid");
        Stdout RecoveredStructuredOutput;
        Stdout (Shown Sample.foo)]
       ++ (if truthy Sample.foo then [] else [Stdout CouldNotRecover]),
       if truthy Sample.foo then Raise TypeError else Return tt).
Proof.
  apply (process_repaired_value_is_not_dispatched (J := RefJSON.lib)
           (O := RefJSON.scripted (Some Sample.foo_text))
           (handler := MQTTHandler_Dispatcher (B := RefJSON.builtins))
           (ResponseParser.init (Some Sample.mqtt)) "{invalid" "turn on the red light"
           Sample.foo_text Sample.foo).
  - vm_compute. reflexivity.
  - discriminate.
  - reflexivity.
  - vm_compute. reflexivity.
  - intros s. discriminate.
Defined.

Lemma bind_return_log {A B : Type} (log : list effect) (a : A) (f : A -> M B) :
  bind (log, Return a) f = (log ++ effects (f a), result (f a)).
Proof. unfold bind, effects, result. destruct (f a) as [log' r]. reflexivity. Qed.

(** X14: [process] dispatches after a repair when the reply is a
    JSON string whose content is itself the text of a JSON object: that
    object's command goes to the dispatcher. *)
Theorem process_dispatches_doubly_encoded_repair {J : JSONLib} {O : OpenAI}
  {D : Type} {handler : Dispatcher D}
  (self : ResponseParser.t D) (raw transcript reply inner_text : string)
  (inner : list (string * json)) :
  fails_validation raw ->
  transcript <> "" ->
  chat_completion_content
    (OpenAIValidator.fallback_request Validation.validator transcript raw) = Some reply ->
  json_loads reply = Some (JStr inner_text) ->
  inner_text <> "" ->
  json_loads inner_text = Some (JObj inner) ->
  exists details,
    ResponseParser.process self raw (Some transcript)
    = (print ResponseFailedValidation ;;
       print (InvalidResponseReason details) ;;
       print AttemptingFallbackRepair ;;
       emit (ChatCompletionCreate
               (OpenAIValidator.fallback_request Validation.validator transcript raw)) ;;
       print RecoveredStructuredOutput ;;
       print (Shown (JStr inner_text)) ;;
       print (SpeakLine (Py.get inner "speak")) ;;
       print (CommandLine (Py.get inner "command")) ;;
       match ResponseParser.dispatcher self with
       | Some d => dispatch d (Py.get inner "command")
       | None => ret tt
       end).
Proof.
  intros Hfails Hsome Hreply Hread Htext Hinner.
  rewrite (process_invalid self raw (Some transcript) Hfails).
  destruct (handle_invalid_response_table raw transcript
              (failed_validation_does_not_escape raw Hfails) Hsome) as [details ->].
  pose proof (fallback_table Validation.validator transcript raw) as Htable.
  cbv zeta in Htable. rewrite Htable, Hreply, Hread. exists details.
  match goal with
  | |- bind _ (fun _ => bind ?h _) = _ =>
      change h with
        ([Stdout (InvalidResponseReason details);
          Stdout AttemptingFallbackRepair;
          ChatCompletionCreate
            (OpenAIValidator.fallback_request Validation.validator transcript raw);
          Stdout RecoveredStructuredOutput;
          Stdout (Shown (JStr inner_text))], Return (JStr inner_text))
  end.
  unfold print at 1. rewrite bind_emit, bind_return_log.
  cbn [truthy]. destruct (String.eqb_spec inner_text "") as [Heq | _]; [contradiction | ].
  cbn [negb loads_object]. unfold loads. rewrite Hinner, bind_ret.
  unfold ResponseParser.speak_and_dispatch, dot_get. rewrite !bind_ret.
  unfold print, emit. cbn [bind app effects result fst snd].
  destruct (match ResponseParser.dispatcher self with
            | Some d => dispatch d (Py.get inner "command")
            | None => ret tt
            end) as [log r].
  reflexivity.
Qed.

Lemma process_dispatches_doubly_encoded_repair_witness :
  exists details,
    ResponseParser.process (J := RefJSON.lib)
      (O := RefJSON.scripted (Some Frames.quoted_lights_text))
      (handler := MQTTHandler_Dispatcher (B := RefJSON.builtins))
      (ResponseParser.init (Some Sample.mqtt)) "{invalid" (Some "turn on the red light")
    = (print ResponseFailedValidation ;;
       print (InvalidResponseReason details) ;;
       print AttemptingFallbackRepair ;;
       emit (ChatCompletionCreate
               (OpenAIValidator.fallback_request
                  (Validation.validator (O := RefJSON.scripted (Some Frames.quoted_lights_text)))
                  "turn on the red light" "{invalid")) ;;
       print RecoveredStructuredOutput ;;
       print (Shown (JStr Frames.lights_text)) ;;
       print (SpeakLine (JStr "ok")) ;;
       print (CommandLine (JObj Sample.lights_command)) ;;
       MQTTHandler.dispatch (B := RefJSON.builtins) Sample.mqtt (JObj Sample.lights_command)).
Proof.
  apply (process_dispatches_doubly_encoded_repair (J := RefJSON.lib)
           (O := RefJSON.scripted (Some Frames.quoted_lights_text))
           (handler := MQTTHandler_Dispatcher (B := RefJSON.builtins))
           (ResponseParser.init (Some Sample.mqtt)) "{invalid" "turn on the red light"
           Frames.quoted_lights_text Frames.lights_text
           [("speak", JStr "ok"); ("command", JObj Sample.lights_command)]).
  - vm_compute. reflexivity.
  - discriminate.
  - reflexivity.
  - vm_compute. reflexivity.
  - vm_compute. discriminate.
  - vm_compute. reflexivity.
Defined.

(** ** services/mqtt/mqtt_handler.py on a command of the schema *)


Lemma publish_each_strings {B : Builtins} (action device : string) (cs : list string) :
  MQTTHandler.publish_each (JStr action) (JStr device) (map JStr cs)
  = (flat_map (switch action device) cs, Return tt).
Proof.
  induction cs as [ | c cs IH ]; [reflexivity | ].
  cbn [map MQTTHandler.publish_each flat_map]. unfold print.
  rewrite !bind_emit, IH. reflexivity.
Qed.

Lemma dispatch_conforming {B : Builtins} (self : MQTTHandler.t) (cmd : list (string * json)) :
  command_conforms (JObj cmd) = true ->
  exists (action device : string) (cs : list string),
    dict_get "action" cmd = Some (JStr action) /\ In action actions
    /\ dict_get "device" cmd = Some (JStr device) /\ In device devices
    /\ (dict_get "target" cmd = Some (JArr (map JStr cs))
        \/ exists c, cs = [c] /\ dict_get "target" cmd = Some (JStr c))
    /\ Forall (fun c => In c colors) cs /\ NoDup cs /\ (1 <= length cs <= 3)%nat
    /\ MQTTHandler.dispatch self (JObj cmd) = (flat_map (switch action device) cs, Return tt).
Proof.
  intros Hok. apply command_conforms_spec in Hok.
  destruct Hok as [Hnull | [cmd' [action [device [target
                     [[= <-] [Ha [Hina [Hd [Hind [Ht Hadm]]]]]]]]]]]; [discriminate Hnull | ].
  assert (Hrun : forall cs,
             match target with
             | JStr _ => ret [target]
             | _ => iterate target
             end = ret (map JStr cs) ->
             MQTTHandler.dispatch self (JObj cmd)
             = (flat_map (switch action device) cs, Return tt)).
  { intros cs Hloop. unfold MQTTHandler.dispatch, dot_get, Py.get.
    rewrite Ha, Hd, Ht, !bind_ret, Hloop, bind_ret. apply publish_each_strings. }
  destruct Hadm as [[c [-> Hc]] | [cs [-> [Hcs [Hnd Hlen]]]]].
  - exists action, device, [c]. repeat split; try assumption.
    + right. exists c. split; [reflexivity | exact Ht].
    + constructor; [exact Hc | constructor].
    + constructor; [intros [] | constructor].
    + cbn. lia.
    + cbn. lia.
    + apply Hrun. reflexivity.
  - exists action, device, cs. repeat split; try assumption; try lia.
    + left. exact Ht.
    + apply Hrun. reflexivity.
Qed.

Lemma published_switches (action device : string) (cs : list string) :
  published (flat_map (switch action device) cs)
  = map (fun c => ((device ++ "/" ++ c)%string, on_off action)) cs.
Proof.
  induction cs as [ | c cs IH ]; [reflexivity | ].
  cbn [flat_map map]. unfold switch at 1. cbn [app published flat_map].
  fold (published (flat_map (switch action device) cs)). rewrite IH. reflexivity.
Qed.

(** X15: on a command that the command schema accepts, [dispatch]
    returns and publishes one message per colour of the target, in
    order, to device/colour, with payload ON for turn_on and OFF
    otherwise; the texts of the topics need no [repr]. *)
Theorem dispatch_command_of_schema {B : Builtins}
  (self : MQTTHandler.t) (cmd : list (string * json)) :
  validate command_schema (JObj cmd) = true ->
  exists (action device : string) (cs : list string),
    dict_get "action" cmd = Some (JStr action)
    /\ dict_get "device" cmd = Some (JStr device) /\ In device devices
    /\ (dict_get "target" cmd = Some (JArr (map JStr cs))
        \/ exists c, cs = [c] /\ dict_get "target" cmd = Some (JStr c))
    /\ Forall (fun c => In c colors) cs
    /\ result (MQTTHandler.dispatch self (JObj cmd)) = Return tt
    /\ published (effects (MQTTHandler.dispatch self (JObj cmd)))
       = map (fun c => ((device ++ "/" ++ c)%string, on_off action)) cs.
Proof.
  rewrite validate_command. intros Hok.
  destruct (dispatch_conforming self cmd Hok)
    as [action [device [cs [Ha [_ [Hd [Hind [Ht [Hcs [_ [_ Hrun]]]]]]]]]]].
  exists action, device, cs. rewrite Hrun.
  repeat split; try assumption. apply published_switches.
Qed.

Lemma dispatch_command_of_schema_witness :
  exists (action device : string) (cs : list string),
    dict_get "action" Sample.lights_command = Some (JStr action)
    /\ dict_get "device" Sample.lights_command = Some (JStr device) /\ In device devices
    /\ (dict_get "target" Sample.lights_command = Some (JArr (map JStr cs))
        \/ exists c, cs = [c] /\ dict_get "target" Sample.lights_command = Some (JStr c))
    /\ Forall (fun c => In c colors) cs
    /\ result (MQTTHandler.dispatch (B := RefJSON.builtins) Sample.mqtt
                 (JObj Sample.lights_command)) = Return tt
    /\ published (effects (MQTTHandler.dispatch (B := RefJSON.builtins) Sample.mqtt
                             (JObj Sample.lights_command)))
       = map (fun c => ((device ++ "/" ++ c)%string, on_off action)) cs.
Proof.
  apply (dispatch_command_of_schema (B := RefJSON.builtins) Sample.mqtt Sample.lights_command).
  vm_compute. reflexivity.
Defined.

(** X16: a response that validates and holds a command dict is
    dispatched: [process] publishes one message per colour of the
    target, asks for no repair and returns. *)
Theorem process_publishes_valid_command {J : JSONLib} {O : OpenAI} {B : Builtins}
  (mqtt : MQTTHandler.t) (raw : string) (transcript : option string)
  (items cmd : list (string * json)) :
  json_loads raw = Some (JObj items) ->
  validate smart_home_command_schema (JObj items) = true ->
  dict_get "command" items = Some (JObj cmd) ->
  exists (action device : string) (cs : list string),
    dict_get "action" cmd = Some (JStr action)
    /\ dict_get "device" cmd = Some (JStr device) /\ In device devices
    /\ (dict_get "target" cmd = Some (JArr (map JStr cs))
        \/ exists c, cs = [c] /\ dict_get "target" cmd = Some (JStr c))
    /\ Forall (fun c => In c colors) cs
    /\ result (ResponseParser.process (ResponseParser.init (Some mqtt)) raw transcript)
       = Return tt
    /\ published (effects (ResponseParser.process (ResponseParser.init (Some mqtt))
                             raw transcript))
       = map (fun c => ((device ++ "/" ++ c)%string, on_off action)) cs
    /\ repairs (effects (ResponseParser.process (ResponseParser.init (Some mqtt))
                           raw transcript)) = [].
Proof.
  intros Hread Hvalid Hcommand.
  rewrite validate_conforms in Hvalid.
  assert (Hcmd : command_conforms (JObj cmd) = true).
  { cbn [conforms] in Hvalid. rewrite Hcommand in Hvalid.
    destruct (dict_get "speak" items) as [[ | | | | | ] | ]; try discriminate. exact Hvalid. }
  destruct (dispatch_conforming mqtt cmd Hcmd)
    as [action [device [cs [Ha [_ [Hd [Hind [Ht [Hcs [_ [_ Hrun]]]]]]]]]]].
  exists action, device, cs.
  rewrite (process_valid (ResponseParser.init (Some mqtt)) raw transcript items Hread Hvalid).
  assert (Hget : Py.get items "command" = JObj cmd).
  { unfold Py.get. rewrite Hcommand. reflexivity. }
  cbn [ResponseParser.init ResponseParser.dispatcher dispatch MQTTHandler_Dispatcher].
  rewrite Hget, Hrun.
  unfold print. rewrite !bind_emit. cbn [effects result fst snd].
  repeat split; try assumption.
  - change (published (flat_map (switch action device) cs)
            = map (fun c => ((device ++ "/" ++ c)%string, on_off action)) cs).
    apply published_switches.
  - change (repairs (flat_map (switch action device) cs) = []).
    clear. induction cs as [ | c cs IH ]; [reflexivity | exact IH].
Qed.

Lemma process_publishes_valid_command_witness :
  exists (action device : string) (cs : list string),
    dict_get "action" Sample.lights_command = Some (JStr action)
    /\ dict_get "device" Sample.lights_command = Some (JStr device) /\ In device devices
    /\ (dict_get "target" Sample.lights_command = Some (JArr (map JStr cs))
        \/ exists c, cs = [c] /\ dict_get "target" Sample.lights_command = Some (JStr c))
    /\ Forall (fun c => In c colors) cs
    /\ result (ResponseParser.process (J := RefJSON.lib) (O := RefJSON.scripted None)
                 (handler := MQTTHandler_Dispatcher (B := RefJSON.builtins))
                 (ResponseParser.init (Some Sample.mqtt)) Frames.lights_text None)
       = Return tt
    /\ published (effects (ResponseParser.process (J := RefJSON.lib)
                             (O := RefJSON.scripted None)
                             (handler := MQTTHandler_Dispatcher (B := RefJSON.builtins))
                             (ResponseParser.init (Some Sample.mqtt)) Frames.lights_text None))
       = map (fun c => ((device ++ "/" ++ c)%string, on_off action)) cs
    /\ repairs (effects (ResponseParser.process (J := RefJSON.lib)
                           (O := RefJSON.scripted None)
                           (handler := MQTTHandler_Dispatcher (B := RefJSON.builtins))
                           (ResponseParser.init (Some Sample.mqtt)) Frames.lights_text None))
       = [].
Proof.
  apply (process_publishes_valid_command (J := RefJSON.lib) (O := RefJSON.scripted None)
           (B := RefJSON.builtins) Sample.mqtt Frames.lights_text None
           [("speak", JStr "ok"); ("command", JObj Sample.lights_command)]
           Sample.lights_command).
  - vm_compute. reflexivity.
  - vm_compute. reflexivity.
  - reflexivity.
Defined.

(** ** services/openai/realtime.py: the frames of a turn *)


Lemma string_app_assoc (a b c : string) : ((a ++ b) ++ c = a ++ (b ++ c))%string.
Proof. induction a as [ | ch a IH ]; [reflexivity | ]. cbn. rewrite IH. reflexivity. Qed.

Lemma string_app_empty (a : string) : (a ++ "")%string = a.
Proof. induction a as [ | ch a IH ]; [reflexivity | ]. cbn. rewrite IH. reflexivity. Qed.

Lemma set_json_buffer_same {D : Type} (self : t D) :
  set_json_buffer self (_json_buffer self) = self.
Proof. destruct self. reflexivity. Qed.

Lemma on_message_content {J : JSONLib} {K : Paho} {D : Type} (self : t D) (raw : string) (content : json) :
  content_frame raw content ->
  exists (name : string) (line : console),
    (line = JsonDelta content \/ line = JsonFinalFragment content)
    /\ on_message self raw
       = (print (GotMessageType (JStr name)) ;;
          print line ;;
          buffer <- str_iadd (_json_buffer self) content ;;
          ret (set_json_buffer self buffer)).
Proof.
  intros [msg [name [Hread [Htype [Hname Hcontent]]]]].
  unfold on_message, loads. rewrite Hread, bind_ret.
  unfold dot_get, dot_get_default, Py.get. rewrite Htype, bind_ret, Hcontent.
  destruct Hname as [-> | ->]; cbn [eq_str String.eqb Ascii.eqb Bool.eqb];
    rewrite bind_ret; eexists; eexists; (split; [ | reflexivity]); [left | right]; reflexivity.
Qed.

Lemma on_message_fragment {J : JSONLib} {K : Paho} {D : Type} (self : t D) (raw frag : string) :
  content_frame raw (JStr frag) ->
  exists (name : string) (line : console),
    on_message self raw
    = ([Stdout (GotMessageType (JStr name)); Stdout line],
       Return (set_json_buffer self (_json_buffer self ++ frag)%string)).
Proof.
  intros Hframe.
  destruct (on_message_content self raw (JStr frag) Hframe) as [name [line [_ Hrun]]].
  exists name, line. rewrite Hrun. reflexivity.
Qed.

Lemma handle_responses_fragments {J : JSONLib} {K : Paho} {D : Type}
  (self : t D) (ws : list string) (frags : list string) :
  Forall2 (fun raw frag => content_frame raw (JStr frag)) ws frags ->
  exists log : list effect,
    _handle_responses self ws
    = (log, Return (set_json_buffer self (_json_buffer self ++ joined frags)%string))
    /\ published log = []
    /\ length log = (2 * length ws)%nat.
Proof.
  intros Hframes. revert self.
  induction Hframes as [ | raw frag ws frags Hframe _ IH ]; intros self.
  - exists []. cbn [_handle_responses joined fold_right].
    rewrite string_app_empty, set_json_buffer_same. repeat split.
  - destruct (on_message_fragment self raw frag Hframe) as [name [line Hrun]].
    destruct (IH (set_json_buffer self (_json_buffer self ++ frag)%string))
      as [log [Hrest [Hquiet Hlen]]].
    exists (Stdout (GotMessageType (JStr name)) :: Stdout line :: log).
    cbn [_handle_responses]. rewrite Hrun, bind_return_log, Hrest.
    cbn [effects result fst snd app joined fold_right _json_buffer set_json_buffer].
    rewrite string_app_assoc. repeat split.
    + exact Hquiet.
    + cbn [length]. lia.
Qed.

(** X17: content frames (delta and done parts) only accumulate: the
    loop returns with the buffer extended by their fragments in order,
    prints two lines per frame and publishes nothing. *)
Theorem content_frames_accumulate {J : JSONLib} {K : Paho} {D : Type}
  (self : t D) (ws : list string) (frags : list string) :
  Forall2 (fun raw frag => content_frame raw (JStr frag)) ws frags ->
  result (_handle_responses self ws)
  = Return (set_json_buffer self (_json_buffer self ++ joined frags)%string)
  /\ published (effects (_handle_responses self ws)) = []
  /\ length (effects (_handle_responses self ws)) = (2 * length ws)%nat.
Proof.
  intros Hframes.
  destruct (handle_responses_fragments self ws frags Hframes) as [log [-> [Hquiet Hlen]]].
  repeat split; assumption.
Qed.

Lemma halves_are_content_frames :
  Forall2 (fun raw frag => content_frame (J := RefJSON.lib) raw (JStr frag))
    [Sample.delta_frame Frames.head; Sample.delta_frame Frames.tail]
    [Frames.head; Frames.tail].
Proof.
  repeat constructor.
  - exists [("type", JStr "response.content_part.delta"); ("content", JStr Frames.head)],
      "response.content_part.delta".
    split; [vm_compute; reflexivity | ].
    split; [reflexivity | ].
    split; [left; reflexivity | reflexivity].
  - exists [("type", JStr "response.content_part.delta"); ("content", JStr Frames.tail)],
      "response.content_part.delta".
    split; [vm_compute; reflexivity | ].
    split; [reflexivity | ].
    split; [left; reflexivity | reflexivity].
Qed.

Lemma content_frames_accumulate_witness :
  result (_handle_responses (J := RefJSON.lib) (K := RefJSON.unreachable)
            (init (Some Sample.mqtt))
            [Sample.delta_frame Frames.head; Sample.delta_frame Frames.tail])
  = Return (set_json_buffer (init (Some Sample.mqtt))
              (_json_buffer (init (Some Sample.mqtt))
               ++ joined [Frames.head; Frames.tail])%string)
  /\ published (effects (_handle_responses (J := RefJSON.lib) (K := RefJSON.unreachable)
            (init (Some Sample.mqtt))
                           [Sample.delta_frame Frames.head; Sample.delta_frame Frames.tail]))
     = []
  /\ length (effects (_handle_responses (J := RefJSON.lib) (K := RefJSON.unreachable)
            (init (Some Sample.mqtt))
                        [Sample.delta_frame Frames.head; Sample.delta_frame Frames.tail]))
     = (2 * length [Sample.delta_frame Frames.head; Sample.delta_frame Frames.tail])%nat.
Proof.
  apply (content_frames_accumulate (J := RefJSON.lib) (K := RefJSON.unreachable)
            (init (Some Sample.mqtt))
           [Sample.delta_frame Frames.head; Sample.delta_frame Frames.tail]
           [Frames.head; Frames.tail]).
  exact halves_are_content_frames.
Defined.

Lemma published_app (log log' : list effect) :
  published (log ++ log') = (published log ++ published log')%list.
Proof. unfold published. apply flat_map_app. Qed.

Lemma left_by_app {J : JSONLib} {K : Paho} {D : Type}
  (self self1 : t D) (ws1 ws2 : list string) :
  result (_handle_responses self ws1) = Return self1 ->
  left_by self (ws1 ++ ws2) = left_by self1 ws2.
Proof.
  revert self. induction ws1 as [ | raw ws1 IH ]; intros self.
  - cbn [_handle_responses result ret snd app]. intros [= <-]. reflexivity.
  - cbn [_handle_responses app left_by].
    destruct (on_message self raw) as [log [self' | e]]; [ | discriminate].
    rewrite bind_return_log. cbn [result snd]. exact (IH self').
Qed.

(** X18: a turn, content frames and then response.done, publishes at
    most once: the payload that [json.loads] reads from the assembled
    text, on MQTT_TOPIC, and nothing when that text is empty or
    [json.loads] raises on it.  The turn ends with the buffer empty,
    unless the broker cannot be reached for a payload: then
    [publish_payload] raises, the loop ends, nothing is published and
    the object keeps the assembled text. *)
Theorem turn_publishes_assembled_text {J : JSONLib} {K : Paho} {D : Type}
  (self : t D) (ws : list string) (frags : list string) (done_frame : string) :
  Forall2 (fun raw frag => content_frame raw (JStr frag)) ws frags ->
  frame_of_type "response.done" done_frame ->
  let text := (_json_buffer self ++ joined frags)%string in
  let run := _handle_responses self (ws ++ [done_frame]) in
  let left := left_by self (ws ++ [done_frame]) in
  if String.eqb text "" then
    result run = Return (set_json_buffer self "")
    /\ published (effects run) = []
    /\ left = set_json_buffer self ""
  else
    match json_loads text, connect_error (MQTT_BROKER self) (MQTT_PORT self) with
    | Some payload, None =>
        result run = Return (set_json_buffer self "")
        /\ published (effects run) = [(MQTT_TOPIC self, json_dumps payload)]
        /\ left = set_json_buffer self ""
    | Some payload, Some e =>
        result run = Raise e
        /\ published (effects run) = []
        /\ left = set_json_buffer self text
    | None, _ =>
        result run = Return (set_json_buffer self "")
        /\ published (effects run) = []
        /\ left = set_json_buffer self ""
    end.
Proof.
  intros Hframes Hdone text run left. subst run left.
  destruct (handle_responses_fragments self ws frags Hframes) as [log [Hrun [Hquiet _]]].
  fold text in Hrun.
  assert (Hbefore : result (_handle_responses self ws) = Return (set_json_buffer self text))
    by (rewrite Hrun; reflexivity).
  rewrite (left_by_app self (set_json_buffer self text) ws [done_frame] Hbefore).
  destruct (turn_complete_table (set_json_buffer self text) done_frame Hdone)
    as [log' [Hstep Hpublished]].
  cbn [_json_buffer set_json_buffer MQTT_BROKER MQTT_PORT MQTT_TOPIC] in Hstep, Hpublished.
  assert (Hall : _handle_responses self (ws ++ [done_frame])
                 = ((log ++ log')%list, result (on_message (set_json_buffer self text)
                                                  done_frame))).
  { rewrite handle_responses_app, Hrun, bind_return_log. cbn [_handle_responses].
    rewrite Hstep. cbn [effects result fst snd].
    destruct (String.eqb text ""); [cbn [bind ret]; rewrite app_nil_r; reflexivity | ].
    destruct (json_loads text) as [payload | ];
      [destruct (connect_error (MQTT_BROKER self) (MQTT_PORT self)) as [e | ] | ];
      cbn [bind ret]; rewrite ?app_nil_r; reflexivity. }
  rewrite Hall. cbn [effects result fst snd left_by].
  rewrite published_app, Hquiet, Hpublished, Hstep. cbn [app result snd].
  destruct (String.eqb text ""); [repeat split | ].
  destruct (json_loads text) as [payload | ]; [ | repeat split].
  destruct (connect_error (MQTT_BROKER self) (MQTT_PORT self)) as [e | ]; repeat split.
Qed.

Lemma turn_publishes_assembled_text_witness :
  let self := init (Some Sample.mqtt) in
  let ws := [Sample.delta_frame Frames.head; Sample.delta_frame Frames.tail] in
  let text := (_json_buffer self ++ joined [Frames.head; Frames.tail])%string in
  let run := _handle_responses (J := RefJSON.lib) (K := RefJSON.unreachable) self
               (ws ++ [Sample.done_frame]) in
  let left := left_by (J := RefJSON.lib) (K := RefJSON.unreachable) self
                (ws ++ [Sample.done_frame]) in
  if String.eqb text "" then
    result run = Return (set_json_buffer self "")
    /\ published (effects run) = []
    /\ left = set_json_buffer self ""
  else
    match json_loads (JSONLib := RefJSON.lib) text,
          connect_error (Paho := RefJSON.unreachable) (MQTT_BROKER self) (MQTT_PORT self) with
    | Some payload, None =>
        result run = Return (set_json_buffer self "")
        /\ published (effects run)
           = [(MQTT_TOPIC self, json_dumps (JSONLib := RefJSON.lib) payload)]
        /\ left = set_json_buffer self ""
    | Some payload, Some e =>
        result run = Raise e
        /\ published (effects run) = []
        /\ left = set_json_buffer self text
    | None, _ =>
        result run = Return (set_json_buffer self "")
        /\ published (effects run) = []
        /\ left = set_json_buffer self ""
    end.
Proof.
  apply (turn_publishes_assembled_text (J := RefJSON.lib) (K := RefJSON.unreachable)
           (init (Some Sample.mqtt))
           [Sample.delta_frame Frames.head; Sample.delta_frame Frames.tail]
           [Frames.head; Frames.tail] Sample.done_frame).
  - exact halves_are_content_frames.
  - exact done_frame_is_turn_complete.
Defined.

(** X19: a frame of any other type, or of no type, prints its type
    and leaves the client as it was. *)
Theorem other_frames_change_nothing {J : JSONLib} {K : Paho} {D : Type}
  (self : t D) (raw : string) (msg : list (string * json)) :
  json_loads raw = Some (JObj msg) ->
  ~ In (Py.get msg "type") (map JStr handled_types) ->
  on_message self raw = ([Stdout (GotMessageType (Py.get msg "type"))], Return self).
Proof.
  intros Hread Hother.
  unfold on_message, loads. rewrite Hread, bind_ret.
  unfold dot_get. rewrite bind_ret.
  assert (Hne : forall name, In name handled_types -> eq_str (Py.get msg "type") name = false).
  { intros name Hin. destruct (Py.get msg "type") as [ | | | s | | ]; try reflexivity.
    cbn [eq_str]. apply String.eqb_neq. intros ->.
    apply Hother. apply in_map. exact Hin. }
  rewrite !Hne by (cbn; tauto). reflexivity.
Qed.

Lemma other_frames_change_nothing_witness :
  on_message (J := RefJSON.lib) (K := RefJSON.unreachable)
      (init (Some Sample.mqtt)) Frames.ping_frame
  = ([Stdout (GotMessageType (Py.get [("type", JStr "ping")] "type"))],
     Return (init (Some Sample.mqtt))).
Proof.
  apply (other_frames_change_nothing (J := RefJSON.lib) (K := RefJSON.unreachable)
      (init (Some Sample.mqtt))
           Frames.ping_frame [("type", JStr "ping")]).
  - vm_compute. reflexivity.
  - intros [H | [H | [H | []]]]; discriminate H.
Defined.

(** X20: a frame on which [json.loads] raises ends the loop with
    that exception ([JSONDecodeError] for a frame that is not JSON),
    and one that is JSON but no dict raises [AttributeError]: nothing
    is printed for it and the frames after it are not processed. *)
Theorem unreadable_frame_ends_the_loop {J : JSONLib} {K : Paho} {D : Type}
  (self self1 : t D) (before after : list string) (raw : string) (e : exn) :
  result (_handle_responses self before) = Return self1 ->
  (json_loads raw = None /\ e = json_loads_error raw)
  \/ (exists v, json_loads raw = Some v /\ (forall msg, v <> JObj msg) /\ e = AttributeError) ->
  _handle_responses self (before ++ raw :: after)
  = (effects (_handle_responses self before), Raise e).
Proof.
  intros Hbefore Hbad.
  assert (Hframe : on_message self1 raw = ([], Raise e)).
  { unfold on_message, loads.
    destruct Hbad as [[-> ->] | [v [-> [Hv ->]]]]; [reflexivity | ].
    rewrite bind_ret. destruct v as [ | | | | | msg ]; try reflexivity.
    destruct (Hv msg eq_refl). }
  rewrite handle_responses_app.
  destruct (_handle_responses self before) as [log r]. cbn [result snd] in Hbefore. subst r.
  rewrite bind_return_log. cbn [_handle_responses]. rewrite Hframe.
  cbn [bind effects result fst snd]. rewrite app_nil_r. reflexivity.
Qed.

Lemma unreadable_frame_ends_the_loop_witness :
  _handle_responses (J := RefJSON.lib) (K := RefJSON.unreachable) (init (Some Sample.mqtt))
    ([Sample.delta_frame "{"] ++ "{invalid" :: [Sample.done_frame])
  = (effects (_handle_responses (J := RefJSON.lib) (K := RefJSON.unreachable)
                (init (Some Sample.mqtt)) [Sample.delta_frame "{"]),
     Raise JSONDecodeError).
Proof.
  apply (unreadable_frame_ends_the_loop (J := RefJSON.lib) (K := RefJSON.unreachable)
           (init (Some Sample.mqtt))
           (set_json_buffer (init (Some Sample.mqtt)) "{")
           [Sample.delta_frame "{"] [Sample.done_frame] "{invalid" JSONDecodeError).
  - vm_compute. reflexivity.
  - left. split; [vm_compute | ]; reflexivity.
Defined.

(** X21: a content frame whose content is not a string raises
    [TypeError] at [self._json_buffer += frag], after its two lines are
    printed; nothing is published. *)
Theorem content_that_is_no_string_raises {J : JSONLib} {K : Paho} {D : Type}
  (self : t D) (raw : string) (content : json) :
  content_frame raw content ->
  (forall frag, content <> JStr frag) ->
  result (on_message self raw) = Raise TypeError
  /\ published (effects (on_message self raw)) = []
  /\ exists name, effects (on_message self raw) = [Stdout (GotMessageType (JStr name));
                                                   Stdout (JsonDelta content)]
               \/ effects (on_message self raw) = [Stdout (GotMessageType (JStr name));
                                                   Stdout (JsonFinalFragment content)].
Proof.
  intros Hframe Hcontent.
  destruct (on_message_content self raw content Hframe) as [name [line [Hline ->]]].
  assert (Hadd : str_iadd (_json_buffer self) content = raise TypeError).
  { destruct content as [ | | | frag | | ]; try reflexivity. destruct (Hcontent frag eq_refl). }
  rewrite Hadd. unfold print. rewrite !bind_emit. cbn [bind raise effects result fst snd].
  repeat split.
  exists name. destruct Hline as [-> | ->]; [left | right]; reflexivity.
Qed.

Lemma content_that_is_no_string_raises_witness :
  result (on_message (J := RefJSON.lib) (K := RefJSON.unreachable)
            (init (Some Sample.mqtt)) Frames.number_frame)
  = Raise TypeError
  /\ published (effects (on_message (J := RefJSON.lib) (K := RefJSON.unreachable)
            (init (Some Sample.mqtt))
                           Frames.number_frame)) = []
  /\ exists name,
       effects (on_message (J := RefJSON.lib) (K := RefJSON.unreachable)
            (init (Some Sample.mqtt)) Frames.number_frame)
       = [Stdout (GotMessageType (JStr name)); Stdout (JsonDelta (JInt 7))]
       \/ effects (on_message (J := RefJSON.lib) (K := RefJSON.unreachable)
            (init (Some Sample.mqtt)) Frames.number_frame)
          = [Stdout (GotMessageType (JStr name)); Stdout (JsonFinalFragment (JInt 7))].
Proof.
  apply (content_that_is_no_string_raises (J := RefJSON.lib) (K := RefJSON.unreachable)
            (init (Some Sample.mqtt))
           Frames.number_frame (JInt 7)).
  - exists [("type", JStr "response.content_part.delta"); ("content", JInt 7)],
      "response.content_part.delta".
    split; [vm_compute; reflexivity | ].
    split; [reflexivity | ].
    split; [left; reflexivity | reflexivity].
  - intros frag. discriminate.
Defined.

(** ** services/openai/realtime.py: [is_valid_json] and [_feed_json_delta] *)



Import RealtimeDebug.

Lemma broker_map (log : list effect) : broker (map Broker log) = log.
Proof. induction log as [ | e log IH ]; [reflexivity | ]. cbn. f_equal. exact IH. Qed.

Lemma publish_table {J : JSONLib} {K : Paho} {D : Type} (self : t D) (obj : json) :
  publish self obj
  = match connect_error (MQTT_BROKER self) (MQTT_PORT self) with
    | None =>
        ([Broker (MqttConnect (MQTT_BROKER self) (MQTT_PORT self));
          Broker (MqttPublish (MQTT_TOPIC self) (json_dumps obj));
          Broker MqttDisconnect], Return tt)
    | Some e => ([Broker (MqttConnect (MQTT_BROKER self) (MQTT_PORT self))], Raise e)
    end.
Proof.
  unfold publish, publish_payload, connect.
  destruct (connect_error (MQTT_BROKER self) (MQTT_PORT self)); reflexivity.
Qed.

(** The three ways [is_valid_json] ends. *)
Lemma is_valid_json_table {J : JSONLib} {K : Paho} {S : StrLib} {D : Type}
  (self : t D) (raw : string) :
  (exists obj, json_loads (str_strip raw) = Some obj /\ speak_and_command obj
               /\ is_valid_json self raw
                  = match publish self obj with
                    | (log, Return _) => (log, Return true)
                    | (log, Raise e) => (log, Raise e)
                    end)
  \/ ((forall obj, json_loads (str_strip raw) = Some obj -> ~ speak_and_command obj)
      /\ ((exists l, is_valid_json self raw
                     = ([Line l; Line (Cleaned (str_strip raw))], Return false))
          \/ (exists e, is_valid_json self raw = ([], Raise e)))).
Proof.
  unfold is_valid_json.
  destruct (json_loads (str_strip raw)) as [obj | ] eqn:Hread.
  2: { right. split; [discriminate | ].
       destruct (json_loads_error (str_strip raw));
         first [left; eexists; reflexivity | right; eexists; reflexivity]. }
  assert (Hno : forall P : Prop, ~ speak_and_command obj ->
            (forall obj', Some obj = Some obj' -> ~ speak_and_command obj')).
  { intros _ Hn obj' [= <-]. exact Hn. }
  destruct obj as [ | b | n | s | elems | items ].
  1-5: right; (split; [apply (Hno True); intros [? [? [H _]]]; discriminate H
                      | left; eexists; reflexivity]).
  unfold dict_has, Py.get.
  destruct (dict_get "speak" items) as [[ | | | speak | | ] | ] eqn:Es.
  1-3, 5-7: right; (split; [apply (Hno True); intros [? [? [[= <-] [H _]]]]; congruence
                           | left; eexists; reflexivity]).
  destruct (dict_get "command" items) as [[ | | | | | cmd] | ] eqn:Ec.
  2-5, 7: right; (split; [apply (Hno True);
                          intros [? [? [[= <-] [_ [H | [? H]]]]]]; congruence
                         | left; eexists; reflexivity]).
  - left. eexists. split; [reflexivity | ]. split; [ | reflexivity].
    exists items, speak. repeat split; [exact Es | left; exact Ec].
  - left. eexists. split; [reflexivity | ]. split; [ | reflexivity].
    exists items, speak. repeat split; [exact Es | right; exists cmd; exact Ec].
Qed.

(** X22: [is_valid_json] returns [True] exactly when the stripped text
    is JSON for an object with a string under "speak" and [None] or a
    dict under "command", and the broker is reached; it publishes that
    object once then, and nothing otherwise. *)
Theorem is_valid_json_publishes_iff_true {J : JSONLib} {K : Paho} {S : StrLib} {D : Type}
  (self : t D) (raw : string) :
  (snd (is_valid_json self raw) = Return true
   <-> (exists obj, json_loads (str_strip raw) = Some obj /\ speak_and_command obj)
       /\ connects self = true)
  /\ published (broker (fst (is_valid_json self raw)))
     = match json_loads (str_strip raw), snd (is_valid_json self raw) with
       | Some obj, Return true => [(MQTT_TOPIC self, json_dumps obj)]
       | _, _ => []
       end.
Proof.
  unfold connects.
  destruct (is_valid_json_table self raw)
    as [[obj [Hread [Hshape ->]]] | [Hnone [[l ->] | [e ->]]]].
  - rewrite Hread, publish_table.
    destruct (connect_error (MQTT_BROKER self) (MQTT_PORT self)) as [e | ]; cbn [fst snd].
    + split; [ | reflexivity]. split; [discriminate | intros [_ H]; discriminate H].
    + split; [ | reflexivity].
      split; [intros _; split; [exists obj; split; [reflexivity | exact Hshape] | ] | ];
        reflexivity.
  - cbn [fst snd]. split.
    + split; [discriminate | ].
      intros [[obj [Hread Hshape]] _]. destruct (Hnone obj Hread Hshape).
    + destruct (json_loads (str_strip raw)); reflexivity.
  - cbn [fst snd]. split.
    + split; [discriminate | ].
      intros [[obj [Hread Hshape]] _]. destruct (Hnone obj Hread Hshape).
    + destruct (json_loads (str_strip raw)); reflexivity.
Qed.

(** X23: whatever the schema or [validate_payload] accepts,
    [is_valid_json] accepts and publishes: connect, one publish on
    MQTT_TOPIC, disconnect; when the broker cannot be reached, the
    exception of [connect] leaves [is_valid_json]. *)
Theorem is_valid_json_accepts_what_validate_payload_accepts
  {J : JSONLib} {K : Paho} {S : StrLib} {D : Type} (self : t D) (raw : string) (obj : json) :
  json_loads (str_strip raw) = Some obj ->
  validate smart_home_command_schema obj = true \/ validate_payload obj = true ->
  is_valid_json self raw
  = match connect_error (MQTT_BROKER self) (MQTT_PORT self) with
    | None =>
        ([Broker (MqttConnect (MQTT_BROKER self) (MQTT_PORT self));
          Broker (MqttPublish (MQTT_TOPIC self) (json_dumps obj));
          Broker MqttDisconnect], Return true)
    | Some e => ([Broker (MqttConnect (MQTT_BROKER self) (MQTT_PORT self))], Raise e)
    end.
Proof.
  intros Hread Hvalid.
  assert (Hpayload : validate_payload obj = true).
  { destruct Hvalid as [Hschema | Hpayload]; [ | exact Hpayload].
    rewrite validate_conforms in Hschema.
    destruct obj as [ | b | n | s | elems | items ]; try discriminate.
    revert Hschema. unfold conforms, validate_payload, dict_has, Py.get.
    destruct (dict_get "speak" items) as [[ | | | speak | | ] | ]; try discriminate.
    destruct (dict_get "command" items) as [[ | | | | | cmd] | ]; try discriminate.
    - reflexivity.
    - cbn [command_conforms negb orb forallb].
      destruct (dict_get "action" cmd); [ | discriminate].
      destruct (dict_get "device" cmd); [ | discriminate].
      destruct (dict_get "target" cmd); [ | discriminate].
      reflexivity. }
  assert (Hrun : is_valid_json self raw
                 = match publish self obj with
                   | (log, Return _) => (log, Return true)
                   | (log, Raise e) => (log, Raise e)
                   end).
  { unfold is_valid_json. rewrite Hread.
    destruct obj as [ | b | n | s | elems | items ]; try discriminate.
    revert Hpayload. unfold validate_payload, dict_has, Py.get.
    destruct (dict_get "speak" items) as [[ | | | speak | | ] | ]; try discriminate;
      destruct (dict_get "command" items) as [[ | | | | | cmd] | ]; try discriminate;
      reflexivity. }
  rewrite Hrun, publish_table.
  destruct (connect_error (MQTT_BROKER self) (MQTT_PORT self)); reflexivity.
Qed.

Lemma is_valid_json_accepts_what_validate_payload_accepts_witness :
  is_valid_json (J := RefJSON.lib) (K := RefJSON.reachable) (S := ascii_strip)
    (init (Some Sample.mqtt)) (" " ++ Frames.lights_text ++ OpenAIValidator.LF)%string
  = match connect_error (Paho := RefJSON.reachable) (MQTT_BROKER (init (Some Sample.mqtt)))
            (MQTT_PORT (init (Some Sample.mqtt))) with
    | None =>
        ([Broker (MqttConnect (MQTT_BROKER (init (Some Sample.mqtt)))
                    (MQTT_PORT (init (Some Sample.mqtt))));
          Broker (MqttPublish (MQTT_TOPIC (init (Some Sample.mqtt)))
                    (json_dumps (JSONLib := RefJSON.lib) Sample.lights_payload));
          Broker MqttDisconnect], Return true)
    | Some e =>
        ([Broker (MqttConnect (MQTT_BROKER (init (Some Sample.mqtt)))
                    (MQTT_PORT (init (Some Sample.mqtt))))], Raise e)
    end.
Proof.
  apply (is_valid_json_accepts_what_validate_payload_accepts (J := RefJSON.lib)
           (K := RefJSON.reachable) (S := ascii_strip) (init (Some Sample.mqtt))
           (" " ++ Frames.lights_text ++ OpenAIValidator.LF)%string Sample.lights_payload).
  - vm_compute. reflexivity.
  - left. vm_compute. reflexivity.
Defined.

(** X24: [is_valid_json] does not look into the command: any dict
    passes to [publish_payload], also one without action, device or
    target, which [validate_payload] and the schema reject. *)
Theorem is_valid_json_ignores_command_keys {J : JSONLib} {K : Paho} {S : StrLib} {D : Type}
  (self : t D) (raw speak : string) (items cmd : list (string * json)) :
  json_loads (str_strip raw) = Some (JObj items) ->
  dict_get "speak" items = Some (JStr speak) ->
  dict_get "command" items = Some (JObj cmd) ->
  snd (is_valid_json self raw)
  = match connect_error (MQTT_BROKER self) (MQTT_PORT self) with
    | None => Return true
    | Some e => Raise e
    end
  /\ (~ (dict_has "action" cmd = true /\ dict_has "device" cmd = true
         /\ dict_has "target" cmd = true)
      -> validate_payload (JObj items) = false
         /\ validate smart_home_command_schema (JObj items) = false).
Proof.
  intros Hread Hspeak Hcommand. split.
  - unfold is_valid_json. rewrite Hread. unfold dict_has, Py.get.
    rewrite Hspeak, Hcommand. cbn [andb]. rewrite publish_table.
    destruct (connect_error (MQTT_BROKER self) (MQTT_PORT self)); reflexivity.
  - intros Hkeys.
    assert (Hpayload : validate_payload (JObj items) = false).
    { unfold validate_payload, dict_has, Py.get. rewrite Hspeak, Hcommand.
      cbn [negb orb forallb]. unfold dict_has in Hkeys.
      destruct (dict_get "action" cmd); [ | reflexivity].
      destruct (dict_get "device" cmd); [ | reflexivity].
      destruct (dict_get "target" cmd); [ | reflexivity].
      destruct Hkeys. repeat split. }
    split; [exact Hpayload | ].
    rewrite validate_conforms. unfold conforms. rewrite Hspeak, Hcommand.
    cbn [command_conforms]. unfold dict_has in Hkeys.
    destruct (dict_get "action" cmd); [ | reflexivity].
    destruct (dict_get "device" cmd); [ | reflexivity].
    destruct (dict_get "target" cmd); [ | reflexivity].
    destruct Hkeys. repeat split.
Qed.

Lemma is_valid_json_ignores_command_keys_witness :
  snd (is_valid_json (J := RefJSON.lib) (K := RefJSON.reachable) (S := ascii_strip)
         (init (Some Sample.mqtt)) Frames.bare_command_text)
  = match connect_error (Paho := RefJSON.reachable) (MQTT_BROKER (init (Some Sample.mqtt)))
            (MQTT_PORT (init (Some Sample.mqtt))) with
    | None => Return true
    | Some e => Raise e
    end
  /\ (~ (dict_has "action" [] = true /\ dict_has "device" [] = true
         /\ dict_has "target" [] = true)
      -> validate_payload (JObj Frames.bare_command) = false
         /\ validate smart_home_command_schema (JObj Frames.bare_command) = false).
Proof.
  apply (is_valid_json_ignores_command_keys (J := RefJSON.lib) (K := RefJSON.reachable)
           (S := ascii_strip) (init (Some Sample.mqtt)) Frames.bare_command_text "ok"
           Frames.bare_command []).
  - vm_compute. reflexivity.
  - reflexivity.
  - reflexivity.
Defined.

Lemma feed_json_delta_step {J : JSONLib} {K : Paho} {D : Type} (self : t D) (delta : string) :
  _feed_json_delta self delta
  = let text := (_json_buffer self ++ delta)%string in
    if balanced text then
      match json_loads text with
      | None =>
          match json_loads_error text with
          | JSONDecodeError =>
              ([Line (StillMalformed text)], (set_json_buffer self "", Return tt))
          | e => ([], (set_json_buffer self "", Raise e))
          end
      | Some obj =>
          (Line (CompleteJson obj) :: fst (publish (set_json_buffer self text) obj),
           (set_json_buffer self "", snd (publish (set_json_buffer self text) obj)))
      end
    else ([], (set_json_buffer self text, Return tt)).
Proof. reflexivity. Qed.

(** What a call leaves in the buffer. *)
Lemma feed_json_delta_state {J : JSONLib} {K : Paho} {D : Type} (self : t D) (delta : string) :
  fst (snd (_feed_json_delta self delta))
  = if balanced (_json_buffer self ++ delta) then set_json_buffer self ""
    else set_json_buffer self (_json_buffer self ++ delta)%string.
Proof.
  rewrite feed_json_delta_step. cbv zeta.
  destruct (balanced (_json_buffer self ++ delta)); [ | reflexivity].
  destruct (json_loads (_json_buffer self ++ delta)); [reflexivity | ].
  destruct (json_loads_error (_json_buffer self ++ delta)); reflexivity.
Qed.

(** X25: after calls of [_feed_json_delta] the buffer is empty or
    holds text whose braces are not balanced, also when a call raises;
    the other fields of the client are as they were. *)
Theorem feed_never_keeps_balanced_text {J : JSONLib} {K : Paho} {D : Type}
  (self : t D) (deltas : list string) :
  deltas <> [] ->
  exists buffer : string,
    fst (snd (feed_each self deltas)) = set_json_buffer self buffer
    /\ (buffer = "" \/ balanced buffer = false).
Proof.
  revert self. induction deltas as [ | delta rest IH ]; intros self Hsome;
    [destruct (Hsome eq_refl) | ].
  assert (Hfirst : exists buffer,
             fst (snd (_feed_json_delta self delta)) = set_json_buffer self buffer
             /\ (buffer = "" \/ balanced buffer = false)).
  { rewrite feed_json_delta_state.
    destruct (balanced (_json_buffer self ++ delta)) eqn:Hb.
    - exists "". split; [reflexivity | left; reflexivity].
    - exists (_json_buffer self ++ delta)%string. split; [reflexivity | right; exact Hb]. }
  cbn [feed_each].
  destruct (_feed_json_delta self delta) as [log [self' [u | e]]]; cbn [fst snd] in Hfirst.
  - destruct rest as [ | delta' rest ].
    + cbn [feed_each fst snd]. exact Hfirst.
    + assert (Hrest : delta' :: rest <> []) by discriminate.
      destruct (IH self' Hrest) as [buffer [Hstate Hbuffer]].
      destruct (feed_each self' (delta' :: rest)) as [log' end_]. cbn [fst snd] in *.
      exists buffer. split; [ | exact Hbuffer].
      rewrite Hstate. destruct Hfirst as [b [-> _]]. reflexivity.
  - cbn [fst snd]. exact Hfirst.
Qed.

Lemma feed_never_keeps_balanced_text_witness :
  exists buffer : string,
    fst (snd (feed_each (J := RefJSON.lib) (K := RefJSON.unreachable)
                (init (Some Sample.mqtt)) [Frames.head; "}"; "{"]))
    = set_json_buffer (init (Some Sample.mqtt)) buffer
    /\ (buffer = "" \/ balanced buffer = false).
Proof.
  apply (feed_never_keeps_balanced_text (J := RefJSON.lib) (K := RefJSON.unreachable)
           (init (Some Sample.mqtt)) [Frames.head; "}"; "{"]).
  discriminate.
Defined.

Lemma feed_each_open {J : JSONLib} {K : Paho} {D : Type}
  (self : t D) (deltas : list string) (last : string) :
  (forall k, (1 <= k <= length deltas)%nat ->
             balanced (_json_buffer self ++ joined (firstn k deltas)) = false) ->
  feed_each self (deltas ++ [last])
  = feed_each (set_json_buffer self (_json_buffer self ++ joined deltas)%string) [last].
Proof.
  revert self. induction deltas as [ | delta rest IH ]; intros self Hopen.
  - cbn [app joined fold_right]. rewrite string_app_empty, set_json_buffer_same.
    reflexivity.
  - cbn [app]. change (feed_each self (delta :: rest ++ [last]))
      with (match _feed_json_delta self delta with
            | (log, (self', Return _)) =>
                let '(log', end_) := feed_each self' (rest ++ [last]) in
                ((log ++ log')%list, end_)
            | (log, (self', Raise e)) => (log, (self', Raise e))
            end).
    rewrite feed_json_delta_step. cbv zeta.
    assert (H1 : balanced (_json_buffer self ++ delta) = false).
    { specialize (Hopen 1%nat). cbn [firstn joined fold_right length] in Hopen.
      rewrite string_app_empty in Hopen. apply Hopen. lia. }
    rewrite H1, IH.
    + cbn [_json_buffer set_json_buffer joined fold_right].
      rewrite string_app_assoc.
      destruct (feed_each _ [last]) as [log' end_]. reflexivity.
    + intros k Hk. cbn [_json_buffer set_json_buffer]. rewrite string_app_assoc.
      specialize (Hopen (S k)). cbn [firstn joined fold_right length] in Hopen.
      apply Hopen. lia.
Qed.

(** X26: fragments that leave the braces unbalanced until the last
    one closes them are published once, assembled: the object that
    [json.loads] reads from the whole text, when the broker is
    reached; nothing when [json.loads] raises on that text.  The
    buffer is empty afterwards, also when the call raises: with what
    [connect] raises, or with what [json.loads] raises other than
    [JSONDecodeError]. *)
Theorem feed_publishes_text_closed_by_last_fragment {J : JSONLib} {K : Paho} {D : Type}
  (self : t D) (deltas : list string) (last : string) :
  (forall k, (1 <= k <= length deltas)%nat ->
             balanced (_json_buffer self ++ joined (firstn k deltas)) = false) ->
  let text := (_json_buffer self ++ joined (deltas ++ [last]))%string in
  balanced text = true ->
  fst (snd (feed_each self (deltas ++ [last]))) = set_json_buffer self ""
  /\ published (broker (fst (feed_each self (deltas ++ [last]))))
     = match json_loads text, connect_error (MQTT_BROKER self) (MQTT_PORT self) with
       | Some obj, None => [(MQTT_TOPIC self, json_dumps obj)]
       | _, _ => []
       end
  /\ snd (snd (feed_each self (deltas ++ [last])))
     = match json_loads text with
       | Some _ =>
           match connect_error (MQTT_BROKER self) (MQTT_PORT self) with
           | Some e => Raise e
           | None => Return tt
           end
       | None =>
           match json_loads_error text with
           | JSONDecodeError => Return tt
           | e => Raise e
           end
       end.
Proof.
  intros Hopen text Hclosed.
  assert (Hjoin : forall a b, joined (a ++ b) = (joined a ++ joined b)%string).
  { intros a b. induction a as [ | x a IH ]; [reflexivity | ].
    cbn [app joined fold_right]. fold (joined (a ++ b)). rewrite IH.
    symmetry. apply string_app_assoc. }
  assert (Htext : text = ((_json_buffer self ++ joined deltas) ++ last)%string).
  { unfold text. rewrite Hjoin. cbn [joined fold_right].
    rewrite string_app_empty, string_app_assoc. reflexivity. }
  rewrite (feed_each_open self deltas last Hopen).
  cbn [feed_each]. rewrite feed_json_delta_step. cbv zeta.
  cbn [_json_buffer set_json_buffer]. rewrite <- Htext, Hclosed.
  destruct (json_loads text) as [obj | ].
  - rewrite publish_table. cbn [MQTT_BROKER MQTT_PORT MQTT_TOPIC set_json_buffer].
    destruct (connect_error (MQTT_BROKER self) (MQTT_PORT self)) as [e | ];
      repeat split.
  - destruct (json_loads_error text); repeat split.
Qed.

Lemma feed_publishes_text_closed_by_last_fragment_witness :
  let self := init (Some Sample.mqtt) in
  let text := (_json_buffer self ++ joined ([Frames.head] ++ [Frames.tail]))%string in
  let run := feed_each (J := RefJSON.lib) (K := RefJSON.unreachable) self
               ([Frames.head] ++ [Frames.tail]) in
  fst (snd run) = set_json_buffer self ""
  /\ published (broker (fst run))
     = match json_loads (JSONLib := RefJSON.lib) text,
             connect_error (Paho := RefJSON.unreachable) (MQTT_BROKER self) (MQTT_PORT self)
       with
       | Some obj, None => [(MQTT_TOPIC self, json_dumps (JSONLib := RefJSON.lib) obj)]
       | _, _ => []
       end
  /\ snd (snd run)
     = match json_loads (JSONLib := RefJSON.lib) text with
       | Some _ =>
           match connect_error (Paho := RefJSON.unreachable)
                   (MQTT_BROKER self) (MQTT_PORT self) with
           | Some e => Raise e
           | None => Return tt
           end
       | None =>
           match json_loads_error (JSONLib := RefJSON.lib) text with
           | JSONDecodeError => Return tt
           | e => Raise e
           end
       end.
Proof.
  apply (feed_publishes_text_closed_by_last_fragment (J := RefJSON.lib)
           (K := RefJSON.unreachable) (init (Some Sample.mqtt)) [Frames.head] Frames.tail).
  - intros k Hk. cbn [length] in Hk. assert (k = 1)%nat as -> by lia.
    vm_compute. reflexivity.
  - vm_compute. reflexivity.
Defined.

(** ** More on utils/response_parser.py *)

Lemma repairs_bind_quiet {A B : Type} (m : M A) (f : A -> M B) :
  (forall a, quiet (f a)) -> repairs (effects (bind m f)) = repairs (effects m).
Proof.
  intros Hf. destruct m as [log [a | e]]; [ | reflexivity].
  specialize (Hf a). unfold quiet in Hf. unfold bind.
  destruct (f a) as [log' r]. cbn [effects fst] in *.
  rewrite repairs_app, Hf, app_nil_r. reflexivity.
Qed.

Lemma speak_and_dispatch_quiet {D : Type} {handler : Dispatcher D}
  (self : ResponseParser.t D) (parsed : json) :
  (forall d command, quiet (dispatch d command)) ->
  quiet (ResponseParser.speak_and_dispatch self parsed).
Proof.
  intros Hquiet. unfold ResponseParser.speak_and_dispatch, dot_get.
  destruct parsed; try reflexivity. rewrite !bind_ret.
  apply quiet_bind; [apply quiet_print | intros ?].
  apply quiet_bind; [apply quiet_print | intros ?].
  destruct (ResponseParser.dispatcher self); [apply Hquiet | apply quiet_ret].
Qed.

Lemma mqtt_dispatch_quiet {B : Builtins} (self : MQTTHandler.t) (command : json) :
  quiet (MQTTHandler.dispatch self command).
Proof.
  assert (Hloop : forall action device targets,
             quiet (MQTTHandler.publish_each action device targets)).
  { intros action device targets. rewrite publish_each_log. unfold quiet. cbn [effects fst].
    induction targets as [ | c targets IH ]; [reflexivity | exact IH]. }
  unfold MQTTHandler.dispatch, dot_get, iterate.
  destruct command as [ | | | | | items ]; try reflexivity.
  rewrite !bind_ret.
  destruct (Py.get items "target"); try reflexivity; rewrite bind_ret; apply Hloop.
Qed.

(** X27: with a dispatcher that makes no request of its own,
    [process] asks for a repair exactly when the text fails validation
    and a transcript is available, and then once, for that transcript
    and that text.  An exception of [json.loads] that
    [is_valid_command_structure] does not catch leaves [process]
    before anything is printed or requested. *)
Theorem process_requests_repair_exactly_when_invalid
  {J : JSONLib} {O : OpenAI} {D : Type} {handler : Dispatcher D}
  (self : ResponseParser.t D) (raw : string) (transcript : option string) :
  (forall d command, quiet (dispatch d command)) ->
  match escapes raw with
  | Some e => ResponseParser.process self raw transcript = ([], Raise e)
  | None =>
      repairs (effects (ResponseParser.process self raw transcript))
      = if match json_loads raw with
           | Some parsed => validate smart_home_command_schema parsed
           | None => false
           end
        then []
        else match transcript with
             | Some text =>
                 if String.eqb text "" then []
                 else [{| req_model := "gpt-4-1106-preview";
                          req_gpt := None;
                          req_temperature := 0;
                          req_messages :=
                            [("user", ("Transcript: " ++ text ++ OpenAIValidator.LF
                                       ++ "Invalid output: " ++ raw)%string)] |}]
             | None => []
             end
  end.
Proof.
  intros Hquiet.
  assert (Hrest : forall fixed,
             quiet (if negb (truthy fixed) then print CouldNotRecover ;; ret tt
                    else parsed <- loads_object fixed ;;
                         ResponseParser.speak_and_dispatch self parsed)).
  { intros fixed. destruct (negb (truthy fixed)); [reflexivity | ].
    apply quiet_bind; [ | intros parsed; apply speak_and_dispatch_quiet; exact Hquiet].
    unfold loads_object, loads. destruct fixed as [ | | | text | | ]; try reflexivity.
    destruct (json_loads text); reflexivity. }
  assert (Hinvalid :
            Validation.is_valid_command_structure raw = ret (false, JNull) ->
            repairs (effects (ResponseParser.process self raw transcript))
            = match transcript with
              | Some text =>
                  if String.eqb text "" then []
                  else [OpenAIValidator.fallback_request Validation.validator text raw]
              | None => []
              end).
  { intros Hbad.
    pose proof (failed_validation_does_not_escape raw Hbad) as Hreturns.
    assert (Hprocess : repairs (effects (ResponseParser.process self raw transcript))
                       = repairs (effects (Validation.handle_invalid_response raw transcript))).
    { unfold ResponseParser.process. rewrite Hbad, bind_ret. cbn [negb].
      unfold print at 1. rewrite bind_emit. cbn [effects fst repairs flat_map app].
      apply (repairs_bind_quiet _ _ Hrest). }
    rewrite Hprocess. destruct transcript as [text | ].
    - destruct (String.eqb_spec text "") as [-> | Hsome].
      + unfold Validation.handle_invalid_response.
        destruct (error_details_returns raw Hreturns) as [details ->]. reflexivity.
      + apply handle_invalid_response_requests_repair; assumption.
    - unfold Validation.handle_invalid_response.
      destruct (error_details_returns raw Hreturns) as [details ->]. reflexivity. }
  assert (Hescape : forall e,
             Validation.is_valid_command_structure raw = raise e ->
             ResponseParser.process self raw transcript = ([], Raise e)).
  { intros e Hraise. unfold ResponseParser.process. rewrite Hraise. reflexivity. }
  pose proof (validators_table raw) as Htable. unfold escapes, caught.
  destruct (json_loads raw) as [parsed | ].
  - destruct (validate smart_home_command_schema parsed).
    + destruct Htable as [_ Hok]. unfold ResponseParser.process. rewrite Hok, bind_ret.
      cbn [negb]. apply speak_and_dispatch_quiet. exact Hquiet.
    + destruct Htable as [_ Hbad]. exact (Hinvalid Hbad).
  - destruct (json_loads_error raw); cbn [exn_eqb orb]; destruct Htable as [_ Hends];
      first [exact (Hinvalid Hends) | exact (Hescape _ Hends)].
Qed.

Lemma process_requests_repair_exactly_when_invalid_witness :
  match escapes (J := RefJSON.bounded 1000) "{invalid" with
  | Some e =>
      ResponseParser.process (J := RefJSON.bounded 1000)
        (O := RefJSON.scripted (Some Sample.foo_text))
        (handler := MQTTHandler_Dispatcher (B := RefJSON.builtins))
        (ResponseParser.init (Some Sample.mqtt)) "{invalid" (Some "turn on the red light")
      = ([], Raise e)
  | None =>
      repairs (effects (ResponseParser.process (J := RefJSON.bounded 1000)
                          (O := RefJSON.scripted (Some Sample.foo_text))
                          (handler := MQTTHandler_Dispatcher (B := RefJSON.builtins))
                          (ResponseParser.init (Some Sample.mqtt))
                          "{invalid" (Some "turn on the red light")))
      = if match json_loads (JSONLib := RefJSON.bounded 1000) "{invalid" with
           | Some parsed => validate smart_home_command_schema parsed
           | None => false
           end
        then []
        else match Some "turn on the red light" with
             | Some text =>
                 if String.eqb text "" then []
                 else [{| req_model := "gpt-4-1106-preview";
                          req_gpt := None;
                          req_temperature := 0;
                          req_messages :=
                            [("user", ("Transcript: " ++ text ++ OpenAIValidator.LF
                                       ++ "Invalid output: " ++ "{invalid")%string)] |}]
             | None => []
             end
  end.
Proof.
  apply (process_requests_repair_exactly_when_invalid (J := RefJSON.bounded 1000)
           (O := RefJSON.scripted (Some Sample.foo_text))
           (handler := MQTTHandler_Dispatcher (B := RefJSON.builtins))
           (ResponseParser.init (Some Sample.mqtt)) "{invalid" (Some "turn on the red light")).
  intros d command. apply mqtt_dispatch_quiet.
Defined.


Lemma offline_bind {A B : Type} (m : M A) (f : A -> M B) :
  offline m -> (forall a, offline (f a)) -> offline (bind m f).
Proof.
  unfold offline. destruct m as [log [a | e]]; cbn [effects fst]; intros Hm Hf.
  - specialize (Hf a). unfold bind. destruct (f a) as [log' r].
    cbn [effects fst] in *. rewrite forallb_app, Hm, Hf. reflexivity.
  - exact Hm.
Qed.

Lemma offline_try_except {A : Type} (body : M A) (catches : exn -> bool) (handler : exn -> M A) :
  offline body -> (forall e, offline (handler e)) -> offline (try_except body catches handler).
Proof.
  unfold offline. destruct body as [log [a | e]]; cbn [effects fst]; intros Hm Hf.
  - exact Hm.
  - unfold try_except. destruct (catches e); [ | exact Hm].
    specialize (Hf e). destruct (handler e) as [log' r].
    cbn [effects fst] in *. rewrite forallb_app, Hm, Hf. reflexivity.
Qed.

Ltac offline_branches :=
  repeat match goal with
         | |- offline (if ?c then _ else _) => destruct c
         | |- offline (match ?x with Some _ => _ | None => _ end) => destruct x
         | |- offline (match ?x with JNull => _ | _ => _ end) => destruct x
         | |- offline (let '(_, _) := ?x in _) => destruct x
         | |- offline (match ?x with JSONDecodeError => _ | _ => _ end) => destruct x
         | |- offline (bind _ _) => apply offline_bind; [ | intros ? ]
         | |- offline (try_except _ _ _) => apply offline_try_except; [ | intros ? ]
         | |- offline _ => reflexivity
         end.

(** X28: without a dispatcher [process] never reaches the broker:
    each of its effects is a printed line or the request for repair. *)
Theorem process_without_dispatcher_stays_off_the_broker
  {J : JSONLib} {O : OpenAI} {D : Type} {handler : Dispatcher D}
  (raw : string) (transcript : option string) :
  Forall (fun e => off_broker e = true)
    (effects (ResponseParser.process (ResponseParser.init (D := D) None) raw transcript)).
Proof.
  assert (Hoff : offline (ResponseParser.process (ResponseParser.init (D := D) None)
                            raw transcript)).
  { unfold ResponseParser.process, ResponseParser.speak_and_dispatch,
      Validation.is_valid_command_structure, Validation.handle_invalid_response,
      Validation.get_validation_error_details, OpenAIValidator.fallback,
      OpenAIValidator.create_and_read, jsonschema_validate, loads_object, loads, dot_get.
    cbn [ResponseParser.init ResponseParser.dispatcher].
    offline_branches. }
  unfold offline in Hoff. rewrite forallb_forall in Hoff.
  apply Forall_forall. exact Hoff.
Qed.
